(** * Grafana dashboard relation library: consumer and provider

    A shallow embedding of [lib/charms/grafana_k8s/v0/grafana_dashboard.py]:
    the consumer side ([GrafanaDashboardConsumer], which submits dashboard
    templates) and the provider side ([GrafanaDashboardProvider], which
    validates them against the known data sources, renders them and
    reports back).

    Python objects are modelled as follows.
    - A JSON object whose values are strings, booleans or [None] is a
      [gmap string jval]; Python's [==] on such dictionaries is Leibniz
      equality.
    - [StoredState] dictionaries that the code iterates over are
      insertion-ordered association lists keyed by the relation id.
    - A method is a function in the monad [M S], which threads the object's
      state and may raise; what a raising call has already written stays
      written, as in Python.
    - [zlib], [base64], [str.encode], [bytes.decode] and Jinja are
      parameters, collected in the class [Externals]. *)

From stdpp Require Import gmap strings list fin_maps.
From Stdlib Require Import ZArith Lia.

Open Scope string_scope.

(** ** Python values *)

(** A value of a dashboard record: [None], a boolean or a string. *)
Inductive jval : Type :=
| JNull
| JBool (b : bool)
| JStr (s : string).

#[global] Instance jval_eq_dec : EqDecision jval.
Proof. solve_decision. Defined.

(** [bool(v)]. *)
Definition truthy (v : jval) : bool :=
  match v with
  | JNull => false
  | JBool b => b
  | JStr s => negb (bool_decide (s = ""))
  end.

(** [bool(d)] for a dictionary: non-empty. *)
Definition dict_truthy (d : gmap string jval) : bool :=
  negb (bool_decide (d = ∅)).

(** [d.get(k, dflt)]. *)
Definition dict_get_default (d : gmap string jval) (k : string) (dflt : jval) : jval :=
  default dflt (d !! k).

(** What [json.loads] makes of a payload: an object, an array (of the given
    length), a number or another scalar. *)
Inductive loaded : Type :=
| LDict (d : gmap string jval)
| LList (len : nat)
| LNum (n : Z)
| LVal (v : jval).

(** [bool(x)] for a loaded JSON document. *)
Definition loaded_truthy (x : loaded) : bool :=
  match x with
  | LDict d => dict_truthy d
  | LList len => negb (Nat.eqb len 0)
  | LNum n => negb (Z.eqb n 0)
  | LVal v => truthy v
  end.

(** [a in b] for strings: [b] has [a] as a contiguous substring. *)
Fixpoint startswith (p s : string) : bool :=
  match p, s with
  | EmptyString, _ => true
  | String _ _, EmptyString => false
  | String a p', String b s' => bool_decide (a = b) && startswith p' s'
  end.

Fixpoint str_in (p s : string) : bool :=
  startswith p s ||
  match s with
  | EmptyString => false
  | String _ s' => str_in p s'
  end.

(** ** Exceptions and the method monad *)

Inductive exn : Type :=
| KeyError
| TypeError
| AttributeError
| IndexError
| JSONDecodeError
| BinasciiError
| ZlibError
| UnicodeDecodeError
| TemplateSyntaxError
| TemplateRenderError
| TooManyRelatedAppsError.

#[global] Instance exn_eq_dec : EqDecision exn.
Proof. solve_decision. Defined.

Inductive outcome (A : Type) : Type :=
| Return (a : A)
| Raise (e : exn).

Arguments Return {A} a.
Arguments Raise {A} e.

(** A method of an object with state [S]. *)
Definition M (S A : Type) : Type := S -> outcome A * S.

Definition ret {S A} (a : A) : M S A := fun s => (Return a, s).

Definition raise {S A} (e : exn) : M S A := fun s => (Raise e, s).

Definition bind {S A B} (m : M S A) (k : A -> M S B) : M S B :=
  fun s =>
    match m s with
    | (Return a, s') => k a s'
    | (Raise e, s') => (Raise e, s')
    end.

Notation "x <- c1 ;; c2" := (bind c1 (fun x => c2))
  (at level 100, c1 at next level, right associativity).
Notation "c1 ;; c2" := (bind c1 (fun _ => c2))
  (at level 100, right associativity).

Definition get_state {S} : M S S := fun s => (Return s, s).

Definition modify {S} (f : S -> S) : M S unit := fun s => (Return tt, f s).

(** Lift a pure computation that may raise. *)
Definition lift {S A} (o : outcome A) : M S A := fun s => (o, s).

(** [try: body except <the exceptions h accepts>: h e]. *)
Definition try_except {S A} (body : M S A) (h : exn -> option (M S A)) : M S A :=
  fun s =>
    match body s with
    | (Return a, s') => (Return a, s')
    | (Raise e, s') =>
        match h e with
        | Some handler => handler s'
        | None => (Raise e, s')
        end
    end.

(** [for x in xs: body x]. *)
Fixpoint for_each {S A} (xs : list A) (body : A -> M S unit) : M S unit :=
  match xs with
  | [] => ret tt
  | x :: rest => body x ;; for_each rest body
  end.

(** ** Insertion-ordered dictionaries keyed by relation id *)

Section PyDict.
Context {V : Type}.

(** [d.get(k)]. *)
Fixpoint dict_get (k : Z) (d : list (Z * V)) : option V :=
  match d with
  | [] => None
  | (k', v) :: d' => if Z.eqb k k' then Some v else dict_get k d'
  end.

(** [d[k] = v]: an existing key keeps its position, a new key goes last. *)
Fixpoint dict_set (k : Z) (v : V) (d : list (Z * V)) : list (Z * V) :=
  match d with
  | [] => [(k, v)]
  | (k', v') :: d' =>
      if Z.eqb k k' then (k, v) :: d' else (k', v') :: dict_set k v d'
  end.

(** [del d[k]], doing nothing when [k] is not a key. *)
Fixpoint dict_del (k : Z) (d : list (Z * V)) : list (Z * V) :=
  match d with
  | [] => []
  | (k', v) :: d' =>
      if Z.eqb k k' then dict_del k d' else (k', v) :: dict_del k d'
  end.

Definition dict_keys (d : list (Z * V)) : list Z := map fst d.

End PyDict.

(** ** Bytes *)

#[global] Instance byte_eq_dec : EqDecision Byte.byte.
Proof.
  intros x y. destruct (Byte.eqb x y) eqn:Heq.
  - left. by apply Byte.byte_dec_bl.
  - right. intros ->. by rewrite Byte.byte_dec_lb in Heq.
Defined.

(** ** The libraries the code calls *)

Class Externals : Type := {
  (** [str.encode()] and [bytes.decode()] (UTF-8). *)
  str_encode : string -> list Byte.byte;
  bytes_decode : list Byte.byte -> option string;
  (** [zlib.compress(b, level)] and [zlib.decompress]. *)
  zlib_compress : list Byte.byte -> Z -> list Byte.byte;
  zlib_decompress : list Byte.byte -> option (list Byte.byte);
  (** [base64.b64encode] and [base64.b64decode]. *)
  b64encode : list Byte.byte -> list Byte.byte;
  b64decode : list Byte.byte -> option (list Byte.byte);
  (** [jinja2.Template(source)]; [None] is [TemplateSyntaxError]. *)
  template : Type;
  Template : string -> option template;
  (** [tm.render(grafana_datasource=, prometheus_target=, prometheus_query=)];
      [None] is an exception raised while rendering. *)
  render : template -> string -> jval -> jval -> option string;
  (** [str.capitalize()]. *)
  capitalize : string -> string;
}.

(** What the libraries guarantee about the codec: each decoder undoes its
    encoder, and base64 text survives [.decode()] followed by [.encode()]. *)
Class CodecLaws (E : Externals) : Prop := {
  bytes_decode_encode : forall s, bytes_decode (str_encode s) = Some s;
  zlib_decompress_compress :
    forall b level, zlib_decompress (zlib_compress b level) = Some b;
  b64decode_encode : forall b, b64decode (b64encode b) = Some b;
  b64_text :
    forall b, exists t, bytes_decode (b64encode b) = Some t /\
                        str_encode t = b64encode b;
}.

Section Codec.
Context {E : Externals}.

Definition of_option {A} (e : exn) (o : option A) : outcome A :=
  match o with
  | Some a => Return a
  | None => Raise e
  end.

(** [base64.b64encode(zlib.compress(data.encode(), 9)).decode()]. *)
Definition encode_template (data : string) : outcome string :=
  of_option UnicodeDecodeError
    (bytes_decode (b64encode (zlib_compress (str_encode data) 9))).

(** [zlib.decompress(base64.b64decode(t.encode())).decode()]. *)
Definition decode_template (t : string) : outcome string :=
  match b64decode (str_encode t) with
  | None => Raise BinasciiError
  | Some z =>
      match zlib_decompress z with
      | None => Raise ZlibError
      | Some b => of_option UnicodeDecodeError (bytes_decode b)
      end
  end.

End Codec.

(** [d[k]]: [KeyError] when [k] is missing. *)
Definition dict_index (d : gmap string jval) (k : string) : outcome jval :=
  of_option KeyError (d !! k).

(** ** The consumer: [GrafanaDashboardConsumer] *)

Module GrafanaDashboardConsumer.

(** A remote unit of the [monitoring] relation, as far as the code reads it. *)
Record unit_info : Type := {
  backend_model_name : string;
  backend_model_uuid : string;
  unit_app_name : string;
}.

(** A [dashboard_status_changed] event. *)
Record status_event : Type := {
  error_message : string;
  status_valid : bool;
}.

(** What the charm and the model look like when a method is called. *)
Record charm : Type := {
  is_leader : bool;
  app_name : string;
  model_name : string;
  model_uuid : string;
  (** ids of the relations named [self.name] *)
  relations : list Z;
  (** the relations named [monitoring], each with its remote units *)
  monitoring : list (list unit_info);
  (** [self.relation_id] *)
  relation_id : option Z;
}.

Record state : Type := {
  (** [self._stored.dashboards] *)
  dashboards : list (Z * gmap string jval);
  (** [rel.data[self.charm.app]["dashboards"]], before [json.dumps] *)
  relation_dashboards : gmap Z (gmap string jval);
  (** the [dashboard_status_changed] events emitted so far, oldest first *)
  status_events : list status_event;
}.

Definition initial : state :=
  {| dashboards := []; relation_dashboards := ∅; status_events := [] |}.

Definition emit_status (ev : status_event) : M state unit :=
  modify (fun st =>
    {| dashboards := dashboards st;
       relation_dashboards := relation_dashboards st;
       status_events := status_events st ++ [ev] |}).

Definition store_dashboard (rel_id : Z) (d : gmap string jval) : M state unit :=
  modify (fun st =>
    {| dashboards := dict_set rel_id d (dashboards st);
       relation_dashboards := relation_dashboards st;
       status_events := status_events st |}).

Definition write_relation (rel_id : Z) (d : gmap string jval) : M state unit :=
  modify (fun st =>
    {| dashboards := dashboards st;
       relation_dashboards := <[rel_id := d]> (relation_dashboards st);
       status_events := status_events st |}).

(** [model.get_relation(name)] over the relations [rels] of that name:
    the framework wants the name to have at most one relation. *)
Definition get_relation {S R} (rels : list R) : M S (option R) :=
  match rels with
  | [] => ret None
  | [r] => ret (Some r)
  | _ => raise TooManyRelatedAppsError
  end.

(** [model.get_relation(name, rel_id)], the relation being known by its
    id: with an id the framework hands out the relation of that id, live
    or not. *)
Definition get_relation_by_id {S} (rels : list Z) (rel_id : option Z)
  : M S (option Z) :=
  match rel_id with
  | Some i => ret (Some i)
  | None => get_relation rels
  end.

(** [x.attr] where [x] may be [None]. *)
Definition attr {S R} (x : option R) : M S R :=
  match x with
  | Some r => ret r
  | None => raise AttributeError
  end.

(** [units.pop()] on the set of remote units; an empty set raises
    [KeyError]. *)
Definition units_pop {S} (units : list unit_info) : M S unit_info :=
  match units with
  | [] => raise KeyError
  | u :: _ => ret u
  end.

(** [some_dict.pop()], called without a key: always a [TypeError]. *)
Definition dict_pop_no_key {S} (d : gmap string jval) : M S (gmap string jval) :=
  raise TypeError.

Section Methods.
Context {E : Externals}.
Variable self : charm.

Definition _update_dashboards (data : string) (rel_id : Z) (prom_unit : unit_info)
    (uuid4 : string) : M state unit :=
  if negb (is_leader self) then ret tt
  else
    let prom_identifier :=
      backend_model_name prom_unit +:+ "_" +:+ backend_model_uuid prom_unit
        +:+ "_" +:+ unit_app_name prom_unit in
    let prom_target :=
      capitalize (app_name self) +:+ " [ " +:+ model_name self +:+ " / "
        +:+ model_uuid self +:+ " ]" in
    let prom_query :=
      "juju_model='" +:+ model_name self +:+ "',juju_model_uuid='"
        +:+ model_uuid self +:+ "',juju_application='" +:+ app_name self
        +:+ "'" in
    template <- lift (encode_template data) ;;
    let stored_data : gmap string jval :=
      <["monitoring_identifier" := JStr prom_identifier]>
      (<["monitoring_target" := JStr prom_target]>
      (<["monitoring_query" := JStr prom_query]>
      (<["template" := JStr template]>
      (<["removed" := JBool false]>
      (<["invalidated" := JBool false]>
      (<["invalidated_reason" := JStr ""]>
      (<["uuid" := JStr uuid4]> ∅))))))) in
    rel <- get_relation_by_id (relations self) (Some rel_id) ;;
    store_dashboard rel_id stored_data ;;
    rel_id' <- attr rel ;;
    write_relation rel_id' stored_data.

Definition add_dashboard (data : string) (rel_id : option Z) (uuid4 : string)
  : M state unit :=
  rel <- get_relation_by_id (relations self) rel_id ;;
  rel_id <- match rel_id with
            | Some i => ret i
            | None => attr rel
            end ;;
  prom_rel <- get_relation (monitoring self) ;;
  prom_unit <-
    try_except
      (units <- attr prom_rel ;;
       u <- units_pop units ;;
       ret (Some u))
      (fun e =>
         match e with
         | IndexError | AttributeError =>
             Some (emit_status
                     {| error_message :=
                          "Waiting for a prometheus_scrape relation to send dashboard data";
                        status_valid := false |} ;;
                   ret None)
         | _ => None
         end) ;;
  match prom_unit with
  | None => ret tt
  | Some u => _update_dashboards data rel_id u uuid4
  end.

Definition remove_dashboard (rel_id : option Z) : M state unit :=
  if negb (is_leader self) then ret tt
  else
    let rel_id := match rel_id with
                  | None => relation_id self
                  | Some i => Some i
                  end in
    rel <- get_relation_by_id (relations self) rel_id ;;
    rel_id' <- attr rel ;;
    st <- get_state ;;
    stored <- lift (of_option KeyError (dict_get rel_id' (dashboards st))) ;;
    dash <- dict_pop_no_key stored ;;
    let dash := <["removed" := JBool true]> dash in
    rel_id'' <- attr rel ;;
    write_relation rel_id'' dash.

Definition invalidate_dashboard (reason : string) (rel_id : option Z) : M state unit :=
  if negb (is_leader self) then ret tt
  else
    let rel_id := match rel_id with
                  | None => relation_id self
                  | Some i => Some i
                  end in
    rel <- get_relation_by_id (relations self) rel_id ;;
    rel_id' <- attr rel ;;
    st <- get_state ;;
    dash <- lift (of_option KeyError (dict_get rel_id' (dashboards st))) ;;
    let dash := <["invalidated_reason" := JStr reason]>
                (<["invalidated" := JBool true]> dash) in
    store_dashboard rel_id' dash ;;
    write_relation rel_id' dash.

End Methods.

End GrafanaDashboardConsumer.

(** ** The provider: [GrafanaDashboardProvider] *)

Module GrafanaDashboardProvider.

(** An entry of [self._stored.dashboards]: the rendered dashboard, where it
    belongs, and the record it was rendered from. *)
Record dashboard_msg : Type := {
  target : jval;
  dashboard : string;
  data : gmap string jval;
}.

(** An entry of [self._stored.active_sources], read through its
    ["source-name"] only. *)
Record source : Type := {
  source_name : string;
}.

(** What is written under ["event"] in the relation data, before
    [json.dumps]. *)
Record feedback : Type := {
  errors : jval;
  valid : bool;
}.

#[global] Instance feedback_eq_dec : EqDecision feedback.
Proof. solve_decision. Defined.

(** What a method does that others can see: a [dashboards_changed] event,
    or a write of ["event"] to the relation data of a relation. *)
Inductive effect : Type :=
| DashboardsChanged
| EventWritten (rel_id : Z) (fb : feedback).

#[global] Instance effect_eq_dec : EqDecision effect.
Proof. solve_decision. Defined.

Record state : Type := {
  (** [self._stored.dashboards] *)
  dashboards : list (Z * dashboard_msg);
  (** [self._stored.invalid_dashboards] *)
  invalid_dashboards : list (Z * gmap string jval);
  (** [self._stored.active_sources] *)
  active_sources : list source;
  (** [rel.data[self.charm.app]["event"]] of each relation *)
  relation_event : gmap Z feedback;
  (** everything emitted and written so far, oldest first *)
  effects : list effect;
}.

(** [self._stored.set_default(dashboards=dict(), invalid_dashboards=dict(),
    active_sources=[])]. *)
Definition initial : state :=
  {| dashboards := []; invalid_dashboards := []; active_sources := [];
     relation_event := ∅; effects := [] |}.

(** [self.on.dashboards_changed.emit()]. *)
Definition emit_dashboards_changed : M state unit :=
  modify (fun st =>
    {| dashboards := dashboards st;
       invalid_dashboards := invalid_dashboards st;
       active_sources := active_sources st;
       relation_event := relation_event st;
       effects := effects st ++ [DashboardsChanged] |}).

(** [rel.data[self.charm.app]["event"] = json.dumps(fb)]. The write itself
    is the transport's business and is taken to succeed. *)
Definition write_event (rel_id : Z) (fb : feedback) : M state unit :=
  modify (fun st =>
    {| dashboards := dashboards st;
       invalid_dashboards := invalid_dashboards st;
       active_sources := active_sources st;
       relation_event := <[rel_id := fb]> (relation_event st);
       effects := effects st ++ [EventWritten rel_id fb] |}).

(** [self._stored.dashboards[rel_id] = msg]. *)
Definition set_dashboard (rel_id : Z) (msg : dashboard_msg) : M state unit :=
  modify (fun st =>
    {| dashboards := dict_set rel_id msg (dashboards st);
       invalid_dashboards := invalid_dashboards st;
       active_sources := active_sources st;
       relation_event := relation_event st;
       effects := effects st |}).

(** [self._stored.dashboards.pop(rel_id, None)]. *)
Definition pop_dashboard (rel_id : Z) : M state (option dashboard_msg) :=
  fun st =>
    (Return (dict_get rel_id (dashboards st)),
     {| dashboards := dict_del rel_id (dashboards st);
        invalid_dashboards := invalid_dashboards st;
        active_sources := active_sources st;
        relation_event := relation_event st;
        effects := effects st |}).

(** [self._stored.dashboards.pop(rel_id)]: [KeyError] when missing. *)
Definition pop_dashboard_strict (rel_id : Z) : M state dashboard_msg :=
  st <- get_state ;;
  match dict_get rel_id (dashboards st) with
  | None => raise KeyError
  | Some msg => pop_dashboard rel_id ;; ret msg
  end.

(** [self._stored.invalid_dashboards[rel_id] = data]. *)
Definition set_invalid (rel_id : Z) (d : gmap string jval) : M state unit :=
  modify (fun st =>
    {| dashboards := dashboards st;
       invalid_dashboards := dict_set rel_id d (invalid_dashboards st);
       active_sources := active_sources st;
       relation_event := relation_event st;
       effects := effects st |}).

(** [self._stored.invalid_dashboards.pop(rel_id, None)]. *)
Definition pop_invalid (rel_id : Z) : M state (option (gmap string jval)) :=
  fun st =>
    (Return (dict_get rel_id (invalid_dashboards st)),
     {| dashboards := dashboards st;
        invalid_dashboards := dict_del rel_id (invalid_dashboards st);
        active_sources := active_sources st;
        relation_event := relation_event st;
        effects := effects st |}).

(** [self._stored.active_sources = sources]. *)
Definition set_active_sources (sources : list source) : M state unit :=
  modify (fun st =>
    {| dashboards := dashboards st;
       invalid_dashboards := invalid_dashboards st;
       active_sources := sources;
       relation_event := relation_event st;
       effects := effects st |}).

(** The ["dashboards"] entry of the remote application's relation data as
    the handler meets it: missing or empty, or a text that [json.loads]
    either rejects ([None]) or loads. *)
Inductive inbound : Type :=
| NoPayload
| Payload (parsed : option loaded).

(** [[x["source-name"] for x in sources if data["monitoring_identifier"] in
    x["source-name"]]]: the identifier is looked up once per source, and
    [in] wants a string on its left. *)
Fixpoint matching_source_names (d : gmap string jval) (sources : list source)
  : outcome (list string) :=
  match sources with
  | [] => Return []
  | x :: rest =>
      match d !! "monitoring_identifier" with
      | None => Raise KeyError
      | Some (JStr ident) =>
          match matching_source_names d rest with
          | Return names =>
              Return (if str_in ident (source_name x)
                      then source_name x :: names else names)
          | Raise e => Raise e
          end
      | Some _ => Raise TypeError
      end
  end.

Section Methods.
Context {E : Externals}.

Definition _purge_dead_dashboard (rel_id : Z) : M state unit :=
  popped <- pop_dashboard rel_id ;;
  match popped with
  | Some _ => emit_dashboards_changed
  | None => ret tt
  end.

Definition _find_grafana_datasource (d : gmap string jval) (rel : Z)
  : M state (option string) :=
  try_except
    (st <- get_state ;;
     names <- lift (matching_source_names d (active_sources st)) ;;
     match names with
     | [] => raise IndexError
     | name :: _ => ret (Some name)
     end)
    (fun e =>
       match e with
       | IndexError =>
           Some
             (let msg := "Cannot find a Grafana datasource matching the dashboard" in
              set_invalid rel d ;;
              _purge_dead_dashboard rel ;;
              write_event rel {| errors := JStr msg; valid := false |} ;;
              ret None)
       | _ => None
       end).

(** [data["template"]] decoded and handed to [Template]. *)
Definition load_template (d : gmap string jval) : M state template :=
  t <- lift (dict_index d "template") ;;
  source_text <- match t with
                 | JStr s => lift (decode_template s)
                 | _ => raise AttributeError
                 end ;;
  lift (of_option TemplateSyntaxError (Template source_text)).

Definition _validate_dashboard_data (d : gmap string jval) (rel : Z) : M state unit :=
  grafana_datasource <- _find_grafana_datasource d rel ;;
  match grafana_datasource with
  | None | Some "" => ret tt
  | Some grafana_datasource =>
      tm <- try_except
              (tm <- load_template d ;; ret (Some tm))
              (fun e =>
                 match e with
                 | TemplateSyntaxError =>
                     Some
                       (_purge_dead_dashboard rel ;;
                        let msg := "Cannot add Grafana dashboard. Template is not valid Jinja" in
                        write_event rel {| errors := JStr msg; valid := false |} ;;
                        ret None)
                 | _ => None
                 end) ;;
      match tm with
      | None => ret tt
      | Some tm =>
          prometheus_target <- lift (dict_index d "monitoring_target") ;;
          prometheus_query <- lift (dict_index d "monitoring_query") ;;
          rendered <- lift (of_option TemplateRenderError
                              (render tm grafana_datasource prometheus_target
                                 prometheus_query)) ;;
          ident <- lift (dict_index d "monitoring_identifier") ;;
          encoded <- lift (encode_template rendered) ;;
          let msg := {| target := ident; dashboard := encoded; data := d |} in
          popped <- pop_invalid rel ;;
          (match popped with
           | Some old =>
               if dict_truthy old
               then write_event rel {| errors := JStr ""; valid := true |}
               else ret tt
           | None => ret tt
           end) ;;
          st <- get_state ;;
          let stored_data :=
            match dict_get rel (dashboards st) with
            | Some stored => data stored
            | None => ∅
            end in
          let coerced_data := if dict_truthy stored_data then stored_data else ∅ in
          if negb (bool_decide (coerced_data = data msg))
          then set_dashboard rel msg ;; emit_dashboards_changed
          else ret tt
      end
  end.

Definition _on_grafana_dashboard_relation_changed (is_leader : bool) (rel : Z)
    (event : inbound) : M state unit :=
  if negb is_leader then ret tt
  else
    match event with
    | NoPayload => ret tt
    | Payload None => raise JSONDecodeError
    | Payload (Some x) =>
        if negb (loaded_truthy x) then ret tt
        else
          match x with
          | LList _ => raise TypeError
          | LNum _ | LVal _ => raise AttributeError
          | LDict d0 =>
              let d := delete "uuid" d0 in
              if truthy (dict_get_default d "removed" (JBool false))
              then pop_dashboard_strict rel ;; ret tt
              else if truthy (dict_get_default d "invalidated" (JBool false))
              then
                set_invalid rel d ;;
                _purge_dead_dashboard rel ;;
                write_event rel
                  {| errors := dict_get_default d "invalidated_reason" JNull;
                     valid := false |}
              else
                st <- get_state ;;
                match active_sources st with
                | [] =>
                    let msg := "Cannot add Grafana dashboard. No configured datasources" in
                    set_invalid rel d ;;
                    _purge_dead_dashboard rel ;;
                    write_event rel {| errors := JStr msg; valid := false |}
                | _ :: _ => _validate_dashboard_data d rel
                end
          end
    end.

(** In both loops [get_relation(self.name, rel_id)] is called with an id,
    for which the framework hands out the relation of that id: [rel.id] is
    [rel_id]. The loops run over copies taken before the first call. *)
Definition renew_dashboards (sources : list source) : M state unit :=
  set_active_sources sources ;;
  st <- get_state ;;
  let invalid_dashboards := invalid_dashboards st in
  let active_dashboards := dashboards st in
  for_each invalid_dashboards
    (fun '(rel_id, d) => _validate_dashboard_data d rel_id) ;;
  for_each active_dashboards
    (fun '(rel_id, stored) => _validate_dashboard_data (data stored) rel_id).

Definition _on_grafana_dashboard_relation_broken (is_leader : bool) (rel_id : Z)
  : M state unit :=
  if negb is_leader then ret tt
  else
    try_except
      (pop_dashboard rel_id ;; emit_dashboards_changed)
      (fun e =>
         match e with
         | KeyError => Some (ret tt)
         | _ => None
         end).

End Methods.

End GrafanaDashboardProvider.

(** ** Sample libraries

    An instance of [Externals] to run the methods on concrete records. It
    is exact on the texts used below, whose compressed and encoded forms
    were computed with CPython's [zlib] and [base64]; any other input is
    framed by a zero byte, which keeps every decoder the inverse of its
    encoder. A Rocq string stands for the text with that UTF-8 encoding. *)

Module Sample.

Definition bytes_of (l : list N) : list Byte.byte :=
  map (fun n => default Byte.x00 (Byte.of_N n)) l.

(** A codec given by a table of (plain, coded) pairs. *)
Fixpoint table_encode (tbl : list (list Byte.byte * list Byte.byte))
    (b : list Byte.byte) : list Byte.byte :=
  match tbl with
  | [] => Byte.x00 :: b
  | (plain, coded) :: rest =>
      if bool_decide (plain = b) then coded else table_encode rest b
  end.

Fixpoint table_decode (tbl : list (list Byte.byte * list Byte.byte))
    (c : list Byte.byte) : option (list Byte.byte) :=
  match tbl with
  | [] =>
      match c with
      | Byte.x00 :: b => Some b
      | _ => None
      end
  | (plain, coded) :: rest =>
      if bool_decide (coded = c) then Some plain else table_decode rest c
  end.

Definition datasource_template : string := "{{ grafana_datasource }}".
Definition unclosed_template : string := "{{ unclosed".
Definition datasource_name : string := "model-abc_uuid1_appX [grafana]".

Definition datasource_template_z : list Byte.byte :=
  bytes_of [120; 218; 171; 174; 86; 72; 47; 74; 76; 75; 204; 75; 140; 79; 73;
            44; 73; 44; 206; 47; 45; 74; 78; 85; 168; 173; 5; 0; 118; 123; 9;
            139]%N.
Definition unclosed_template_z : list Byte.byte :=
  bytes_of [120; 218; 171; 174; 86; 40; 205; 75; 206; 201; 47; 78; 77; 1; 0;
            26; 157; 4; 116]%N.
Definition datasource_name_z : list Byte.byte :=
  bytes_of [120; 218; 203; 205; 79; 73; 205; 209; 77; 76; 74; 142; 47; 45;
            205; 76; 49; 140; 79; 44; 40; 136; 80; 136; 78; 47; 74; 76; 75;
            204; 75; 140; 5; 0; 176; 24; 11; 76]%N.

Definition datasource_template_b64 : string :=
  "eNqrrlZIL0pMS8xLjE9JLEkszi8tSk5VqK0FAHZ7CYs=".
Definition unclosed_template_b64 : string :=
  "eNqrrlYozUvOyS9OTQEAGp0EdA==".
Definition datasource_name_b64 : string :=
  "eNrLzU9JzdFNTEqOLy3NTDGMTywoiFCITi9KTEvMS4wFALAYC0w=".

Definition zlib_table : list (list Byte.byte * list Byte.byte) :=
  [ (String.list_byte_of_string datasource_template, datasource_template_z);
    (String.list_byte_of_string unclosed_template, unclosed_template_z);
    (String.list_byte_of_string datasource_name, datasource_name_z) ].

Definition b64_table : list (list Byte.byte * list Byte.byte) :=
  [ (datasource_template_z, String.list_byte_of_string datasource_template_b64);
    (unclosed_template_z, String.list_byte_of_string unclosed_template_b64);
    (datasource_name_z, String.list_byte_of_string datasource_name_b64) ].

(** Jinja on the sample texts: an opened and never closed [{{] is a syntax
    error, [{{ grafana_datasource }}] renders to the data source, a text
    without [{{] renders to itself. *)
Definition sample_Template (source_text : string) : option string :=
  if str_in "{{" source_text && negb (str_in "}}" source_text)
  then None else Some source_text.

Definition sample_render (tm grafana_datasource : string)
    (prometheus_target prometheus_query : jval) : option string :=
  if bool_decide (tm = datasource_template) then Some grafana_datasource
  else if str_in "{{" tm then None
  else Some tm.

(** [str.capitalize()] on ASCII letters. *)
Definition upper (c : Ascii.ascii) : Ascii.ascii :=
  let n := Ascii.nat_of_ascii c in
  if (97 <=? n)%nat && (n <=? 122)%nat then Ascii.ascii_of_nat (n - 32) else c.

Definition lower (c : Ascii.ascii) : Ascii.ascii :=
  let n := Ascii.nat_of_ascii c in
  if (65 <=? n)%nat && (n <=? 90)%nat then Ascii.ascii_of_nat (n + 32) else c.

Fixpoint map_string (f : Ascii.ascii -> Ascii.ascii) (s : string) : string :=
  match s with
  | EmptyString => EmptyString
  | String c s' => String (f c) (map_string f s')
  end.

Definition sample_capitalize (s : string) : string :=
  match s with
  | EmptyString => EmptyString
  | String c s' => String (upper c) (map_string lower s')
  end.

#[export] Instance libraries : Externals := {|
  str_encode := String.list_byte_of_string;
  bytes_decode := fun b => Some (String.string_of_list_byte b);
  zlib_compress := fun b _ => table_encode zlib_table b;
  zlib_decompress := table_decode zlib_table;
  b64encode := table_encode b64_table;
  b64decode := table_decode b64_table;
  template := string;
  Template := sample_Template;
  render := sample_render;
  capitalize := sample_capitalize;
|}.

(** The record of the scenario: what a consumer in model [model-abc] sends
    for the template [{{ grafana_datasource }}]. *)
Definition scenario_record (uuid4 : string) : gmap string jval :=
  <["monitoring_identifier" := JStr "model-abc_uuid1_appX"]>
  (<["monitoring_target" := JStr "Cassandra [ model-abc / uuid1 ]"]>
  (<["monitoring_query" :=
       JStr "juju_model='model-abc',juju_model_uuid='uuid1',juju_application='cassandra'"]>
  (<["template" := JStr datasource_template_b64]>
  (<["removed" := JBool false]>
  (<["invalidated" := JBool false]>
  (<["invalidated_reason" := JStr ""]>
  (<["uuid" := JStr uuid4]> ∅))))))).

Definition scenario_sources : list GrafanaDashboardProvider.source :=
  [ {| GrafanaDashboardProvider.source_name := datasource_name |} ].

End Sample.

(** ** Validation as a verdict and its execution

    [_validate_dashboard_data] first decides, from the record and the data
    sources alone, what becomes of the record, and then writes. The two
    halves are stated apart here and shown to make up the method below. *)

Module Verdict.
Import GrafanaDashboardProvider.

Inductive verdict : Type :=
| Raises (e : exn)
| Ignored
| NoDatasource
| BadTemplate
| Valid (msg : dashboard_msg).

Section Judge.
Context {E : Externals}.

Definition template_of (d : gmap string jval) : outcome template :=
  match dict_index d "template" with
  | Raise e => Raise e
  | Return (JStr s) =>
      match decode_template s with
      | Raise e => Raise e
      | Return source_text => of_option TemplateSyntaxError (Template source_text)
      end
  | Return _ => Raise AttributeError
  end.

Definition rendered_msg (d : gmap string jval) (grafana_datasource : string)
    (tm : template) : outcome dashboard_msg :=
  match dict_index d "monitoring_target" with
  | Raise e => Raise e
  | Return prometheus_target =>
      match dict_index d "monitoring_query" with
      | Raise e => Raise e
      | Return prometheus_query =>
          match render tm grafana_datasource prometheus_target prometheus_query with
          | None => Raise TemplateRenderError
          | Some rendered =>
              match dict_index d "monitoring_identifier" with
              | Raise e => Raise e
              | Return ident =>
                  match encode_template rendered with
                  | Raise e => Raise e
                  | Return encoded =>
                      Return {| target := ident; dashboard := encoded; data := d |}
                  end
              end
          end
      end
  end.

Definition judge (sources : list source) (d : gmap string jval) : verdict :=
  match matching_source_names d sources with
  | Raise IndexError | Return [] => NoDatasource
  | Raise e => Raises e
  | Return ("" :: _) => Ignored
  | Return (grafana_datasource :: _) =>
      match template_of d with
      | Raise TemplateSyntaxError => BadTemplate
      | Raise e => Raises e
      | Return tm =>
          match rendered_msg d grafana_datasource tm with
          | Raise e => Raises e
          | Return msg => Valid msg
          end
      end
  end.

Definition execute (rel : Z) (d : gmap string jval) (v : verdict) : M state unit :=
  match v with
  | Raises e => raise e
  | Ignored => ret tt
  | NoDatasource =>
      set_invalid rel d ;;
      _purge_dead_dashboard rel ;;
      write_event rel
        {| errors := JStr "Cannot find a Grafana datasource matching the dashboard";
           valid := false |}
  | BadTemplate =>
      _purge_dead_dashboard rel ;;
      write_event rel
        {| errors := JStr "Cannot add Grafana dashboard. Template is not valid Jinja";
           valid := false |}
  | Valid msg =>
      popped <- pop_invalid rel ;;
      (match popped with
       | Some old =>
           if dict_truthy old
           then write_event rel {| errors := JStr ""; valid := true |}
           else ret tt
       | None => ret tt
       end) ;;
      st <- get_state ;;
      let stored_data :=
        match dict_get rel (dashboards st) with
        | Some stored => data stored
        | None => ∅
        end in
      let coerced_data := if dict_truthy stored_data then stored_data else ∅ in
      if negb (bool_decide (coerced_data = data msg))
      then set_dashboard rel msg ;; emit_dashboards_changed
      else ret tt
  end.

End Judge.
End Verdict.

(** ** Operations of the provider and the states they reach *)

Module Reach.
Import GrafanaDashboardProvider.

(** What can happen to a provider: a relation-changed event, a new list of
    data sources, a relation-broken event. *)
Inductive operation : Type :=
| RelationChanged (is_leader : bool) (rel : Z) (event : inbound)
| RenewDashboards (sources : list source)
| RelationBroken (is_leader : bool) (rel_id : Z).

Definition run {E : Externals} (op : operation) : M state unit :=
  match op with
  | RelationChanged is_leader rel event =>
      _on_grafana_dashboard_relation_changed is_leader rel event
  | RenewDashboards sources => renew_dashboards sources
  | RelationBroken is_leader rel_id =>
      _on_grafana_dashboard_relation_broken is_leader rel_id
  end.

(** The states a provider can be in: the initial one, and the state any
    operation leaves behind, whether it returned or raised. *)
Inductive reachable {E : Externals} : state -> Prop :=
| reachable_initial : reachable initial
| reachable_step st op :
    reachable st -> reachable (snd (run op st)).

(** No relation has both a dashboard and an invalid dashboard. *)
Definition disjoint_stores (st : state) : Prop :=
  forall rel_id,
    dict_get rel_id (dashboards st) = None \/
    dict_get rel_id (invalid_dashboards st) = None.

(** The number of [dashboards_changed] events among some effects. *)
Definition changes (l : list effect) : nat :=
  length (filter (fun e => e = DashboardsChanged) l).

(** The number of writes of [fb] to relation [rel_id] among some effects. *)
Definition writes (rel_id : Z) (fb : feedback) (l : list effect) : nat :=
  length (filter (fun e => e = EventWritten rel_id fb) l).

(** The state without anything stored for relation [rel_id]. *)
Definition forget (rel_id : Z) (st : state) : state :=
  {| dashboards := dict_del rel_id (dashboards st);
     invalid_dashboards := dict_del rel_id (invalid_dashboards st);
     active_sources := active_sources st;
     relation_event := relation_event st;
     effects := effects st |}.

(** Nothing of relation [l] changes from [st] to [st']: its entries in the
    two stores and its relation data are the same, and no write to it is
    among the new effects; the data sources are the same too. *)
Definition untouched (l : Z) (st st' : state) : Prop :=
  dict_get l (dashboards st') = dict_get l (dashboards st) /\
  dict_get l (invalid_dashboards st') = dict_get l (invalid_dashboards st) /\
  relation_event st' !! l = relation_event st !! l /\
  active_sources st' = active_sources st /\
  exists new,
    effects st' = (effects st ++ new)%list /\
    forall fb, writes l fb new = 0%nat.

(** [u] is [st] with nothing stored for relation [l]. *)
Definition same_elsewhere (l : Z) (st u : state) : Prop :=
  dashboards u = dict_del l (dashboards st) /\
  invalid_dashboards u = dict_del l (invalid_dashboards st) /\
  active_sources u = active_sources st.

(** Both stores are dictionaries: no key occurs twice. *)
Definition unique_keys (st : state) : Prop :=
  NoDup (dict_keys (dashboards st)) /\
  NoDup (dict_keys (invalid_dashboards st)).

(** Two events carry the same record: they are the same event, or the same
    object up to the ["uuid"] each was sent with. *)
Inductive same_record : inbound -> inbound -> Prop :=
| same_event ev : same_record ev ev
| same_up_to_uuid d u1 u2 :
    same_record (Payload (Some (LDict (<["uuid" := u1]> d))))
                (Payload (Some (LDict (<["uuid" := u2]> d)))).

End Reach.

(** ** The scenario

    The states and events of the scenario of the specification, on the
    sample libraries: a consumer in model [model-abc] related to the
    monitoring application [appX], and a provider with the data source
    [model-abc_uuid1_appX [grafana]]. *)

Module Scenario.
Import GrafanaDashboardProvider Sample.

(** A provider that knows the data source of the scenario. *)
Definition with_sources : state :=
  snd (renew_dashboards scenario_sources initial).

(** A provider that was sent the record of the scenario before it knew
    any data source: the record is invalid. *)
Definition with_invalid : state :=
  snd (_on_grafana_dashboard_relation_changed true 1
         (Payload (Some (LDict (scenario_record "u1")))) initial).

(** A provider that knew the data source when the record came: the
    dashboard is active. *)
Definition with_active : state :=
  snd (_on_grafana_dashboard_relation_changed true 1
         (Payload (Some (LDict (scenario_record "u1")))) with_sources).

Definition the_record : gmap string jval := delete "uuid" (scenario_record "u1").

Definition the_dashboard : dashboard_msg :=
  {| target := JStr "model-abc_uuid1_appX";
     dashboard := datasource_name_b64;
     data := the_record |}.

Definition no_datasource : feedback :=
  {| errors := JStr "Cannot find a Grafana datasource matching the dashboard";
     valid := false |}.

Definition now_valid : feedback := {| errors := JStr ""; valid := true |}.

End Scenario.

Module ConsumerScenario.
Import GrafanaDashboardConsumer.

(** A unit that does not hold leadership, related to Grafana through
    relation 1 and to no monitoring application. *)
Definition follower : charm :=
  {| is_leader := false;
     app_name := "cassandra";
     model_name := "model-abc";
     model_uuid := "uuid1";
     relations := [1%Z];
     monitoring := [];
     relation_id := None |}.

(** The leader, related to Grafana through relation 1 and to one
    monitoring unit. *)
Definition leader : charm :=
  {| is_leader := true;
     app_name := "cassandra";
     model_name := "model-abc";
     model_uuid := "uuid1";
     relations := [1%Z];
     monitoring := [[ {| backend_model_name := "model-abc";
                         backend_model_uuid := "uuid1";
                         unit_app_name := "appX" |} ]];
     relation_id := None |}.

Definition waiting : status_event :=
  {| error_message := "Waiting for a prometheus_scrape relation to send dashboard data";
     status_valid := false |}.

(** The leader after it has added the template of the scenario. *)
Definition submitted : state :=
  snd (add_dashboard (E := Sample.libraries) leader Sample.datasource_template
         None "u1" initial).

End ConsumerScenario.

(** ** The rest of the consumer: feedback from the provider *)

Module ConsumerFeedback.

(** A [dashboard_status_changed] event as the handler emits it: both
    fields are whatever the provider's document holds. *)
Record status_changed : Type := {
  error_message : jval;
  valid : jval;
}.

#[global] Instance status_changed_eq_dec : EqDecision status_changed.
Proof. solve_decision. Defined.

(** The ["event"] entry of the provider's relation data: missing, or a
    text that [json.loads] either rejects ([None]) or loads. *)
Inductive event_payload : Type :=
| Missing
| Text (parsed : option loaded).

(** [self.on.dashboard_status_changed.emit(...)]; the state of the handler
    is the list of the events emitted so far, oldest first. *)
Definition emit (ev : status_changed) : M (list status_changed) unit :=
  modify (fun emitted => (emitted ++ [ev])%list).

(** [x.get(...)] on what [json.loads] returned: only an object has
    [get]. *)
Definition as_dict {S} (x : loaded) : M S (gmap string jval) :=
  match x with
  | LDict d => ret d
  | LList _ | LNum _ | LVal _ => raise AttributeError
  end.

Definition _on_grafana_dashboard_relation_changed (is_leader : bool)
    (event : event_payload) : M (list status_changed) unit :=
  if negb is_leader then ret tt
  else
    data <- match event with
            | Missing => ret (LDict ∅)
            | Text None => raise JSONDecodeError
            | Text (Some x) => ret x
            end ;;
    if negb (loaded_truthy data) then ret tt
    else
      d <- as_dict data ;;
      let error_message := dict_get_default d "errors" (JStr "") in
      if truthy error_message
      then emit {| error_message := dict_get_default d "errors" (JStr "");
                   valid := dict_get_default d "valid" (JBool false) |}
      else
        let valid_message := dict_get_default d "valid" (JBool false) in
        if truthy valid_message
        then emit {| error_message := JStr ""; valid := JBool true |}
        else ret tt.

(** The [dashboards] property of the consumer. *)
Definition dashboards (st : GrafanaDashboardConsumer.state)
  : list (gmap string jval) :=
  map snd (GrafanaDashboardConsumer.dashboards st).

End ConsumerFeedback.

(** ** The rest of the provider *)

Module ProviderHelpers.
Import GrafanaDashboardProvider.

(** [_check_active_data_sources], which no method calls. *)
Definition _check_active_data_sources (d : gmap string jval) (rel : Z)
  : M state bool :=
  st <- get_state ;;
  match active_sources st with
  | [] =>
      let msg := "Cannot add Grafana dashboard. No configured datasources" in
      set_invalid rel d ;;
      _purge_dead_dashboard rel ;;
      write_event rel {| errors := JStr msg; valid := false |} ;;
      ret false
  | _ :: _ => ret true
  end.

(** The [dashboards] property of the provider. *)
Definition dashboards_property (st : state) : list dashboard_msg :=
  map snd (dashboards st).

End ProviderHelpers.

(** ** The relation data, from one side to the other

    What one side writes with [json.dumps] the other loads with
    [json.loads]: an object with the same entries. *)

Module Transport.

(** The consumer's ["dashboards"] entry as the provider's handler meets
    it. *)
Definition sent (record : option (gmap string jval))
  : GrafanaDashboardProvider.inbound :=
  match record with
  | None => GrafanaDashboardProvider.NoPayload
  | Some d => GrafanaDashboardProvider.Payload (Some (LDict d))
  end.

(** The provider's ["event"] entry as the consumer's handler meets it. *)
Definition delivered (fb : option GrafanaDashboardProvider.feedback)
  : ConsumerFeedback.event_payload :=
  match fb with
  | None => ConsumerFeedback.Missing
  | Some fb =>
      ConsumerFeedback.Text
        (Some (LDict (<["errors" := GrafanaDashboardProvider.errors fb]>
                      (<["valid" := JBool (GrafanaDashboardProvider.valid fb)]> ∅))))
  end.

End Transport.

(** ** Records at rest

    What validation would make of a stored record, given the data
    sources. *)

Module Settled.
Import GrafanaDashboardProvider Verdict.

Section Settled.
Context {E : Externals}.

(** Validating [d] would leave it among the invalid dashboards. *)
Definition stays_invalid (sources : list source) (d : gmap string jval) : Prop :=
  judge sources d = NoDatasource \/ judge sources d = BadTemplate \/
  judge sources d = Ignored.

(** Validating [d] would leave a dashboard made from it in place. *)
Definition stays_active (sources : list source) (d : gmap string jval) : Prop :=
  judge sources d = Ignored \/ exists msg, judge sources d = Valid msg.

(** Every stored record is where validation would put it. *)
Definition settled (sources : list source) (st : state) : Prop :=
  (forall k d, dict_get k (invalid_dashboards st) = Some d ->
     stays_invalid sources d) /\
  (forall k m, dict_get k (dashboards st) = Some m ->
     stays_active sources (data m)).

(** The dashboard [m] is the rendering of its own record. *)
Definition is_rendering (m : dashboard_msg) : Prop :=
  exists ident t source_text tm tgt qry name out,
    data m !! "monitoring_identifier" = Some (JStr ident) /\
    target m = JStr ident /\
    data m !! "monitoring_target" = Some tgt /\
    data m !! "monitoring_query" = Some qry /\
    data m !! "template" = Some (JStr t) /\
    decode_template t = Return source_text /\
    Template source_text = Some tm /\
    str_in ident name = true /\ name <> "" /\
    render tm name tgt qry = Some out /\
    encode_template out = Return (dashboard m).

(** Every dashboard is the rendering of its own record. *)
Definition all_renderings (st : state) : Prop :=
  forall k m, dict_get k (dashboards st) = Some m -> is_rendering m.

End Settled.

(** Every invalid dashboard has been reported: the relation data of its
    relation holds feedback with [valid = false]. *)
Definition invalid_reported (st : state) : Prop :=
  forall k d, dict_get k (invalid_dashboards st) = Some d ->
    exists fb, relation_event st !! k = Some fb /\ valid fb = false.

End Settled.

(** ** The record the consumer sends *)

Module ConsumerRecord.
Import GrafanaDashboardConsumer.

(** The dictionary [stored_data] that [_update_dashboards] builds, given
    the encoded template and the uuid. *)
Definition stored_data {E : Externals} (self : charm) (prom_unit : unit_info)
    (template uuid4 : string) : gmap string jval :=
  <["monitoring_identifier" :=
      JStr (backend_model_name prom_unit +:+ "_" +:+ backend_model_uuid prom_unit
            +:+ "_" +:+ unit_app_name prom_unit)]>
  (<["monitoring_target" :=
       JStr (capitalize (app_name self) +:+ " [ " +:+ model_name self +:+ " / "
             +:+ model_uuid self +:+ " ]")]>
  (<["monitoring_query" :=
       JStr ("juju_model='" +:+ model_name self +:+ "',juju_model_uuid='"
             +:+ model_uuid self +:+ "',juju_application='" +:+ app_name self
             +:+ "'")]>
  (<["template" := JStr template]>
  (<["removed" := JBool false]>
  (<["invalidated" := JBool false]>
  (<["invalidated_reason" := JStr ""]>
  (<["uuid" := JStr uuid4]> ∅))))))).

End ConsumerRecord.

(** ** The wording of feedback *)

Module Wording.
Import GrafanaDashboardProvider.

(** Feedback as the provider words it: what is valid carries no error. *)
Definition well_worded (e : effect) : Prop :=
  match e with
  | DashboardsChanged => True
  | EventWritten _ fb => valid fb = true -> errors fb = JStr ""
  end.

End Wording.

(** ** Sweeps over several relations

    States with two relations, on the sample libraries, to run
    [renew_dashboards] on. *)

Module SweepScenario.
Import GrafanaDashboardProvider Sample.

(** The record of another monitoring application, [appY] in model
    [model-xyz], and its data source. *)
Definition other_record (uuid4 : string) : gmap string jval :=
  <["monitoring_identifier" := JStr "model-xyz_uuid2_appY"]> (scenario_record uuid4).

Definition other_source : source :=
  {| source_name := "model-xyz_uuid2_appY [grafana]" |}.

(** Relation 1 sent a record without its ["monitoring_target"] and
    relation 2 the record of the scenario, both before any data source was
    known: both records are invalid. *)
Definition two_invalid : state :=
  snd (_on_grafana_dashboard_relation_changed true 2
         (Payload (Some (LDict (scenario_record "u2"))))
         (snd (_on_grafana_dashboard_relation_changed true 1
                 (Payload (Some (LDict (delete "monitoring_target"
                                          (scenario_record "u1")))))
                 initial))).

(** A provider that knows the data source of the scenario. Relation 1
    sent the record of the other application without its
    ["monitoring_target"], which no data source matched: it is invalid.
    Relation 2 sent the record of the scenario: its dashboard is
    active. *)
Definition stale_and_active : state :=
  snd (_on_grafana_dashboard_relation_changed true 2
         (Payload (Some (LDict (scenario_record "u2"))))
         (snd (_on_grafana_dashboard_relation_changed true 1
                 (Payload (Some (LDict (delete "monitoring_target"
                                          (other_record "u1")))))
                 (snd (renew_dashboards scenario_sources initial))))).

(** A provider that knows the data source of the scenario. Relation 1
    sent the record of the other application, which no data source
    matched: it is invalid. Relation 2 sent the record of the scenario: its
    dashboard is active. *)
Definition invalid_and_active : state :=
  snd (_on_grafana_dashboard_relation_changed true 2
         (Payload (Some (LDict (scenario_record "u2"))))
         (snd (_on_grafana_dashboard_relation_changed true 1
                 (Payload (Some (LDict (other_record "u1"))))
                 (snd (renew_dashboards scenario_sources initial))))).

(** Three data sources, the second and the third of which match the
    record of the scenario. *)
Definition three_sources : list source :=
  [ {| source_name := "other [grafana]" |};
    {| source_name := datasource_name |};
    {| source_name := "model-abc_uuid1_appX [second]" |} ].

End SweepScenario.

(** * Properties *)

(** ** Strings *)

Lemma startswith_prefix p s :
  startswith p s = true <-> exists b, s = p +:+ b.
Proof.
  revert s. induction p as [|a p IH]; intros s; simpl.
  - split; [by exists s|done].
  - destruct s as [|c s]; simpl.
    + split; [done|]. by intros (b & ?).
    + rewrite andb_true_iff, bool_decide_eq_true, IH. split.
      * intros (-> & b & ->). by exists b.
      * intros (b & [= -> ->]). split; [done|by exists b].
Qed.

(** [str_in p s] is Python's [p in s]: [p] occurs in [s] as a contiguous
    substring. *)
Lemma str_in_substring p s :
  str_in p s = true <-> exists a b, s = a +:+ p +:+ b.
Proof.
  induction s as [|c s IH]; simpl.
  - rewrite orb_false_r, startswith_prefix. split.
    + intros (b & Hb). by exists "", b.
    + intros (a & b & Hab). destruct a; [by exists b|done].
  - rewrite orb_true_iff, startswith_prefix, IH. split.
    + intros [(b & Hb)|(a & b & ->)]; [by exists "", b|by exists (String c a), b].
    + intros (a & b & Hab). destruct a as [|c' a]; simpl in Hab.
      * left. by exists b.
      * right. injection Hab as -> ->. by exists a, b.
Qed.

(** ** Dictionaries *)

Section PyDictFacts.
Context {V : Type}.
Implicit Types d : list (Z * V).

Lemma dict_get_set_eq k v d : dict_get k (dict_set k v d) = Some v.
Proof.
  induction d as [|[k' v'] d IH]; simpl.
  - by rewrite Z.eqb_refl.
  - destruct (Z.eqb k k') eqn:Hk; simpl; rewrite ?Z.eqb_refl, ?Hk; done.
Qed.

Lemma dict_get_set_ne k k' v d :
  k <> k' -> dict_get k' (dict_set k v d) = dict_get k' d.
Proof.
  intros Hne. induction d as [|[k0 v0] d IH]; simpl.
  - destruct (Z.eqb_spec k' k); [congruence|done].
  - destruct (Z.eqb_spec k k0) as [->|Hk]; simpl.
    + destruct (Z.eqb_spec k' k0); [congruence|done].
    + destruct (Z.eqb_spec k' k0); [done|apply IH].
Qed.

Lemma dict_get_del_eq k d : dict_get k (dict_del k d) = None.
Proof.
  induction d as [|[k' v'] d IH]; simpl; [done|].
  destruct (Z.eqb k k') eqn:Hk; simpl; rewrite ?Hk; done.
Qed.

Lemma dict_get_del_ne k k' d :
  k <> k' -> dict_get k' (dict_del k d) = dict_get k' d.
Proof.
  intros Hne. induction d as [|[k0 v0] d IH]; simpl; [done|].
  destruct (Z.eqb_spec k k0) as [->|Hk]; simpl.
  - destruct (Z.eqb_spec k' k0); [congruence|apply IH].
  - destruct (Z.eqb_spec k' k0); [done|apply IH].
Qed.

Lemma dict_del_absent k d : dict_get k d = None -> dict_del k d = d.
Proof.
  induction d as [|[k' v'] d IH]; simpl; [done|].
  destruct (Z.eqb k k'); [done|]. intros H. by rewrite IH.
Qed.

Lemma dict_del_set_ne l k v d :
  k <> l -> dict_del l (dict_set k v d) = dict_set k v (dict_del l d).
Proof.
  intros Hne. induction d as [|[k0 v0] d IH]; simpl.
  - destruct (Z.eqb_spec l k); [congruence|done].
  - destruct (Z.eqb_spec k k0) as [->|Hk]; simpl.
    + destruct (Z.eqb_spec l k0); [congruence|]. simpl. by rewrite Z.eqb_refl.
    + destruct (Z.eqb_spec l k0) as [->|Hl]; simpl; [done|].
      destruct (Z.eqb_spec k k0); [congruence|]. by rewrite IH.
Qed.

Lemma dict_del_del l k d :
  dict_del l (dict_del k d) = dict_del k (dict_del l d).
Proof.
  induction d as [|[k0 v0] d IH]; simpl; [done|].
  destruct (Z.eqb_spec k k0) as [->|Hk], (Z.eqb_spec l k0) as [->|Hl];
    simpl; rewrite ?Z.eqb_refl; try done.
  all: repeat match goal with
              | |- context [Z.eqb ?a ?b] =>
                  destruct (Z.eqb_spec a b); try congruence
              end.
Qed.

Lemma dict_get_Some_In k v d : dict_get k d = Some v -> In (k, v) d.
Proof.
  induction d as [|[k' v'] d IH]; simpl; [done|].
  destruct (Z.eqb_spec k k') as [->|Hk].
  - intros [= ->]. by left.
  - intros H. right. by apply IH.
Qed.

Lemma dict_get_None_keys k d : dict_get k d = None <-> ~ In k (dict_keys d).
Proof.
  induction d as [|[k' v'] d IH]; simpl; [tauto|].
  destruct (Z.eqb_spec k k') as [->|Hk].
  - split; [done|]. intros H. exfalso. apply H. by left.
  - rewrite IH. split; [intros H [?|?]; [congruence|done] | tauto].
Qed.

End PyDictFacts.

Section Keys.
Context {V : Type}.
Implicit Types d : list (Z * V).

Lemma in_keys_del x k d :
  In x (dict_keys (dict_del k d)) <-> x <> k /\ In x (dict_keys d).
Proof.
  induction d as [|[k0 v0] d IH]; simpl; [tauto|].
  destruct (Z.eqb_spec k k0) as [->|Hne]; simpl; rewrite IH.
  - split; [tauto|]. intros [? [?|?]]; [congruence|tauto].
  - split; [|tauto]. intros [?|?]; [subst; split; [congruence|tauto]|tauto].
Qed.

Lemma NoDup_keys_del k d :
  NoDup (dict_keys d) -> NoDup (dict_keys (dict_del k d)).
Proof.
  induction d as [|[k0 v0] d IH]; simpl; [done|].
  rewrite NoDup_cons. intros [Hnot Hnd].
  destruct (Z.eqb k k0); simpl; [by apply IH|].
  apply NoDup_cons. split; [|by apply IH].
  rewrite list_elem_of_In, in_keys_del. rewrite list_elem_of_In in Hnot. tauto.
Qed.

Lemma in_keys_set x k v d :
  In x (dict_keys (dict_set k v d)) <-> x = k \/ In x (dict_keys d).
Proof.
  induction d as [|[k0 v0] d IH]; simpl.
  - split; [intros [<-|[]]; by left|intros [->|[]]; by left].
  - destruct (Z.eqb_spec k k0) as [->|Hne]; simpl.
    + split; [intros [<-|?]; tauto|intros [->|[?|?]]; tauto].
    + rewrite IH. tauto.
Qed.

Lemma NoDup_keys_set k v d :
  NoDup (dict_keys d) -> NoDup (dict_keys (dict_set k v d)).
Proof.
  induction d as [|[k0 v0] d IH]; simpl.
  - intros _. apply NoDup_singleton.
  - rewrite NoDup_cons. intros [Hnot Hnd].
    destruct (Z.eqb_spec k k0) as [->|Hne]; simpl.
    + apply NoDup_cons. done.
    + apply NoDup_cons. split; [|by apply IH].
      rewrite list_elem_of_In, in_keys_set. rewrite list_elem_of_In in Hnot.
      intros [?|?]; [congruence|done].
Qed.

End Keys.

(** ** The provider *)

Section ProviderFacts.
Import GrafanaDashboardProvider Verdict Reach.
Context {E : Externals}.

Ltac run_monad :=
  cbv beta iota delta
    [bind ret raise lift modify get_state try_except
     emit_dashboards_changed write_event set_dashboard pop_dashboard
     pop_dashboard_strict set_invalid pop_invalid set_active_sources
     _purge_dead_dashboard of_option].

(** The method is its verdict, executed. *)
Lemma validate_is_judge_then_execute d rel st :
  _validate_dashboard_data d rel st = execute rel d (judge (active_sources st) d) st.
Proof.
  unfold _validate_dashboard_data, _find_grafana_datasource, judge, execute,
    load_template, template_of, rendered_msg.
  run_monad.
  destruct (matching_source_names d (active_sources st)) as [[|name names]|e].
  - simpl. destruct (dict_get rel (dashboards st)); reflexivity.
  - destruct name as [|c name]; [reflexivity|].
    destruct (dict_index d "template") as [[| |t]|e]; try reflexivity.
    2: { destruct e; try reflexivity; simpl;
         destruct (dict_get rel (dashboards st)); reflexivity. }
    destruct (decode_template t) as [source_text|e].
    2: { destruct e; try reflexivity; simpl;
         destruct (dict_get rel (dashboards st)); reflexivity. }
    destruct (Template source_text) as [tm|].
    + destruct (dict_index d "monitoring_target") as [tgt|e]; [|reflexivity].
      destruct (dict_index d "monitoring_query") as [qry|e]; [|reflexivity].
      destruct (render tm _ tgt qry) as [rendered|]; [|reflexivity].
      destruct (dict_index d "monitoring_identifier") as [ident|e]; [|reflexivity].
      destruct (encode_template rendered) as [encoded|e]; [|reflexivity].
      reflexivity.
    + simpl. destruct (dict_get rel (dashboards st)); reflexivity.
  - destruct e; try reflexivity.
    simpl. destruct (dict_get rel (dashboards st)); reflexivity.
Qed.

Ltac dict_simpl :=
  repeat first
    [ rewrite dict_get_set_eq | rewrite dict_get_del_eq
    | rewrite dict_get_set_ne by congruence
    | rewrite dict_get_del_ne by congruence ].

Ltac solve_disjoint H :=
  let k := fresh "k" in
  intros k; specialize (H k); simpl in *;
  match goal with
  | rel : Z |- _ =>
      destruct (decide (rel = k)) as [->|?]; dict_simpl;
      first [by left | by right | tauto]
  end.

(** Each operation keeps the two stores disjoint. *)
Lemma execute_disjoint rel d v st :
  disjoint_stores st -> disjoint_stores (snd (execute rel d v st)).
Proof.
  intros H. destruct v; unfold execute; run_monad; simpl; try done.
  - destruct (dict_get rel (dashboards st)); simpl; solve_disjoint H.
  - destruct (dict_get rel (dashboards st)); simpl; solve_disjoint H.
  - destruct (dict_get rel (invalid_dashboards st)) as [old|]; simpl.
    + destruct (dict_truthy old); simpl;
        repeat case_match; simpl; solve_disjoint H.
    + repeat case_match; simpl; solve_disjoint H.
Qed.

Lemma validate_disjoint d rel st :
  disjoint_stores st -> disjoint_stores (snd (_validate_dashboard_data d rel st)).
Proof. rewrite validate_is_judge_then_execute. apply execute_disjoint. Qed.

Lemma bind_invariant {A B} (P : state -> Prop) (m : M state A) (k : A -> M state B) st :
  (forall st, P st -> P (snd (m st))) ->
  (forall a st, P st -> P (snd (k a st))) ->
  P st -> P (snd (bind m k st)).
Proof.
  intros Hm Hk HP. unfold bind. specialize (Hm st HP).
  destruct (m st) as [[a|e] st1]; simpl in *; [by apply Hk|done].
Qed.

Lemma for_each_invariant {A} (P : state -> Prop) (body : A -> M state unit) xs :
  (forall x st, P st -> P (snd (body x st))) ->
  forall st, P st -> P (snd (for_each xs body st)).
Proof.
  intros Hbody. induction xs as [|x xs IH]; intros st HP; simpl; [done|].
  apply bind_invariant; auto.
Qed.

Lemma renew_disjoint sources st :
  disjoint_stores st -> disjoint_stores (snd (renew_dashboards sources st)).
Proof.
  intros H. unfold renew_dashboards.
  apply bind_invariant; [by intros st0 H0 k; apply (H0 k)| |done].
  intros _ st0 H0. apply bind_invariant; [done| |done].
  intros st1 st2 H2. apply bind_invariant; [| |done].
  - apply for_each_invariant. intros [k d] ?. apply validate_disjoint.
  - intros _. apply for_each_invariant. intros [k m] ?. apply validate_disjoint.
Qed.

Lemma relation_changed_disjoint is_leader rel event st :
  disjoint_stores st ->
  disjoint_stores (snd (_on_grafana_dashboard_relation_changed is_leader rel event st)).
Proof.
  intros H. unfold _on_grafana_dashboard_relation_changed.
  destruct is_leader; simpl; [|done].
  destruct event as [|[x|]]; try done.
  destruct (loaded_truthy x); simpl; [|done].
  destruct x as [d0| | |]; try done.
  destruct (truthy (dict_get_default (delete "uuid" d0) "removed" _)).
  { run_monad. destruct (dict_get rel (dashboards st)); simpl; [|done].
    solve_disjoint H. }
  destruct (truthy (dict_get_default (delete "uuid" d0) "invalidated" _)).
  { run_monad. simpl. destruct (dict_get rel (dashboards st)); simpl; solve_disjoint H. }
  unfold bind at 1, get_state at 1.
  destruct (active_sources st).
  - run_monad. simpl. destruct (dict_get rel (dashboards st)); simpl; solve_disjoint H.
  - by apply validate_disjoint.
Qed.

Lemma relation_broken_disjoint is_leader rel_id st :
  disjoint_stores st ->
  disjoint_stores (snd (_on_grafana_dashboard_relation_broken is_leader rel_id st)).
Proof.
  intros H. unfold _on_grafana_dashboard_relation_broken.
  destruct is_leader; simpl; [|done].
  run_monad. simpl. solve_disjoint H.
Qed.

(** [dict(stored_data) if stored_data else {}] is [stored_data]. *)
Lemma coerced_data_is_stored (stored_data : gmap string jval) :
  (if dict_truthy stored_data then stored_data else ∅) = stored_data.
Proof.
  unfold dict_truthy. case_bool_decide; simpl; congruence.
Qed.

Lemma changes_app l1 l2 : changes (l1 ++ l2)%list = (changes l1 + changes l2)%nat.
Proof. unfold changes. by rewrite filter_app, length_app. Qed.

Lemma writes_app rel fb l1 l2 :
  writes rel fb (l1 ++ l2)%list = (writes rel fb l1 + writes rel fb l2)%nat.
Proof. unfold writes. by rewrite filter_app, length_app. Qed.

(** What [execute] appends to the effects, and that it leaves the data
    sources alone. *)
Lemma execute_effects rel d v st :
  exists new,
    effects (snd (execute rel d v st)) = (effects st ++ new)%list /\
    (changes new <= 1)%nat /\
    active_sources (snd (execute rel d v st)) = active_sources st.
Proof.
  assert (Hnil : forall l : list effect, l = (l ++ [])%list)
    by (intros; by rewrite app_nil_r).
  destruct v; unfold execute; run_monad; simpl.
  - exists []. split_and!; [apply Hnil|cbv; lia|done].
  - exists []. split_and!; [apply Hnil|cbv; lia|done].
  - destruct (dict_get rel (dashboards st)); simpl; eexists;
      rewrite <- ?app_assoc; (split_and!; [reflexivity|cbv; lia|done]).
  - destruct (dict_get rel (dashboards st)); simpl; eexists;
      rewrite <- ?app_assoc; (split_and!; [reflexivity|cbv; lia|done]).
  - destruct (dict_get rel (invalid_dashboards st)) as [old|]; simpl;
      [destruct (dict_truthy old); simpl|];
      rewrite !coerced_data_is_stored;
      case_bool_decide; simpl; eexists; rewrite <- ?app_assoc;
      (split_and!; [first [reflexivity | apply Hnil]|cbv; lia|done]).
Qed.

(** Executing the same verdict again emits no [dashboards_changed]. *)
Lemma execute_again rel d v st :
  let st1 := snd (execute rel d v st) in
  exists new,
    effects (snd (execute rel d v st1)) = (effects st1 ++ new)%list /\
    changes new = 0%nat.
Proof.
  assert (Hnil : forall l : list effect, l = (l ++ [])%list)
    by (intros; by rewrite app_nil_r).
  destruct v; unfold execute; run_monad; simpl.
  - exists []. split; [apply Hnil|done].
  - exists []. split; [apply Hnil|done].
  - destruct (dict_get rel (dashboards st)); simpl; dict_simpl; simpl;
      eexists; (split; [reflexivity|done]).
  - destruct (dict_get rel (dashboards st)); simpl; dict_simpl; simpl;
      eexists; (split; [reflexivity|done]).
  - destruct (dict_get rel (invalid_dashboards st)) as [old|]; simpl;
      [destruct (dict_truthy old); simpl|];
      rewrite !coerced_data_is_stored;
      case_bool_decide as Hsame; simpl;
      repeat (progress (simpl; dict_simpl; rewrite ?coerced_data_is_stored));
      rewrite bool_decide_true by done; simpl;
      eexists; (split; [first [reflexivity | apply Hnil]|done]).
Qed.

(** One run of the handler emits at most one [dashboards_changed]. *)
Lemma relation_changed_effects is_leader rel event st :
  exists new,
    effects (snd (_on_grafana_dashboard_relation_changed is_leader rel event st))
      = (effects st ++ new)%list /\
    (changes new <= 1)%nat.
Proof.
  assert (Hnil : forall l : list effect, l = (l ++ [])%list)
    by (intros; by rewrite app_nil_r).
  assert (Hnone : exists new, effects st = (effects st ++ new)%list /\
                              (changes new <= 1)%nat).
  { exists []. split; [apply Hnil|cbv; lia]. }
  unfold _on_grafana_dashboard_relation_changed.
  destruct is_leader; simpl; [|done].
  destruct event as [|[x|]]; try done.
  destruct (loaded_truthy x); simpl; [|done].
  destruct x as [d0| | |]; try done.
  destruct (truthy (dict_get_default (delete "uuid" d0) "removed" _)).
  { run_monad. simpl. destruct (dict_get rel (dashboards st)); simpl; done. }
  destruct (truthy (dict_get_default (delete "uuid" d0) "invalidated" _)).
  { run_monad. simpl. destruct (dict_get rel (dashboards st)); simpl;
      eexists; rewrite <- ?app_assoc; (split; [reflexivity|cbv; lia]). }
  unfold bind at 1, get_state at 1.
  destruct (active_sources st) eqn:Hsrc.
  - run_monad. simpl. destruct (dict_get rel (dashboards st)); simpl;
      eexists; rewrite <- ?app_assoc; (split; [reflexivity|cbv; lia]).
  - rewrite validate_is_judge_then_execute.
    destruct (execute_effects rel (delete "uuid" d0)
                (judge (active_sources st) (delete "uuid" d0)) st)
      as (new & Hnew & Hle & _).
    by exists new.
Qed.

(** A second run on the same object emits none. *)
Lemma relation_changed_again rel d0 d0' st :
  delete "uuid" d0 = delete "uuid" d0' ->
  dict_truthy d0 = dict_truthy d0' ->
  let st1 := snd (_on_grafana_dashboard_relation_changed true rel
                    (Payload (Some (LDict d0))) st) in
  exists new,
    effects (snd (_on_grafana_dashboard_relation_changed true rel
                    (Payload (Some (LDict d0'))) st1))
      = (effects st1 ++ new)%list /\
    changes new = 0%nat.
Proof.
  assert (Hnil : forall l : list effect, l = (l ++ [])%list)
    by (intros; by rewrite app_nil_r).
  intros Hd Ht st1. subst st1.
  unfold _on_grafana_dashboard_relation_changed. simpl.
  rewrite <- Ht, <- Hd. set (d := delete "uuid" d0).
  destruct (dict_truthy d0); simpl; [|by exists []; split; [apply Hnil|]].
  destruct (truthy (dict_get_default d "removed" _)).
  { run_monad. simpl. destruct (dict_get rel (dashboards st)) eqn:Hget; simpl;
      dict_simpl; rewrite ?Hget; simpl; exists []; (split; [apply Hnil|done]). }
  destruct (truthy (dict_get_default d "invalidated" _)).
  { run_monad. simpl. destruct (dict_get rel (dashboards st)); simpl;
      repeat (progress (simpl; dict_simpl));
      eexists; (split; [reflexivity|done]). }
  destruct (active_sources st) as [|s l] eqn:Hsrc.
  - run_monad. simpl. rewrite !Hsrc. simpl.
    destruct (dict_get rel (dashboards st)); simpl;
      rewrite ?Hsrc; repeat (progress (simpl; dict_simpl));
      eexists; (split; [reflexivity|done]).
  - destruct (execute_effects rel d (judge (s :: l) d) st)
      as (_ & _ & _ & Hsame).
    cbv beta iota delta [bind get_state]. simpl. rewrite !Hsrc.
    rewrite !validate_is_judge_then_execute, !Hsrc, !Hsame, !Hsrc.
    rewrite validate_is_judge_then_execute, Hsame, Hsrc.
    apply execute_again.
Qed.

Lemma changes_cons_changed l : changes (DashboardsChanged :: l) = S (changes l).
Proof. unfold changes. by rewrite filter_cons_True. Qed.

Lemma changes_cons_written rel fb l : changes (EventWritten rel fb :: l) = changes l.
Proof. unfold changes. by rewrite filter_cons_False. Qed.

Lemma writes_cons_changed rel fb l :
  writes rel fb (DashboardsChanged :: l) = writes rel fb l.
Proof. unfold writes. by rewrite filter_cons_False. Qed.

Lemma writes_cons_written rel fb l :
  writes rel fb (EventWritten rel fb :: l) = S (writes rel fb l).
Proof. unfold writes. by rewrite filter_cons_True. Qed.

Lemma writes_other_relation l fb rel fb' :
  l <> rel -> writes l fb [EventWritten rel fb'] = 0%nat.
Proof.
  intros Hne. unfold writes. rewrite filter_cons_False; [done|].
  intros [= ? ?]. congruence.
Qed.

Lemma writes_changed l fb : writes l fb [DashboardsChanged] = 0%nat.
Proof. unfold writes. by rewrite filter_cons_False. Qed.

(** What [execute] leaves alone: everything kept for other relations. *)
Lemma execute_frame l rel d v st :
  l <> rel ->
  let st' := snd (execute rel d v st) in
  dict_get l (dashboards st') = dict_get l (dashboards st) /\
  dict_get l (invalid_dashboards st') = dict_get l (invalid_dashboards st) /\
  relation_event st' !! l = relation_event st !! l /\
  exists new,
    effects st' = (effects st ++ new)%list /\
    forall fb, writes l fb new = 0%nat.
Proof.
  assert (Hnil : forall l : list effect, l = (l ++ [])%list)
    by (intros; by rewrite app_nil_r).
  intros Hne.
  assert (Hfin : forall new : list effect,
    Forall (fun e => e = DashboardsChanged \/ exists fb', e = EventWritten rel fb') new ->
    forall fb, writes l fb new = 0%nat).
  { intros new Hall fb. induction Hall as [|e new [->|[fb' ->]] _ IH]; [done| |].
    - change (DashboardsChanged :: new) with ([DashboardsChanged] ++ new)%list.
      by rewrite writes_app, writes_changed, IH.
    - change (EventWritten rel fb' :: new) with ([EventWritten rel fb'] ++ new)%list.
      by rewrite writes_app, writes_other_relation, IH. }
  destruct v; unfold execute; run_monad; simpl.
  - split_and!; try done. exists []. split; [apply Hnil|done].
  - split_and!; try done. exists []. split; [apply Hnil|done].
  - destruct (dict_get rel (dashboards st)); simpl; dict_simpl;
      rewrite ?lookup_insert_ne by done;
      (split_and!; try done); eexists; rewrite <- ?app_assoc;
      (split; [reflexivity|]); apply Hfin; simpl;
      repeat match goal with
             | |- Forall _ (_ :: _) =>
                 constructor; [first [by left | by right; eexists]|]
             | |- Forall _ [] => constructor
             end.
  - destruct (dict_get rel (dashboards st)); simpl; dict_simpl;
      rewrite ?lookup_insert_ne by done;
      (split_and!; try done); eexists; rewrite <- ?app_assoc;
      (split; [reflexivity|]); apply Hfin; simpl;
      repeat match goal with
             | |- Forall _ (_ :: _) =>
                 constructor; [first [by left | by right; eexists]|]
             | |- Forall _ [] => constructor
             end.
  - destruct (dict_get rel (invalid_dashboards st)) as [old|]; simpl;
      [destruct (dict_truthy old); simpl|];
      rewrite !coerced_data_is_stored;
      case_bool_decide as Hsame; simpl; dict_simpl;
      rewrite ?lookup_insert_ne by done;
      (split_and!; try done); eexists; rewrite <- ?app_assoc;
      (split; [first [reflexivity | apply Hnil]|]); apply Hfin; simpl;
      repeat match goal with
             | |- Forall _ (_ :: _) =>
                 constructor; [first [by left | by right; eexists]|]
             | |- Forall _ [] => constructor
             end.
Qed.

Lemma untouched_refl l st : untouched l st st.
Proof.
  unfold untouched. split_and!; try done.
  exists []. split; [by rewrite app_nil_r|done].
Qed.

Lemma untouched_trans l st1 st2 st3 :
  untouched l st1 st2 -> untouched l st2 st3 -> untouched l st1 st3.
Proof.
  intros (Ha & Hb & Hc & Hd & new1 & He & Hf) (Ha' & Hb' & Hc' & Hd' & new2 & He' & Hf').
  unfold untouched. split_and!; try congruence.
  exists (new1 ++ new2)%list. split.
  - by rewrite He', He, app_assoc.
  - intros fb. by rewrite writes_app, Hf, Hf'.
Qed.

Lemma validate_untouched l d rel st :
  l <> rel -> untouched l st (snd (_validate_dashboard_data d rel st)).
Proof.
  intros Hne. rewrite validate_is_judge_then_execute.
  destruct (execute_frame l rel d (judge (active_sources st) d) st Hne)
    as (Ha & Hb & Hc & He).
  destruct (execute_effects rel d (judge (active_sources st) d) st)
    as (_ & _ & _ & Hd).
  by unfold untouched.
Qed.

Lemma for_each_app {A} (xs ys : list A) (body : A -> M state unit) st :
  for_each (xs ++ ys) body st = (for_each xs body ;; for_each ys body) st.
Proof.
  revert st. induction xs as [|x xs IH]; intros st; simpl; [done|].
  unfold bind in *. destruct (body x st) as [[[]|e] st1]; [|done].
  apply IH.
Qed.

(** A sweep over records of other relations leaves relation [l] alone. *)
Lemma sweep_untouched {A} (f : A -> gmap string jval) l (xs : list (Z * A)) st :
  ~ In l (dict_keys xs) ->
  untouched l st
    (snd (for_each xs (fun '(k, x) => _validate_dashboard_data (f x) k) st)).
Proof.
  revert st. induction xs as [|[k x] xs IH]; intros st Hnot; simpl.
  - apply untouched_refl.
  - simpl in Hnot. unfold bind.
    pose proof (validate_untouched l (f x) k st
                  ltac:(intros ->; apply Hnot; by left)) as H1.
    destruct (_validate_dashboard_data (f x) k st) as [[[]|e] st1]; simpl in *; [|done].
    eapply untouched_trans; [exact H1|]. apply IH. tauto.
Qed.

(** A sweep returns when validating each of its records does. *)
Lemma sweep_returns {A} (f : A -> gmap string jval) (xs : list (Z * A)) sources st :
  (forall k x st0, In (k, x) xs -> active_sources st0 = sources ->
     fst (_validate_dashboard_data (f x) k st0) = Return tt) ->
  active_sources st = sources ->
  fst (for_each xs (fun '(k, x) => _validate_dashboard_data (f x) k) st) = Return tt.
Proof.
  revert st. induction xs as [|[k x] xs IH]; intros st Hall Hsrc; simpl; [done|].
  unfold bind.
  pose proof (Hall k x st ltac:(by left) Hsrc) as H1.
  pose proof (validate_untouched (k + 1) (f x) k st ltac:(lia)) as (_ & _ & _ & H2 & _).
  destruct (_validate_dashboard_data (f x) k st) as [[[]|e] st1]; simpl in *; [|done].
  apply IH; [|congruence]. intros. apply Hall; [by right|done].
Qed.

Lemma matching_source_names_filter d ident sources :
  d !! "monitoring_identifier" = Some (JStr ident) ->
  matching_source_names d sources =
    Return (map source_name
              (List.filter (fun x => str_in ident (source_name x)) sources)).
Proof.
  intros Hid. induction sources as [|x rest IH]; simpl; [done|].
  rewrite Hid, IH. by destruct (str_in ident (source_name x)).
Qed.

Lemma str_in_empty_right p : str_in p "" = true -> p = "".
Proof. destruct p; [done|]. simpl. discriminate. Qed.

Lemma encode_template_returns `{!CodecLaws E} text :
  exists encoded, encode_template text = Return encoded.
Proof.
  unfold encode_template.
  destruct (b64_text (zlib_compress (str_encode text) 9)) as (t & Ht & _).
  rewrite Ht. by exists t.
Qed.

(** A record with its fields in place, a matching data source and a
    template that renders is judged valid, with the first matching data
    source rendered in. *)
Lemma judge_valid `{!CodecLaws E} sources r ident t source_text tm tgt qry :
  r !! "monitoring_identifier" = Some (JStr ident) ->
  ident <> "" ->
  r !! "monitoring_target" = Some tgt ->
  r !! "monitoring_query" = Some qry ->
  r !! "template" = Some (JStr t) ->
  decode_template t = Return source_text ->
  Template source_text = Some tm ->
  (forall src, In src sources ->
     exists out, render tm (source_name src) tgt qry = Some out) ->
  (exists src, In src sources /\ str_in ident (source_name src) = true) ->
  exists src out encoded,
    In src sources /\ str_in ident (source_name src) = true /\
    render tm (source_name src) tgt qry = Some out /\
    encode_template out = Return encoded /\
    judge sources r =
      Valid {| target := JStr ident; dashboard := encoded; data := r |}.
Proof.
  intros Hid Hne Htgt Hqry Ht Hdec Htm Hrender (src0 & Hin0 & Hmatch0).
  unfold judge. rewrite (matching_source_names_filter _ _ _ Hid).
  destruct (List.filter (fun x => str_in ident (source_name x)) sources)
    as [|src rest] eqn:Hf.
  { exfalso. assert (In src0 []) as []. rewrite <- Hf.
    apply filter_In. done. }
  assert (In src sources /\ str_in ident (source_name src) = true) as [Hin Hmatch].
  { apply (filter_In (fun x => str_in ident (source_name x))).
    rewrite Hf. by left. }
  destruct (Hrender src Hin) as (out & Hout).
  destruct (encode_template_returns out) as (encoded & Henc).
  exists src, out, encoded. split_and!; try done.
  simpl. destruct (source_name src) as [|c name] eqn:Hname.
  { apply str_in_empty_right in Hmatch. done. }
  unfold template_of, rendered_msg, dict_index. rewrite Ht. simpl.
  rewrite Hdec, Htm. simpl. rewrite Htgt, Hqry. simpl.
  rewrite Hout, Hid. simpl. by rewrite Henc.
Qed.

Lemma judge_no_datasource sources r ident :
  r !! "monitoring_identifier" = Some (JStr ident) ->
  (forall src, In src sources -> str_in ident (source_name src) = false) ->
  judge sources r = NoDatasource.
Proof.
  intros Hid Hnone. unfold judge.
  rewrite (matching_source_names_filter _ _ _ Hid).
  destruct (List.filter (fun x => str_in ident (source_name x)) sources)
    as [|src rest] eqn:Hf; [done|].
  assert (In src sources /\ str_in ident (source_name src) = true) as [Hin Hmatch].
  { apply (filter_In (fun x => str_in ident (source_name x))).
    rewrite Hf. by left. }
  rewrite Hnone in Hmatch; done.
Qed.

(** The same, naming the data source: the first one, in the order of the
    list, whose name contains the identifier. Data sources before it do
    not match, those after it are not looked at, and the template has to
    render with this one only. *)
Lemma judge_first_match `{!CodecLaws E} pre x post r ident t source_text tm tgt qry out :
  r !! "monitoring_identifier" = Some (JStr ident) ->
  ident <> "" ->
  r !! "monitoring_target" = Some tgt ->
  r !! "monitoring_query" = Some qry ->
  r !! "template" = Some (JStr t) ->
  decode_template t = Return source_text ->
  Template source_text = Some tm ->
  (forall y, In y pre -> str_in ident (source_name y) = false) ->
  str_in ident (source_name x) = true ->
  render tm (source_name x) tgt qry = Some out ->
  exists encoded,
    encode_template out = Return encoded /\
    judge (pre ++ x :: post)%list r =
      Valid {| target := JStr ident; dashboard := encoded; data := r |}.
Proof.
  intros Hid Hne Htgt Hqry Ht Hdec Htm Hpre Hx Hout.
  destruct (encode_template_returns out) as (encoded & Henc).
  exists encoded. split; [done|].
  unfold judge. rewrite (matching_source_names_filter _ _ _ Hid).
  rewrite List.filter_app. simpl. rewrite Hx.
  assert (List.filter (fun y => str_in ident (source_name y)) pre = []) as ->.
  { clear -Hpre. induction pre as [|y pre IH]; simpl; [done|].
    rewrite (Hpre y) by (by left). apply IH. intros. apply Hpre. by right. }
  simpl. destruct (source_name x) as [|c name] eqn:Hname.
  { apply str_in_empty_right in Hx. done. }
  unfold template_of, rendered_msg, dict_index. rewrite Ht. simpl.
  rewrite Hdec, Htm. simpl. rewrite Htgt, Hqry. simpl.
  rewrite Hout, Hid. simpl. by rewrite Henc.
Qed.

(** Validation returns whenever the verdict on the record is not an
    exception. *)
Lemma validate_returns d k sources st :
  active_sources st = sources ->
  (forall e, judge sources d <> Raises e) ->
  fst (_validate_dashboard_data d k st) = Return tt.
Proof.
  intros Hsrc Hv. rewrite validate_is_judge_then_execute, Hsrc.
  destruct (judge sources d) as [e| | | |msg]; unfold execute; run_monad; simpl.
  - by destruct (Hv e).
  - done.
  - by destruct (dict_get k (dashboards st)).
  - by destruct (dict_get k (dashboards st)).
  - destruct (dict_get k (invalid_dashboards st)) as [old|]; simpl;
      [destruct (dict_truthy old); simpl|];
      by case_bool_decide.
Qed.

(** The same for the records of a sweep, the verdicts being computed. *)
Lemma judged_records_return {A} (f : A -> gmap string jval) sources
    (xs : list (Z * A)) :
  forallb (fun p => match judge sources (f (snd p)) with
                    | Raises _ => false
                    | _ => true
                    end) xs = true ->
  forall k x st0, In (k, x) xs -> active_sources st0 = sources ->
    fst (_validate_dashboard_data (f x) k st0) = Return tt.
Proof.
  intros Hall k x st0 Hin Hsrc. apply (validate_returns _ _ sources); [done|].
  rewrite forallb_forall in Hall. specialize (Hall _ Hin). simpl in Hall.
  intros e He. by rewrite He in Hall.
Qed.

(** C1, as amended. The first record of a relation: nothing is stored
    for the relation, the record is neither removed nor invalidated, its
    fields are in place and its identifier is not empty; [x] is the first
    data source, in the order of [active_sources], whose name contains the
    identifier (those before it, [pre], do not; those after it, [post],
    may); and the template decodes, parses and renders with the name of
    [x]. Then the handler returns, stores under the relation the dashboard
    rendered with the name of [x], the first match, together with the
    record (its uuid stripped), and emits [dashboards_changed] once. It
    writes no feedback: the relation data and the invalid dashboards are as
    before. Feedback [{errors: "", valid: true}] is kept for relations that
    had an invalid dashboard. *)
Theorem first_record_is_rendered `{!CodecLaws E}
    rel d0 st ident t source_text tm tgt qry pre x post out :
  let d := delete "uuid" d0 in
  dict_get rel (dashboards st) = None ->
  dict_get rel (invalid_dashboards st) = None ->
  truthy (dict_get_default d "removed" (JBool false)) = false ->
  truthy (dict_get_default d "invalidated" (JBool false)) = false ->
  d !! "monitoring_identifier" = Some (JStr ident) ->
  ident <> "" ->
  d !! "monitoring_target" = Some tgt ->
  d !! "monitoring_query" = Some qry ->
  d !! "template" = Some (JStr t) ->
  decode_template t = Return source_text ->
  Template source_text = Some tm ->
  active_sources st = (pre ++ x :: post)%list ->
  (forall y, In y pre -> str_in ident (source_name y) = false) ->
  str_in ident (source_name x) = true ->
  render tm (source_name x) tgt qry = Some out ->
  exists encoded,
    encode_template out = Return encoded /\
    _on_grafana_dashboard_relation_changed true rel (Payload (Some (LDict d0))) st =
      (Return tt,
       {| dashboards :=
            dict_set rel {| target := JStr ident; dashboard := encoded; data := d |}
              (dashboards st);
          invalid_dashboards := invalid_dashboards st;
          active_sources := active_sources st;
          relation_event := relation_event st;
          effects := (effects st ++ [DashboardsChanged])%list |}).
Proof.
  intros d Hdash Hinv Hrem Hinval Hid Hne Htgt Hqry Ht Hdec Htm Hsrc Hpre Hx Hout.
  destruct (judge_first_match pre x post d ident t source_text tm tgt qry out)
    as (encoded & Henc & Hjudge); try done.
  exists encoded. split; [done|].
  unfold _on_grafana_dashboard_relation_changed. simpl.
  assert (Htruthy : dict_truthy d0 = true).
  { unfold dict_truthy. rewrite bool_decide_false; [done|]. intros ->.
    subst d. by rewrite delete_empty, lookup_empty in Hid. }
  rewrite Htruthy. simpl. fold d. rewrite Hrem, Hinval.
  cbv beta iota delta [bind get_state].
  destruct (active_sources st) as [|s0 l0] eqn:Hsources.
  { destruct pre; discriminate. }
  rewrite validate_is_judge_then_execute, Hsources, Hsrc, Hjudge.
  unfold execute. run_monad. simpl.
  rewrite Hinv. simpl. rewrite Hdash. simpl. rewrite coerced_data_is_stored.
  rewrite bool_decide_false.
  2: { intros Hempty. by rewrite <- Hempty, lookup_empty in Hid. }
  simpl. by rewrite (dict_del_absent _ _ Hinv), Hsources, Hsrc.
Qed.

Lemma dict_get_split {V} l (r : V) (xs : list (Z * V)) :
  dict_get l xs = Some r ->
  exists pre post, xs = (pre ++ (l, r) :: post)%list /\ ~ In l (dict_keys pre).
Proof.
  induction xs as [|[k v] xs IH]; simpl; [done|].
  destruct (Z.eqb_spec l k) as [->|Hne].
  - intros [= ->]. exists [], xs. split; [done|by intros []].
  - intros Hget. destruct (IH Hget) as (pre & post & -> & Hnot).
    exists ((k, v) :: pre), post. split; [done|].
    simpl. intros [?|?]; [congruence|done].
Qed.

Lemma dict_keys_app {V} (xs ys : list (Z * V)) :
  dict_keys (xs ++ ys) = (dict_keys xs ++ dict_keys ys)%list.
Proof. unfold dict_keys. apply map_app. Qed.

(** Running a sweep: its outcome and where it leaves relation [l]. *)
Lemma sweep_run {A} (f : A -> gmap string jval) l (xs : list (Z * A)) sources st :
  ~ In l (dict_keys xs) ->
  (forall k x st0, In (k, x) xs -> active_sources st0 = sources ->
     fst (_validate_dashboard_data (f x) k st0) = Return tt) ->
  active_sources st = sources ->
  exists st',
    for_each xs (fun '(k, x) => _validate_dashboard_data (f x) k) st = (Return tt, st') /\
    untouched l st st'.
Proof.
  intros Hnot Hall Hsrc.
  pose proof (sweep_returns f xs sources st Hall Hsrc) as Hret.
  pose proof (sweep_untouched f l xs st Hnot) as Hun.
  destruct (for_each xs _ st) as [o st']. simpl in *. subst o. by exists st'.
Qed.

(** C3, as amended. A relation [l] has the invalid dashboard [r] and no
    dashboard; the fields of [r] are in place and its identifier is not
    empty; [renew_dashboards] is called with data sources of which [x] is
    the first whose name contains the identifier; the template of [r]
    decodes, parses and renders with the name of [x]; and validating each
    of the other stored records against these data sources raises
    nothing. Then the call returns; [l] has a dashboard, rendered from [r]
    with the name of [x], and no invalid dashboard any more; its relation
    data holds [{errors: "", valid: true}], and that feedback was written
    to [l] exactly once during the call. Without the last hypothesis the
    sweep may stop at a record it meets before [r], which then stays
    invalid. The hypotheses on the state, that [l] has no dashboard and
    that no key occurs twice, hold in every reachable state. *)
Theorem renew_recovers_invalid `{!CodecLaws E}
    st l r ident t source_text tm tgt qry before x after out :
  let sources := (before ++ x :: after)%list in
  dict_get l (invalid_dashboards st) = Some r ->
  dict_get l (dashboards st) = None ->
  NoDup (dict_keys (invalid_dashboards st)) ->
  r !! "monitoring_identifier" = Some (JStr ident) ->
  ident <> "" ->
  r !! "monitoring_target" = Some tgt ->
  r !! "monitoring_query" = Some qry ->
  r !! "template" = Some (JStr t) ->
  decode_template t = Return source_text ->
  Template source_text = Some tm ->
  (forall y, In y before -> str_in ident (source_name y) = false) ->
  str_in ident (source_name x) = true ->
  render tm (source_name x) tgt qry = Some out ->
  (forall k d st0, k <> l -> In (k, d) (invalid_dashboards st) ->
     active_sources st0 = sources ->
     fst (_validate_dashboard_data d k st0) = Return tt) ->
  (forall k m st0, In (k, m) (dashboards st) ->
     active_sources st0 = sources ->
     fst (_validate_dashboard_data (data m) k st0) = Return tt) ->
  exists st' encoded new,
    renew_dashboards sources st = (Return tt, st') /\
    encode_template out = Return encoded /\
    dict_get l (dashboards st') =
      Some {| target := JStr ident; dashboard := encoded; data := r |} /\
    dict_get l (invalid_dashboards st') = None /\
    relation_event st' !! l = Some {| errors := JStr ""; valid := true |} /\
    effects st' = (effects st ++ new)%list /\
    writes l {| errors := JStr ""; valid := true |} new = 1%nat.
Proof.
  intros sources Hinv Hdash Hnodup Hid Hne Htgt Hqry Ht Hdec Htm Hbefore Hx Hout
    Hothers Hactive.
  destruct (judge_first_match before x after r ident t source_text tm tgt qry out)
    as (encoded & Henc & Hjudge); try done.
  fold sources in Hjudge.
  set (msg := {| target := JStr ident; dashboard := encoded; data := r |}) in *.
  set (ok := {| errors := JStr ""; valid := true |}).
  destruct (dict_get_split l r _ Hinv) as (pre & post & Hsplit & Hpre).
  assert (Hpost : ~ In l (dict_keys post)).
  { rewrite Hsplit, dict_keys_app in Hnodup. simpl in Hnodup.
    apply NoDup_app in Hnodup as (_ & _ & Hnd).
    apply NoDup_cons in Hnd as [Hnotin _]. intros Hl. apply Hnotin.
    by apply list_elem_of_In. }
  assert (Hkeys : ~ In l (dict_keys (dashboards st))).
  { by apply dict_get_None_keys. }
  unfold renew_dashboards. run_monad. simpl.
  set (st0 := {| dashboards := dashboards st;
                 invalid_dashboards := invalid_dashboards st;
                 active_sources := sources;
                 relation_event := relation_event st;
                 effects := effects st |}).
  rewrite Hsplit, for_each_app. unfold bind at 1.
  (* the records before [l] *)
  destruct (sweep_run (fun x => x) l pre sources st0) as (st1 & Hrun1 & Hun1);
    [done| |done|].
  { intros k y st' Hk. apply Hothers.
    - intros ->. apply Hpre. apply (in_map fst) in Hk. done.
    - rewrite Hsplit. apply in_or_app. by left. }
  cbv beta in Hrun1. rewrite Hrun1.
  destruct Hun1 as (Hd1 & Hi1 & He1 & Hs1 & new1 & Hf1 & Hw1).
  simpl in Hd1, Hi1, He1, Hs1, Hf1.
  (* the record of [l] *)
  simpl for_each. unfold bind at 1.
  rewrite validate_is_judge_then_execute, Hs1, Hjudge.
  assert (Hexec : execute l r (Valid msg) st1 =
    (Return tt,
     {| dashboards := dict_set l msg (dashboards st1);
        invalid_dashboards := dict_del l (invalid_dashboards st1);
        active_sources := active_sources st1;
        relation_event := <[l := ok]> (relation_event st1);
        effects := ((effects st1 ++ [EventWritten l ok]) ++ [DashboardsChanged])%list |})).
  { unfold execute. run_monad. simpl. rewrite Hi1, Hinv.
    assert (dict_truthy r = true) as ->.
    { unfold dict_truthy. rewrite bool_decide_false; [done|]. intros ->.
      by rewrite lookup_empty in Hid. }
    simpl. rewrite Hd1, Hdash. simpl. rewrite coerced_data_is_stored.
    rewrite bool_decide_false; [done|]. intros Hempty.
    by rewrite <- Hempty, lookup_empty in Hid. }
  rewrite Hexec. clear Hexec.
  set (st2 := {| dashboards := dict_set l msg (dashboards st1);
                 invalid_dashboards := _ |}).
  (* the records after [l] *)
  destruct (sweep_run (fun x => x) l post sources st2) as (st3 & Hrun3 & Hun3);
    [done| |done|].
  { intros k y st' Hk. apply Hothers.
    - intros ->. apply Hpost. apply (in_map fst) in Hk. done.
    - rewrite Hsplit. apply in_or_app. right. by right. }
  cbv beta in Hrun3. rewrite Hrun3.
  destruct Hun3 as (Hd3 & Hi3 & He3 & Hs3 & new3 & Hf3 & Hw3).
  (* the dashboards *)
  destruct (sweep_run data l (dashboards st) sources st3) as (st4 & Hrun4 & Hun4);
    [done|done|by rewrite Hs3|].
  rewrite Hrun4.
  destruct Hun4 as (Hd4 & Hi4 & He4 & Hs4 & new4 & Hf4 & Hw4).
  exists st4, encoded,
    (new1 ++ [EventWritten l ok; DashboardsChanged] ++ new3 ++ new4)%list.
  split_and!; try done.
  - rewrite Hd4, Hd3. simpl. apply dict_get_set_eq.
  - rewrite Hi4, Hi3. simpl. apply dict_get_del_eq.
  - rewrite He4, He3. simpl. apply lookup_insert_eq.
  - rewrite Hf4, Hf3. simpl. rewrite Hf1. simpl.
    by rewrite <- !app_assoc.
  - rewrite writes_app, Hw1. simpl.
    by rewrite writes_cons_written, writes_cons_changed, writes_app, Hw3, Hw4.
Qed.

Lemma dict_del_set_eq {V} l (v : V) (d : list (Z * V)) :
  dict_del l (dict_set l v d) = dict_del l d.
Proof.
  induction d as [|[k0 v0] d IH]; simpl.
  - by rewrite Z.eqb_refl.
  - destruct (Z.eqb_spec l k0) as [->|Hne]; simpl.
    + by rewrite Z.eqb_refl.
    + destruct (Z.eqb_spec l k0); [done|]. by rewrite IH.
Qed.

Lemma dict_del_idem {V} l (d : list (Z * V)) :
  dict_del l (dict_del l d) = dict_del l d.
Proof. apply dict_del_absent, dict_get_del_eq. Qed.

Lemma dict_del_app {V} l (xs ys : list (Z * V)) :
  dict_del l (xs ++ ys) = (dict_del l xs ++ dict_del l ys)%list.
Proof.
  induction xs as [|[k v] xs IH]; simpl; [done|].
  destruct (Z.eqb l k); simpl; by rewrite IH.
Qed.

(** Validation of another relation's record goes the same way whether or
    not anything is stored for [l]. *)
Lemma execute_sim l k d v st u :
  k <> l ->
  same_elsewhere l st u ->
  fst (execute k d v u) = fst (execute k d v st) /\
  same_elsewhere l (snd (execute k d v st)) (snd (execute k d v u)) /\
  exists new,
    effects (snd (execute k d v st)) = (effects st ++ new)%list /\
    effects (snd (execute k d v u)) = (effects u ++ new)%list.
Proof.
  assert (Hnil : forall l : list effect, l = (l ++ [])%list)
    by (intros; by rewrite app_nil_r).
  intros Hne (Hd & Hi & Hs).
  destruct u as [ud ui us ue uf]. simpl in Hd, Hi, Hs. subst ud ui us.
  unfold same_elsewhere.
  destruct v; unfold execute; run_monad; simpl.
  - split_and!; try done. exists []. by split.
  - split_and!; try done. exists []. by split.
  - rewrite dict_get_del_ne by done.
    destruct (dict_get k (dashboards st)); simpl;
      rewrite ?dict_del_set_ne, ?(dict_del_del l k) by done;
      (split_and!; try done); eexists; rewrite <- ?app_assoc; by split.
  - rewrite dict_get_del_ne by done.
    destruct (dict_get k (dashboards st)); simpl;
      rewrite ?dict_del_set_ne, ?(dict_del_del l k) by done;
      (split_and!; try done); eexists; rewrite <- ?app_assoc; by split.
  - rewrite dict_get_del_ne by done.
    destruct (dict_get k (invalid_dashboards st)) as [old|]; simpl;
      [destruct (dict_truthy old); simpl|];
      rewrite ?dict_get_del_ne by done;
      rewrite !coerced_data_is_stored;
      case_bool_decide as Hsame; simpl;
      rewrite ?dict_del_set_ne, ?(dict_del_del l k) by done;
      (split_and!; try done); eexists; rewrite <- ?app_assoc;
      (split; first [reflexivity | apply Hnil]).
Qed.

Lemma sweep_sim {A} (f : A -> gmap string jval) l (xs : list (Z * A)) sources st u :
  ~ In l (dict_keys xs) ->
  (forall k x st0, In (k, x) xs -> active_sources st0 = sources ->
     fst (_validate_dashboard_data (f x) k st0) = Return tt) ->
  active_sources st = sources ->
  same_elsewhere l st u ->
  exists st' u' new,
    for_each xs (fun '(k, x) => _validate_dashboard_data (f x) k) st = (Return tt, st') /\
    for_each xs (fun '(k, x) => _validate_dashboard_data (f x) k) u = (Return tt, u') /\
    same_elsewhere l st' u' /\
    untouched l st st' /\
    effects st' = (effects st ++ new)%list /\
    effects u' = (effects u ++ new)%list.
Proof.
  revert st u. induction xs as [|[k x] xs IH]; intros st u Hnot Hall Hsrc Hsim; simpl.
  - exists st, u, []. split_and!; try done; [apply untouched_refl| |];
      by rewrite app_nil_r.
  - simpl in Hnot.
    assert (Hk : k <> l) by (intros ->; apply Hnot; by left).
    pose proof (Hall k x st ltac:(by left) Hsrc) as Hret.
    pose proof (validate_untouched l (f x) k st ltac:(congruence)) as Hun.
    rewrite validate_is_judge_then_execute in Hret, Hun.
    unfold bind. rewrite !validate_is_judge_then_execute.
    destruct Hsim as (Hd & Hi & Hs). rewrite Hs.
    destruct (execute_sim l k (f x) (judge (active_sources st) (f x)) st u Hk)
      as (Hfst & Hsim1 & new1 & He1 & He1'); [done|].
    destruct (execute k (f x) _ st) as [o st1].
    destruct (execute k (f x) _ u) as [o' u1].
    simpl in *. subst o o'.
    destruct (IH st1 u1) as (st' & u' & new & Hr & Hr' & Hsim' & Hun' & He & He');
      try done.
    + tauto.
    + intros. apply Hall; [by right|done].
    + destruct Hun as (_ & _ & _ & ? & _). congruence.
    + exists st', u', (new1 ++ new)%list. split_and!; try done.
      * eapply untouched_trans; done.
      * by rewrite He, He1, app_assoc.
      * by rewrite He', He1', app_assoc.
Qed.

(** C4, as amended. A relation [l] has the dashboard [a] and no invalid
    dashboard; [renew_dashboards] is called with data sources none of
    whose names contains the identifier of [a]'s record; and validating
    each of the other stored records against these sources raises
    nothing (without which the sweep may stop before it reaches [l],
    whose dashboard then stays). Then the call returns; [l] has no dashboard any more, its record is now its invalid
    dashboard, and its relation data holds feedback with a non-empty error
    and [valid = false]. The effects of the call are those of the same
    call on the state without [l], with exactly one [dashboards_changed]
    and one write of that feedback to [l] added: one [dashboards_changed]
    more than without [l], and one write to [l] in all. The hypotheses on
    the state, that [l] has no invalid dashboard and that no key occurs
    twice, hold in every reachable state. *)
Theorem renew_invalidates_active sources st l a ident :
  let err := {| errors := JStr "Cannot find a Grafana datasource matching the dashboard";
                valid := false |} in
  dict_get l (dashboards st) = Some a ->
  dict_get l (invalid_dashboards st) = None ->
  NoDup (dict_keys (dashboards st)) ->
  data a !! "monitoring_identifier" = Some (JStr ident) ->
  (forall src, In src sources -> str_in ident (source_name src) = false) ->
  (forall k d st0, In (k, d) (invalid_dashboards st) ->
     active_sources st0 = sources ->
     fst (_validate_dashboard_data d k st0) = Return tt) ->
  (forall k m st0, k <> l -> In (k, m) (dashboards st) ->
     active_sources st0 = sources ->
     fst (_validate_dashboard_data (data m) k st0) = Return tt) ->
  exists st' u' before after,
    renew_dashboards sources st = (Return tt, st') /\
    dict_get l (dashboards st') = None /\
    dict_get l (invalid_dashboards st') = Some (data a) /\
    relation_event st' !! l = Some err /\
    effects st' =
      (effects st ++ before ++ [DashboardsChanged; EventWritten l err] ++ after)%list /\
    renew_dashboards sources (forget l st) = (Return tt, u') /\
    effects u' = (effects st ++ before ++ after)%list /\
    changes (before ++ [DashboardsChanged; EventWritten l err] ++ after)%list
      = S (changes (before ++ after)%list) /\
    writes l err (before ++ [DashboardsChanged; EventWritten l err] ++ after)%list
      = 1%nat.
Proof.
  intros err Hdash Hinv Hnodup Hid Hnone Hinvalid Hactive.
  pose proof (judge_no_datasource sources (data a) ident Hid Hnone) as Hjudge.
  destruct (dict_get_split l a _ Hdash) as (pre & post & Hsplit & Hpre).
  assert (Hpost : ~ In l (dict_keys post)).
  { rewrite Hsplit, dict_keys_app in Hnodup. simpl in Hnodup.
    apply NoDup_app in Hnodup as (_ & _ & Hnd).
    apply NoDup_cons in Hnd as [Hnotin _]. intros Hl. apply Hnotin.
    by apply list_elem_of_In. }
  assert (Hkeys : ~ In l (dict_keys (invalid_dashboards st))).
  { by apply dict_get_None_keys. }
  unfold renew_dashboards, forget. run_monad. simpl.
  set (st0 := {| dashboards := dashboards st;
                 invalid_dashboards := invalid_dashboards st;
                 active_sources := sources;
                 relation_event := relation_event st;
                 effects := effects st |}).
  set (u0 := {| dashboards := dict_del l (dashboards st);
                invalid_dashboards := dict_del l (invalid_dashboards st);
                active_sources := sources;
                relation_event := relation_event st;
                effects := effects st |}).
  assert (Hsim0 : same_elsewhere l st0 u0) by done.
  rewrite (dict_del_absent l (invalid_dashboards st)) by done.
  (* the invalid dashboards *)
  destruct (sweep_sim (fun x => x) l (invalid_dashboards st) sources st0 u0)
    as (st1 & u1 & new1 & Hr1 & Hr1' & Hsim1 & Hun1 & He1 & He1'); try done.
  cbv beta in Hr1, Hr1'. rewrite Hr1, Hr1'.
  (* the dashboards before [l] *)
  rewrite Hsplit, dict_del_app, for_each_app. simpl dict_del.
  rewrite Z.eqb_refl, !dict_del_absent by (by apply dict_get_None_keys).
  rewrite for_each_app.
  destruct Hun1 as (Hd1 & Hi1 & Hv1 & Hs1 & _).
  destruct (sweep_sim data l pre sources st1 u1)
    as (st2 & u2 & new2 & Hr2 & Hr2' & Hsim2 & Hun2 & He2 & He2'); try done.
  { intros k x st' Hk. apply Hactive.
    - intros ->. apply Hpre. apply (in_map fst) in Hk. done.
    - rewrite Hsplit. apply in_or_app. by left. }
  unfold bind at 1 2. rewrite Hr2, Hr2'.
  destruct Hun2 as (Hd2 & Hi2 & Hv2 & Hs2 & _).
  (* the dashboard of [l] *)
  simpl for_each. unfold bind at 1.
  rewrite validate_is_judge_then_execute, Hs2, Hs1. simpl active_sources.
  rewrite Hjudge.
  assert (Hexec : execute l (data a) NoDatasource st2 =
    (Return tt,
     {| dashboards := dict_del l (dashboards st2);
        invalid_dashboards := dict_set l (data a) (invalid_dashboards st2);
        active_sources := active_sources st2;
        relation_event := <[l := err]> (relation_event st2);
        effects := ((effects st2 ++ [DashboardsChanged]) ++ [EventWritten l err])%list |})).
  { unfold execute. run_monad. simpl. rewrite Hd2, Hd1. simpl. by rewrite Hdash. }
  rewrite Hexec. clear Hexec.
  set (st3 := {| dashboards := dict_del l (dashboards st2);
                 invalid_dashboards := _ |}).
  assert (Hsim3 : same_elsewhere l st3 u2).
  { destruct Hsim2 as (Ha & Hb & Hc). unfold same_elsewhere. simpl.
    by rewrite dict_del_idem, dict_del_set_eq. }
  (* the dashboards after [l] *)
  destruct (sweep_sim data l post sources st3 u2)
    as (st4 & u4 & new4 & Hr4 & Hr4' & Hsim4 & Hun4 & He4 & He4'); try done.
  { intros k x st' Hk. apply Hactive.
    - intros ->. apply Hpost. apply (in_map fst) in Hk. done.
    - rewrite Hsplit. apply in_or_app. right. by right. }
  { simpl. by rewrite Hs2, Hs1. }
  rewrite Hr4, Hr4'.
  destruct Hun4 as (Hd4 & Hi4 & Hv4 & Hs4 & new4' & He4'' & Hw4).
  assert (new4' = new4) as ->.
  { rewrite He4 in He4''. by apply app_inv_head in He4''. }
  exists st4, u4, (new1 ++ new2)%list, new4.
  assert (Hw12 : forall fb, writes l fb (new1 ++ new2)%list = 0%nat).
  { intros fb.
    pose proof (sweep_untouched (fun x => x) l (invalid_dashboards st) st0 Hkeys)
      as (_ & _ & _ & _ & n1 & Hn1 & Hw1).
    cbv beta in Hn1. rewrite Hr1 in Hn1. simpl in Hn1.
    rewrite He1 in Hn1. apply app_inv_head in Hn1. subst n1.
    pose proof (sweep_untouched data l pre st1 Hpre)
      as (_ & _ & _ & _ & n2 & Hn2 & Hw2).
    rewrite Hr2 in Hn2. simpl in Hn2.
    rewrite He2 in Hn2. apply app_inv_head in Hn2. subst n2.
    by rewrite writes_app, Hw1, Hw2. }
  split_and!; try done.
  - rewrite Hd4. simpl. apply dict_get_del_eq.
  - rewrite Hi4. simpl. apply dict_get_set_eq.
  - rewrite Hv4. simpl. apply lookup_insert_eq.
  - rewrite He4. simpl. rewrite He2, He1. simpl.
    by rewrite <- !app_assoc.
  - rewrite He4', He2', He1'. simpl. by rewrite <- !app_assoc.
  - rewrite !changes_app, changes_cons_changed, changes_cons_written. lia.
  - rewrite writes_app, Hw12. simpl.
    by rewrite writes_cons_changed, writes_cons_written, Hw4.
Qed.

(** C5. The handler is run twice in a row on events carrying the same
    record (the same event, or the same object up to its uuid), with the
    same leadership; the data sources are not touched in between. Then the
    second run emits no [dashboards_changed], and the two runs together
    emit at most one. This holds in every state, for every event, on
    whichever branch the record takes, and whether the runs return or
    raise. *)
Theorem relation_changed_twice is_leader rel ev1 ev2 st :
  same_record ev1 ev2 ->
  let st1 := snd (_on_grafana_dashboard_relation_changed is_leader rel ev1 st) in
  let st2 := snd (_on_grafana_dashboard_relation_changed is_leader rel ev2 st1) in
  exists new1 new2,
    effects st1 = (effects st ++ new1)%list /\
    effects st2 = (effects st1 ++ new2)%list /\
    changes new2 = 0%nat /\
    (changes (new1 ++ new2)%list <= 1)%nat.
Proof.
  assert (Hnil : forall l : list effect, l = (l ++ [])%list)
    by (intros; by rewrite app_nil_r).
  intros Hsame st1 st2.
  destruct (relation_changed_effects is_leader rel ev1 st) as (new1 & H1 & Hle).
  assert (exists new2, effects st2 = (effects st1 ++ new2)%list /\ changes new2 = 0%nat)
    as (new2 & H2 & Hzero).
  { subst st1 st2. destruct is_leader; [|by exists []; split; [apply Hnil|]].
    destruct Hsame as [ev|d u1 u2].
    - destruct ev as [|[[d0| | |]|]];
        try (by exists []; split; [apply Hnil|]).
      + by apply relation_changed_again.
      + unfold _on_grafana_dashboard_relation_changed. simpl.
        destruct (negb (Nat.eqb len 0)); by exists []; split; [apply Hnil|].
      + unfold _on_grafana_dashboard_relation_changed. simpl.
        destruct (negb (Z.eqb n 0)); by exists []; split; [apply Hnil|].
      + unfold _on_grafana_dashboard_relation_changed. simpl.
        destruct (truthy v); by exists []; split; [apply Hnil|].
    - apply relation_changed_again.
      + by rewrite !delete_insert_eq.
      + unfold dict_truthy. rewrite !bool_decide_false; [done| |];
          apply insert_non_empty. }
  exists new1, new2. split_and!; try done.
  rewrite changes_app. lia.
Qed.

End ProviderFacts.

Section ProviderKeys.
Import GrafanaDashboardProvider Verdict Reach.
Context {E : Externals}.

Ltac run_monad :=
  cbv beta iota delta
    [bind ret raise lift modify get_state try_except
     emit_dashboards_changed write_event set_dashboard pop_dashboard
     pop_dashboard_strict set_invalid pop_invalid set_active_sources
     _purge_dead_dashboard of_option].

Ltac solve_unique H :=
  destruct H; split; simpl;
  auto using NoDup_keys_del, NoDup_keys_set.

Lemma execute_unique rel d v st :
  unique_keys st -> unique_keys (snd (execute rel d v st)).
Proof.
  intros H. destruct v; unfold execute; run_monad; simpl; try done.
  - destruct (dict_get rel (dashboards st)); simpl; solve_unique H.
  - destruct (dict_get rel (dashboards st)); simpl; solve_unique H.
  - destruct (dict_get rel (invalid_dashboards st)) as [old|]; simpl;
      [destruct (dict_truthy old); simpl|];
      case_bool_decide; simpl; solve_unique H.
Qed.

Lemma validate_unique d rel st :
  unique_keys st -> unique_keys (snd (_validate_dashboard_data d rel st)).
Proof. rewrite validate_is_judge_then_execute. apply execute_unique. Qed.

Lemma run_unique op st : unique_keys st -> unique_keys (snd (run op st)).
Proof.
  intros H. destruct op as [is_leader rel event|sources|is_leader rel_id]; simpl.
  - unfold _on_grafana_dashboard_relation_changed.
    destruct is_leader; simpl; [|done].
    destruct event as [|[x|]]; try done.
    destruct (loaded_truthy x); simpl; [|done].
    destruct x as [d0| | |]; try done.
    destruct (truthy (dict_get_default (delete "uuid" d0) "removed" _)).
    { run_monad. simpl. destruct (dict_get rel (dashboards st)); simpl; [|done].
      solve_unique H. }
    destruct (truthy (dict_get_default (delete "uuid" d0) "invalidated" _)).
    { run_monad. simpl. destruct (dict_get rel (dashboards st)); simpl; solve_unique H. }
    cbv beta iota delta [bind get_state].
    destruct (active_sources st).
    + run_monad. simpl. destruct (dict_get rel (dashboards st)); simpl; solve_unique H.
    + by apply validate_unique.
  - unfold renew_dashboards.
    apply bind_invariant; [by intros st0 H0| |done].
    intros _ st0 H0. apply bind_invariant; [done| |done].
    intros st1 st2 H2. apply bind_invariant; [| |done].
    + apply for_each_invariant. intros [k d] ?. apply validate_unique.
    + intros _. apply for_each_invariant. intros [k m] ?. apply validate_unique.
  - unfold _on_grafana_dashboard_relation_broken.
    destruct is_leader; simpl; [|done].
    run_monad. simpl. solve_unique H.
Qed.

(** In every reachable state the two stores are dictionaries. *)
Lemma reachable_unique_keys st : reachable st -> unique_keys st.
Proof.
  induction 1 as [|st op _ IH].
  - split; apply NoDup_nil_2.
  - by apply run_unique.
Qed.

End ProviderKeys.

Section ProviderClaims.
Import GrafanaDashboardProvider Verdict Reach.
Context {E : Externals}.

Ltac run_monad :=
  cbv beta iota delta
    [bind ret raise lift modify get_state try_except
     emit_dashboards_changed write_event set_dashboard pop_dashboard
     pop_dashboard_strict set_invalid pop_invalid set_active_sources
     _purge_dead_dashboard of_option].

(** C10. In every state a provider can reach from its initial state by
    relation-changed events, new lists of data sources and relation-broken
    events, no relation has both a dashboard and an invalid dashboard. The
    operations counted are all of them, those that raise included. *)
Theorem stores_disjoint_when_reachable st :
  reachable st -> disjoint_stores st.
Proof.
  induction 1 as [|st op _ IH].
  - intros k. by left.
  - destruct op; simpl.
    + by apply relation_changed_disjoint.
    + by apply renew_disjoint.
    + by apply relation_broken_disjoint.
Qed.

(** A raise comes before anything is written. *)
Lemma execute_raise rel d v st e :
  fst (execute rel d v st) = Raise e -> snd (execute rel d v st) = st.
Proof.
  destruct v; unfold execute; run_monad; simpl; try done.
  - by destruct (dict_get rel (dashboards st)).
  - by destruct (dict_get rel (dashboards st)).
  - destruct (dict_get rel (invalid_dashboards st)) as [old|]; simpl;
      [destruct (dict_truthy old); simpl|];
      by case_bool_decide.
Qed.

Lemma relation_changed_raise is_leader rel event st e :
  fst (_on_grafana_dashboard_relation_changed is_leader rel event st) = Raise e ->
  snd (_on_grafana_dashboard_relation_changed is_leader rel event st) = st.
Proof.
  unfold _on_grafana_dashboard_relation_changed.
  destruct is_leader; simpl; [|done].
  destruct event as [|[x|]]; try done.
  destruct (loaded_truthy x); simpl; [|done].
  destruct x as [d0| | |]; try done.
  destruct (truthy (dict_get_default (delete "uuid" d0) "removed" _)).
  { run_monad. simpl. by destruct (dict_get rel (dashboards st)). }
  destruct (truthy (dict_get_default (delete "uuid" d0) "invalidated" _)).
  { run_monad. simpl. by destruct (dict_get rel (dashboards st)). }
  cbv beta iota delta [bind get_state].
  destruct (active_sources st) eqn:Hsrc.
  - run_monad. simpl. by destruct (dict_get rel (dashboards st)).
  - rewrite validate_is_judge_then_execute. apply execute_raise.
Qed.

Lemma decode_template_no_syntax_error t :
  decode_template t <> Raise TemplateSyntaxError.
Proof.
  unfold decode_template.
  destruct (b64decode _); [|done].
  destruct (zlib_decompress _); [|done].
  by destruct (bytes_decode _).
Qed.

(** C9, as amended. An event with no payload, or with a payload that
    loads to something empty, is dropped: the handler returns and the state
    is untouched. A malformed record is not dropped: a payload that does
    not parse raises [JSONDecodeError]; a record without its target
    identifier, neither removed nor invalidated, raises [KeyError] when
    there are data sources; a record whose template bytes do not decode
    raises the decoder's exception when a data source matches. Whatever the
    handler raises, it has by then changed no state and written no
    feedback. *)
Theorem malformed_record_is_not_dropped rel st :
  (* no payload, or one that loads to something empty: dropped *)
  (forall is_leader event,
     event = NoPayload \/
     (exists x, event = Payload (Some x) /\ loaded_truthy x = false) ->
     _on_grafana_dashboard_relation_changed is_leader rel event st = (Return tt, st)) /\
  (* a payload that does not parse *)
  _on_grafana_dashboard_relation_changed true rel (Payload None) st
    = (Raise JSONDecodeError, st) /\
  (* a record without its target identifier, data sources being there *)
  (forall d0,
     let d := delete "uuid" d0 in
     dict_truthy d0 = true ->
     truthy (dict_get_default d "removed" (JBool false)) = false ->
     truthy (dict_get_default d "invalidated" (JBool false)) = false ->
     d !! "monitoring_identifier" = None ->
     active_sources st <> [] ->
     _on_grafana_dashboard_relation_changed true rel (Payload (Some (LDict d0))) st
       = (Raise KeyError, st)) /\
  (* a record whose template does not decode, a data source matching *)
  (forall d0 ident t e,
     let d := delete "uuid" d0 in
     truthy (dict_get_default d "removed" (JBool false)) = false ->
     truthy (dict_get_default d "invalidated" (JBool false)) = false ->
     d !! "monitoring_identifier" = Some (JStr ident) ->
     ident <> "" ->
     (exists src, In src (active_sources st) /\
                  str_in ident (source_name src) = true) ->
     d !! "template" = Some (JStr t) ->
     decode_template t = Raise e ->
     _on_grafana_dashboard_relation_changed true rel (Payload (Some (LDict d0))) st
       = (Raise e, st)) /\
  (* whatever is raised, nothing has been written *)
  (forall is_leader event e,
     fst (_on_grafana_dashboard_relation_changed is_leader rel event st) = Raise e ->
     snd (_on_grafana_dashboard_relation_changed is_leader rel event st) = st).
Proof.
  split_and!.
  - intros is_leader event Hev.
    unfold _on_grafana_dashboard_relation_changed.
    destruct is_leader; simpl; [|done].
    destruct Hev as [->|(x & -> & Hx)]; [done|]. by rewrite Hx.
  - done.
  - intros d0 d Htruthy Hrem Hinval Hid Hsrc.
    unfold _on_grafana_dashboard_relation_changed. simpl.
    rewrite Htruthy. simpl. fold d. rewrite Hrem, Hinval.
    cbv beta iota delta [bind get_state].
    destruct (active_sources st) as [|s0 l0] eqn:Hsources; [done|].
    rewrite validate_is_judge_then_execute, Hsources.
    unfold judge. simpl. by rewrite Hid.
  - intros d0 ident t e d Hrem Hinval Hid Hne (src0 & Hin0 & Hmatch0) Ht Hdec.
    unfold _on_grafana_dashboard_relation_changed. simpl.
    assert (Htruthy : dict_truthy d0 = true).
    { unfold dict_truthy. rewrite bool_decide_false; [done|]. intros ->.
      subst d. by rewrite delete_empty, lookup_empty in Hid. }
    rewrite Htruthy. simpl. fold d. rewrite Hrem, Hinval.
    cbv beta iota delta [bind get_state].
    destruct (active_sources st) as [|s0 l0] eqn:Hsources; [done|].
    rewrite validate_is_judge_then_execute, Hsources.
    unfold judge. rewrite (matching_source_names_filter _ _ _ Hid).
    destruct (List.filter (fun x => str_in ident (source_name x)) (s0 :: l0))
      as [|src rest] eqn:Hf.
    { exfalso. assert (In src0 []) as []. rewrite <- Hf.
      apply (filter_In (fun x => str_in ident (source_name x))). done. }
    assert (In src (s0 :: l0) /\ str_in ident (source_name src) = true) as [Hin Hmatch].
    { apply (filter_In (fun x => str_in ident (source_name x))).
      rewrite Hf. by left. }
    simpl. destruct (source_name src) as [|c name] eqn:Hname.
    { apply str_in_empty_right in Hmatch. done. }
    unfold template_of, dict_index. rewrite Ht. simpl. rewrite Hdec.
    pose proof (decode_template_no_syntax_error t) as Hno.
    rewrite Hdec in Hno. by destruct e.
  - intros. by eapply relation_changed_raise.
Qed.

(** C2, where the code goes wrong. A record with [removed] set, for a
    relation that has no dashboard (nothing stored at all, or an invalid
    dashboard only): the handler raises [KeyError] and leaves the state as
    it was, an invalid dashboard included. *)
Theorem removed_record_without_dashboard_raises rel d0 st :
  dict_truthy d0 = true ->
  truthy (dict_get_default (delete "uuid" d0) "removed" (JBool false)) = true ->
  dict_get rel (dashboards st) = None ->
  _on_grafana_dashboard_relation_changed true rel (Payload (Some (LDict d0))) st
    = (Raise KeyError, st).
Proof.
  intros Htruthy Hrem Hdash.
  unfold _on_grafana_dashboard_relation_changed. simpl.
  rewrite Htruthy. simpl. rewrite Hrem.
  run_monad. simpl. by rewrite Hdash.
Qed.

(** With a dashboard stored for the relation, a record with [removed] set
    deletes it and nothing else happens: no event, no feedback. *)
Lemma removed_record_with_dashboard rel d0 st msg :
  dict_truthy d0 = true ->
  truthy (dict_get_default (delete "uuid" d0) "removed" (JBool false)) = true ->
  dict_get rel (dashboards st) = Some msg ->
  _on_grafana_dashboard_relation_changed true rel (Payload (Some (LDict d0))) st
    = (Return tt,
       {| dashboards := dict_del rel (dashboards st);
          invalid_dashboards := invalid_dashboards st;
          active_sources := active_sources st;
          relation_event := relation_event st;
          effects := effects st |}).
Proof.
  intros Htruthy Hrem Hdash.
  unfold _on_grafana_dashboard_relation_changed. simpl.
  rewrite Htruthy. simpl. rewrite Hrem.
  run_monad. simpl. by rewrite Hdash.
Qed.

End ProviderClaims.

(** ** The sample libraries *)

Section SampleFacts.
Import Sample.

(** The sample codecs are lawful. *)
Lemma zlib_table_roundtrip b :
  table_decode zlib_table (table_encode zlib_table b) = Some b.
Proof.
  unfold table_encode, zlib_table.
  repeat case_bool_decide; subst; try (vm_compute; reflexivity).
Qed.

Lemma b64_table_roundtrip b :
  table_decode b64_table (table_encode b64_table b) = Some b.
Proof.
  unfold table_encode, b64_table.
  repeat case_bool_decide; subst; try (vm_compute; reflexivity).
Qed.

#[export] Instance libraries_lawful : CodecLaws libraries.
Proof.
  split; simpl.
  - intros s. by rewrite String.string_of_list_byte_of_string.
  - intros b _. apply zlib_table_roundtrip.
  - apply b64_table_roundtrip.
  - intros b. eexists. split; [reflexivity|].
    apply String.list_byte_of_string_of_list_byte.
Qed.

End SampleFacts.

(** ** The codec *)

Section CodecFacts.
Context {E : Externals} `{!CodecLaws E}.

(** C6. For libraries whose decoders undo their encoders, every template
    text [s] is encoded (compressed at level 9, then base64) to a text that
    decodes (base64, then decompressed) to [s] exactly. *)
Theorem decode_encode_template (s : string) :
  exists encoded,
    encode_template s = Return encoded /\
    decode_template encoded = Return s.
Proof.
  unfold encode_template, decode_template.
  destruct (b64_text (zlib_compress (str_encode s) 9)) as (t & Ht & Hback).
  exists t. rewrite Ht. split; [done|].
  rewrite Hback, b64decode_encode, zlib_decompress_compress.
  by rewrite bytes_decode_encode.
Qed.

End CodecFacts.

Lemma decode_encode_template_witness :
  exists encoded,
    encode_template (E := Sample.libraries) Sample.datasource_template
      = Return encoded /\
    decode_template (E := Sample.libraries) encoded
      = Return Sample.datasource_template.
Proof. apply (decode_encode_template (E := Sample.libraries)). Defined.

(** ** The scenario, run *)

Section ScenarioRuns.
Import GrafanaDashboardProvider Verdict Reach Sample Scenario SweepScenario.

Example with_invalid_is :
  with_invalid =
    {| dashboards := [];
       invalid_dashboards := [(1%Z, the_record)];
       active_sources := [];
       relation_event :=
         {[ 1%Z := {| errors := JStr "Cannot add Grafana dashboard. No configured datasources";
                      valid := false |} ]};
       effects :=
         [EventWritten 1
            {| errors := JStr "Cannot add Grafana dashboard. No configured datasources";
               valid := false |}] |}.
Proof. reflexivity. Qed.

Example with_active_is :
  with_active =
    {| dashboards := [(1%Z, the_dashboard)];
       invalid_dashboards := [];
       active_sources := scenario_sources;
       relation_event := ∅;
       effects := [DashboardsChanged] |}.
Proof. reflexivity. Qed.

(** C1, counterexample. The first record of the scenario, sent to a
    provider that knows the matching data source: the dashboard is stored
    and [dashboards_changed] emitted, and nothing is written to the
    relation data of the relation. *)
Lemma first_record_writes_no_feedback :
  _on_grafana_dashboard_relation_changed true 1
    (Payload (Some (LDict (scenario_record "u1")))) with_sources
    = (Return tt, with_active) /\
  dict_get 1 (dashboards with_active) = Some the_dashboard /\
  relation_event with_active !! 1%Z = None /\
  (forall fb, writes 1 fb (effects with_active) = 0%nat).
Proof. split_and!; reflexivity. Qed.

(** The template [{{ unclosed] does not parse: the dashboard the relation
    had is purged and the error is reported, but the record is not kept
    among the invalid dashboards. *)
Example unclosed_template_is_reported :
  _on_grafana_dashboard_relation_changed true 1
    (Payload (Some (LDict (<["template" := JStr unclosed_template_b64]>
                             (scenario_record "u2")))))
    with_active
  = (Return tt,
     {| dashboards := [];
        invalid_dashboards := [];
        active_sources := scenario_sources;
        relation_event :=
          {[ 1%Z := {| errors := JStr "Cannot add Grafana dashboard. Template is not valid Jinja";
                       valid := false |} ]};
        effects :=
          [DashboardsChanged; DashboardsChanged;
           EventWritten 1
             {| errors := JStr "Cannot add Grafana dashboard. Template is not valid Jinja";
                valid := false |}] |}).
Proof. reflexivity. Qed.

(** An empty identifier matched by a data source with an empty name: the
    handler returns without storing or reporting anything. *)
Example empty_identifier_is_ignored :
  let st := snd (renew_dashboards [ {| source_name := "" |} ] initial) in
  _on_grafana_dashboard_relation_changed true 1
    (Payload (Some (LDict (<["monitoring_identifier" := JStr ""]>
                             (scenario_record "u1")))))
    st
  = (Return tt, st).
Proof. reflexivity. Qed.

(** C9, counterexample. A payload that does not parse, and a record
    without its target identifier: the handler raises. *)
Lemma malformed_payloads_raise :
  _on_grafana_dashboard_relation_changed true 1 (Payload None) with_sources
    = (Raise JSONDecodeError, with_sources) /\
  _on_grafana_dashboard_relation_changed true 1
    (Payload (Some (LDict (delete "monitoring_identifier" (scenario_record "u1")))))
    with_sources
    = (Raise KeyError, with_sources).
Proof. split; reflexivity. Qed.

Lemma first_record_is_rendered_witness :
  let st := snd (renew_dashboards three_sources initial) in
  exists encoded,
    encode_template datasource_name = Return encoded /\
    _on_grafana_dashboard_relation_changed true 1
      (Payload (Some (LDict (scenario_record "u1")))) st =
      (Return tt,
       {| dashboards :=
            dict_set 1 {| target := JStr "model-abc_uuid1_appX";
                          dashboard := encoded;
                          data := delete "uuid" (scenario_record "u1") |}
              (dashboards st);
          invalid_dashboards := invalid_dashboards st;
          active_sources := active_sources st;
          relation_event := relation_event st;
          effects := (effects st ++ [DashboardsChanged])%list |}).
Proof.
  apply (first_record_is_rendered (E := libraries) 1 (scenario_record "u1")
           (snd (renew_dashboards three_sources initial))
           "model-abc_uuid1_appX" datasource_template_b64
           datasource_template datasource_template
           (JStr "Cassandra [ model-abc / uuid1 ]")
           (JStr "juju_model='model-abc',juju_model_uuid='uuid1',juju_application='cassandra'")
           [ {| source_name := "other [grafana]" |} ]
           {| source_name := datasource_name |}
           [ {| source_name := "model-abc_uuid1_appX [second]" |} ]
           datasource_name).
  - reflexivity.
  - reflexivity.
  - reflexivity.
  - reflexivity.
  - reflexivity.
  - discriminate.
  - reflexivity.
  - reflexivity.
  - reflexivity.
  - reflexivity.
  - reflexivity.
  - reflexivity.
  - intros y [<-|[]]. reflexivity.
  - reflexivity.
  - reflexivity.
Defined.

Lemma removed_record_without_dashboard_raises_witness :
  _on_grafana_dashboard_relation_changed true 1
    (Payload (Some (LDict (<["removed" := JBool true]> (scenario_record "u2")))))
    with_invalid
    = (Raise KeyError, with_invalid) /\
  dict_get 1 (invalid_dashboards with_invalid) = Some the_record.
Proof.
  split; [|reflexivity].
  apply (removed_record_without_dashboard_raises (E := libraries)); reflexivity.
Defined.

Example two_invalid_is :
  two_invalid =
    {| dashboards := [];
       invalid_dashboards :=
         [(1%Z, delete "monitoring_target" the_record); (2%Z, the_record)];
       active_sources := [];
       relation_event :=
         <[2%Z := {| errors := JStr "Cannot add Grafana dashboard. No configured datasources";
                     valid := false |}]>
         {[ 1%Z := {| errors := JStr "Cannot add Grafana dashboard. No configured datasources";
                      valid := false |} ]};
       effects :=
         [EventWritten 1
            {| errors := JStr "Cannot add Grafana dashboard. No configured datasources";
               valid := false |};
          EventWritten 2
            {| errors := JStr "Cannot add Grafana dashboard. No configured datasources";
               valid := false |}] |}.
Proof. reflexivity. Qed.

Example stale_and_active_is :
  stale_and_active =
    {| dashboards := [(2%Z, the_dashboard)];
       invalid_dashboards :=
         [(1%Z, delete "monitoring_target" (delete "uuid" (other_record "u1")))];
       active_sources := scenario_sources;
       relation_event := {[ 1%Z := no_datasource ]};
       effects := [EventWritten 1 no_datasource; DashboardsChanged] |}.
Proof. reflexivity. Qed.

Example invalid_and_active_is :
  invalid_and_active =
    {| dashboards := [(2%Z, the_dashboard)];
       invalid_dashboards := [(1%Z, delete "uuid" (other_record "u1"))];
       active_sources := scenario_sources;
       relation_event := {[ 1%Z := no_datasource ]};
       effects := [EventWritten 1 no_datasource; DashboardsChanged] |}.
Proof. reflexivity. Qed.

(** C3, counterexample. Two relations sent their records before any data
    source was known, relation 1 a record without its target, relation 2
    the record of the scenario; both are invalid. [renew_dashboards] is
    then called with the data source of the scenario, whose name contains
    the identifier of relation 2's record, a record that renders. The
    sweep raises [KeyError] at relation 1: relation 2 is still invalid,
    has no dashboard, and nothing was written or emitted. *)
Lemma earlier_record_aborts_recovery :
  let result := renew_dashboards scenario_sources two_invalid in
  reachable two_invalid /\
  dict_get 2 (invalid_dashboards two_invalid) = Some the_record /\
  dict_get 2 (dashboards two_invalid) = None /\
  (exists src, In src scenario_sources /\
     str_in "model-abc_uuid1_appX" (source_name src) = true) /\
  fst result = Raise KeyError /\
  dict_get 2 (dashboards (snd result)) = None /\
  dict_get 2 (invalid_dashboards (snd result)) = Some the_record /\
  relation_event (snd result) !! 2%Z = relation_event two_invalid !! 2%Z /\
  effects (snd result) = effects two_invalid.
Proof.
  split_and!; try reflexivity.
  - exact (reachable_step _
             (RelationChanged true 2 (Payload (Some (LDict (scenario_record "u2")))))
             (reachable_step initial
                (RelationChanged true 1
                   (Payload (Some (LDict (delete "monitoring_target"
                                            (scenario_record "u1"))))))
                reachable_initial)).
  - eexists. split; [left; reflexivity|reflexivity].
Qed.

(** C4, counterexample. Relation 1 has an invalid record, of another
    application and without its target; relation 2 has the dashboard of
    the scenario. [renew_dashboards] is called with the data source of the
    other application only, whose name does not contain the identifier of
    relation 2's record. The sweep raises [KeyError] at relation 1:
    relation 2 keeps its dashboard and is not invalid, no
    [dashboards_changed] is emitted and no feedback written. *)
Lemma earlier_record_aborts_invalidation :
  let result := renew_dashboards [other_source] stale_and_active in
  reachable stale_and_active /\
  dict_get 2 (dashboards stale_and_active) = Some the_dashboard /\
  dict_get 2 (invalid_dashboards stale_and_active) = None /\
  (forall src, In src [other_source] ->
     str_in "model-abc_uuid1_appX" (source_name src) = false) /\
  fst result = Raise KeyError /\
  dict_get 2 (dashboards (snd result)) = Some the_dashboard /\
  dict_get 2 (invalid_dashboards (snd result)) = None /\
  relation_event (snd result) !! 2%Z = None /\
  effects (snd result) = effects stale_and_active.
Proof.
  split_and!; try reflexivity.
  - exact (reachable_step _
             (RelationChanged true 2 (Payload (Some (LDict (scenario_record "u2")))))
             (reachable_step _
                (RelationChanged true 1
                   (Payload (Some (LDict (delete "monitoring_target"
                                            (other_record "u1"))))))
                (reachable_step initial (RenewDashboards scenario_sources)
                   reachable_initial))).
  - intros src [<-|[]]. reflexivity.
Qed.

Lemma renew_recovers_invalid_witness :
  let sources := (scenario_sources ++ [other_source])%list in
  exists st' encoded new,
    renew_dashboards sources invalid_and_active = (Return tt, st') /\
    encode_template (source_name other_source) = Return encoded /\
    dict_get 1 (dashboards st') =
      Some {| target := JStr "model-xyz_uuid2_appY"; dashboard := encoded;
              data := delete "uuid" (other_record "u1") |} /\
    dict_get 1 (invalid_dashboards st') = None /\
    relation_event st' !! 1%Z = Some now_valid /\
    effects st' = (effects invalid_and_active ++ new)%list /\
    writes 1 now_valid new = 1%nat.
Proof.
  apply (renew_recovers_invalid (E := libraries) invalid_and_active 1
           (delete "uuid" (other_record "u1")) "model-xyz_uuid2_appY"
           datasource_template_b64 datasource_template datasource_template
           (JStr "Cassandra [ model-abc / uuid1 ]")
           (JStr "juju_model='model-abc',juju_model_uuid='uuid1',juju_application='cassandra'")
           scenario_sources other_source [] (source_name other_source)).
  - reflexivity.
  - reflexivity.
  - apply NoDup_singleton.
  - reflexivity.
  - discriminate.
  - reflexivity.
  - reflexivity.
  - reflexivity.
  - reflexivity.
  - reflexivity.
  - intros y [<-|[]]. reflexivity.
  - reflexivity.
  - reflexivity.
  - intros k d st0 _. apply (judged_records_return (fun x => x)). reflexivity.
  - apply (judged_records_return data). reflexivity.
Defined.

Lemma renew_invalidates_active_witness :
  exists st' u' before after,
    renew_dashboards (E := libraries) [other_source] invalid_and_active
      = (Return tt, st') /\
    dict_get 2 (dashboards st') = None /\
    dict_get 2 (invalid_dashboards st') = Some the_record /\
    relation_event st' !! 2%Z = Some no_datasource /\
    effects st' =
      (effects invalid_and_active ++ before ++
       [DashboardsChanged; EventWritten 2 no_datasource] ++ after)%list /\
    renew_dashboards (E := libraries) [other_source] (forget 2 invalid_and_active)
      = (Return tt, u') /\
    effects u' = (effects invalid_and_active ++ before ++ after)%list /\
    changes (before ++ [DashboardsChanged; EventWritten 2 no_datasource] ++ after)%list
      = S (changes (before ++ after)%list) /\
    writes 2 no_datasource
      (before ++ [DashboardsChanged; EventWritten 2 no_datasource] ++ after)%list
      = 1%nat.
Proof.
  apply (renew_invalidates_active (E := libraries) [other_source] invalid_and_active
           2 the_dashboard "model-abc_uuid1_appX").
  - reflexivity.
  - reflexivity.
  - apply NoDup_singleton.
  - reflexivity.
  - intros src [<-|[]]. reflexivity.
  - apply (judged_records_return (fun x => x)). reflexivity.
  - intros k m st0 _. apply (judged_records_return data). reflexivity.
Defined.

Lemma relation_changed_twice_witness :
  let st1 := snd (_on_grafana_dashboard_relation_changed (E := libraries) true 1
                    (Payload (Some (LDict (scenario_record "u1")))) with_sources) in
  let st2 := snd (_on_grafana_dashboard_relation_changed (E := libraries) true 1
                    (Payload (Some (LDict (scenario_record "u2")))) st1) in
  exists new1 new2,
    effects st1 = (effects with_sources ++ new1)%list /\
    effects st2 = (effects st1 ++ new2)%list /\
    changes new2 = 0%nat /\
    (changes (new1 ++ new2)%list <= 1)%nat.
Proof.
  apply (relation_changed_twice (E := libraries) true 1
           (Payload (Some (LDict (scenario_record "u1"))))
           (Payload (Some (LDict (scenario_record "u2")))) with_sources).
  exact (same_up_to_uuid the_record (JStr "u1") (JStr "u2")).
Defined.

Lemma stores_disjoint_when_reachable_witness :
  disjoint_stores
    (snd (run (E := libraries) (RenewDashboards [])
       (snd (run (E := libraries)
               (RelationChanged true 1 (Payload (Some (LDict (scenario_record "u1")))))
          (snd (run (E := libraries) (RenewDashboards scenario_sources) initial)))))).
Proof.
  apply (stores_disjoint_when_reachable (E := libraries)).
  do 3 apply reachable_step. apply reachable_initial.
Defined.

Lemma malformed_record_is_not_dropped_witness :
  _on_grafana_dashboard_relation_changed (E := libraries) true 1 (Payload None)
    with_sources
    = (Raise JSONDecodeError, with_sources).
Proof.
  apply (malformed_record_is_not_dropped (E := libraries) 1 with_sources).
Defined.

End ScenarioRuns.

(** ** The consumer *)

Section ConsumerFacts.
Import GrafanaDashboardConsumer ConsumerScenario.
Context {E : Externals}.

Ltac run_consumer :=
  cbv beta iota delta
    [bind ret raise lift modify get_state try_except of_option
     emit_status store_dashboard write_relation get_relation
     get_relation_by_id attr units_pop dict_pop_no_key].

(** What the leader stores and sends carries every field the provider
    reads, with an identifier that is never empty. *)
Lemma update_dashboards_record self data rel_id prom_unit uuid4 st st' :
  is_leader self = true ->
  _update_dashboards self data rel_id prom_unit uuid4 st = (Return tt, st') ->
  exists d ident target query template,
    dict_get rel_id (dashboards st') = Some d /\
    relation_dashboards st' !! rel_id = Some d /\
    d !! "monitoring_identifier" = Some (JStr ident) /\ ident <> "" /\
    d !! "monitoring_target" = Some (JStr target) /\
    d !! "monitoring_query" = Some (JStr query) /\
    d !! "template" = Some (JStr template) /\
    encode_template data = Return template /\
    d !! "removed" = Some (JBool false) /\
    d !! "invalidated" = Some (JBool false) /\
    d !! "uuid" = Some (JStr uuid4).
Proof.
  intros Hleader. unfold _update_dashboards. rewrite Hleader. simpl.
  run_consumer. simpl.
  destruct (encode_template data) as [template|e] eqn:Henc; simpl; [|done].
  intros [= <-]. simpl.
  eexists _, _, _, _, template. split_and!;
    [apply dict_get_set_eq | apply lookup_insert_eq | reflexivity | |
     reflexivity | reflexivity | reflexivity | reflexivity | reflexivity |
     reflexivity | reflexivity ].
  destruct (backend_model_name prom_unit); [discriminate|done].
Qed.

(** C7, as amended. Without leadership [add_dashboard] stores nothing and
    writes nothing to the relation data, whatever it is given and whether
    it returns or raises. It is not silent: when there is no monitoring
    relation (and the Grafana relation is known), it returns after emitting
    the status event "Waiting for a prometheus_scrape relation to send
    dashboard data", invalid; when there is a monitoring relation, it emits
    nothing. *)
Theorem add_dashboard_without_leadership self data rel_id uuid4 st :
  is_leader self = false ->
  let result := add_dashboard self data rel_id uuid4 st in
  dashboards (snd result) = dashboards st /\
  relation_dashboards (snd result) = relation_dashboards st /\
  (monitoring self = [] ->
   (rel_id <> None \/ exists r, relations self = [r]) ->
   fst result = Return tt /\
   status_events (snd result) = (status_events st ++ [waiting])%list) /\
  (monitoring self <> [] -> status_events (snd result) = status_events st).
Proof.
  intros Hleader result. subst result.
  unfold add_dashboard, _update_dashboards. rewrite Hleader.
  run_consumer. simpl.
  destruct rel_id as [i|]; simpl.
  - destruct (monitoring self) as [|us [|? ?]]; simpl.
    + split_and!; try done.
    + destruct us; simpl; split_and!; try done.
    + split_and!; try done.
  - destruct (relations self) as [|r [|? ?]]; simpl.
    + split_and!; try done. intros _ [?|(r0 & ?)]; done.
    + destruct (monitoring self) as [|us [|? ?]]; simpl.
      * split_and!; try done.
      * destruct us; simpl; split_and!; try done.
      * split_and!; try done.
    + split_and!; try done. intros _ [?|(r0 & ?)]; done.
Qed.

(** C8, where the code goes wrong. For the leader and a relation with a
    stored record, [remove_dashboard] raises [TypeError], from calling
    [pop()] without a key on the stored record, and changes nothing: the
    record is not marked removed, not written to the relation data and not
    dropped from the stored dashboards. *)
Theorem remove_dashboard_raises self rel_id r stored st :
  is_leader self = true ->
  match rel_id with Some i => Some i | None => relation_id self end = Some r ->
  dict_get r (dashboards st) = Some stored ->
  remove_dashboard self rel_id st = (Raise TypeError, st).
Proof.
  intros Hleader Hrel Hstored.
  unfold remove_dashboard. rewrite Hleader, Hrel.
  run_consumer. simpl. by rewrite Hstored.
Qed.

End ConsumerFacts.

Section ConsumerRuns.
Import GrafanaDashboardConsumer ConsumerScenario.

(** C7, counterexample. A unit without leadership and without a
    monitoring relation adds a dashboard: a status event is emitted. *)
Lemma follower_emits_waiting_status :
  add_dashboard (E := Sample.libraries) follower Sample.datasource_template
    None "u1" initial
  = (Return tt,
     {| dashboards := []; relation_dashboards := ∅; status_events := [waiting] |}).
Proof. reflexivity. Qed.

Lemma add_dashboard_without_leadership_witness :
  let result := add_dashboard (E := Sample.libraries) follower
                  Sample.datasource_template None "u1" initial in
  dashboards (snd result) = dashboards initial /\
  relation_dashboards (snd result) = relation_dashboards initial /\
  (monitoring follower = [] ->
   ((None : option Z) <> None \/ exists r, relations follower = [r]) ->
   fst result = Return tt /\
   status_events (snd result) = (status_events initial ++ [waiting])%list) /\
  (monitoring follower <> [] -> status_events (snd result) = status_events initial).
Proof.
  apply (add_dashboard_without_leadership (E := Sample.libraries) follower).
  reflexivity.
Defined.

Example submitted_is :
  submitted =
    {| dashboards := [(1%Z, Sample.scenario_record "u1")];
       relation_dashboards := {[ 1%Z := Sample.scenario_record "u1" ]};
       status_events := [] |}.
Proof. reflexivity. Qed.

Lemma remove_dashboard_raises_witness :
  remove_dashboard leader (Some 1%Z) submitted = (Raise TypeError, submitted).
Proof.
  apply (remove_dashboard_raises leader (Some 1%Z) 1 (Sample.scenario_record "u1")).
  - reflexivity.
  - reflexivity.
  - reflexivity.
Defined.

End ConsumerRuns.

(** * More of the provider *)

Section ProviderMore.
Import GrafanaDashboardProvider Verdict Reach ProviderHelpers Settled.
Context {E : Externals}.

Ltac run_monad :=
  cbv beta iota delta
    [bind ret raise lift modify get_state try_except
     emit_dashboards_changed write_event set_dashboard pop_dashboard
     pop_dashboard_strict set_invalid pop_invalid set_active_sources
     _purge_dead_dashboard of_option].

Ltac dict_simpl :=
  repeat first
    [ rewrite dict_get_set_eq | rewrite dict_get_del_eq
    | rewrite dict_get_set_ne by congruence
    | rewrite dict_get_del_ne by congruence ].

(** X1. [_find_grafana_datasource] returns the name of the first data
    source, in the order of [active_sources], whose name contains the
    identifier of the record, and changes nothing: data sources before it
    that do not match are passed over, and later ones are not looked
    at. *)
Theorem find_returns_first_match d rel st ident pre x post :
  d !! "monitoring_identifier" = Some (JStr ident) ->
  active_sources st = (pre ++ x :: post)%list ->
  (forall y, In y pre -> str_in ident (source_name y) = false) ->
  str_in ident (source_name x) = true ->
  _find_grafana_datasource d rel st = (Return (Some (source_name x)), st).
Proof.
  intros Hid Hsrc Hpre Hx.
  unfold _find_grafana_datasource. run_monad.
  rewrite (matching_source_names_filter _ _ _ Hid), Hsrc.
  rewrite List.filter_app. simpl. rewrite Hx.
  assert (List.filter (fun y => str_in ident (source_name y)) pre = []) as ->.
  { clear Hsrc. induction pre as [|y pre IH]; simpl; [done|].
    rewrite (Hpre y) by (by left). apply IH. intros. apply Hpre. by right. }
  done.
Qed.

(** The handler on a record that is neither removed nor invalidated, as
    long as there are data sources: validation. *)
Lemma relation_changed_validates rel d0 st :
  dict_truthy d0 = true ->
  truthy (dict_get_default (delete "uuid" d0) "removed" (JBool false)) = false ->
  truthy (dict_get_default (delete "uuid" d0) "invalidated" (JBool false)) = false ->
  active_sources st <> [] ->
  _on_grafana_dashboard_relation_changed true rel (Payload (Some (LDict d0))) st
    = execute rel (delete "uuid" d0)
        (judge (active_sources st) (delete "uuid" d0)) st.
Proof.
  intros Htruthy Hrem Hinval Hsrc.
  unfold _on_grafana_dashboard_relation_changed. simpl.
  rewrite Htruthy. simpl. rewrite Hrem, Hinval.
  cbv beta iota delta [bind get_state].
  destruct (active_sources st) as [|s0 l0] eqn:Hsources; [done|].
  by rewrite validate_is_judge_then_execute, Hsources.
Qed.

(** What is new among the effects of [execute], and that the dashboards
    change only along with a [dashboards_changed]. *)
Lemma execute_quiet rel d v st :
  exists new,
    effects (snd (execute rel d v st)) = (effects st ++ new)%list /\
    (changes new = 0%nat ->
     dashboards (snd (execute rel d v st)) = dashboards st).
Proof.
  assert (Hnil : forall l : list effect, l = (l ++ [])%list)
    by (intros; by rewrite app_nil_r).
  destruct v; unfold execute; run_monad; simpl.
  - exists []. split; [apply Hnil|done].
  - exists []. split; [apply Hnil|done].
  - destruct (dict_get rel (dashboards st)) eqn:Hget; simpl;
      eexists; rewrite <- ?app_assoc; (split; [reflexivity|]); simpl.
    + rewrite changes_cons_changed. done.
    + intros _. by apply dict_del_absent.
  - destruct (dict_get rel (dashboards st)) eqn:Hget; simpl;
      eexists; rewrite <- ?app_assoc; (split; [reflexivity|]); simpl.
    + rewrite changes_cons_changed. done.
    + intros _. by apply dict_del_absent.
  - destruct (dict_get rel (invalid_dashboards st)) as [old|]; simpl;
      [destruct (dict_truthy old); simpl|];
      rewrite !coerced_data_is_stored;
      case_bool_decide as Hsame; simpl;
      eexists; rewrite <- ?app_assoc;
      (split; [first [reflexivity | apply Hnil]|]); simpl;
      rewrite ?changes_cons_written, ?changes_cons_changed; done.
Qed.

Lemma bind_quiet {A B} (m : M state A) (k : A -> M state B) st :
  (forall st, exists new,
     effects (snd (m st)) = (effects st ++ new)%list /\
     (changes new = 0%nat -> dashboards (snd (m st)) = dashboards st)) ->
  (forall a st, exists new,
     effects (snd (k a st)) = (effects st ++ new)%list /\
     (changes new = 0%nat -> dashboards (snd (k a st)) = dashboards st)) ->
  exists new,
    effects (snd (bind m k st)) = (effects st ++ new)%list /\
    (changes new = 0%nat -> dashboards (snd (bind m k st)) = dashboards st).
Proof.
  intros Hm Hk. unfold bind. destruct (Hm st) as (new1 & He1 & Hq1).
  destruct (m st) as [[a|e] st1]; simpl in *; [|by exists new1].
  destruct (Hk a st1) as (new2 & He2 & Hq2).
  exists (new1 ++ new2)%list. split.
  - by rewrite He2, He1, app_assoc.
  - rewrite changes_app. intros H0.
    rewrite Hq2, Hq1; [done|lia|lia].
Qed.

Lemma for_each_quiet {A} (body : A -> M state unit) xs st :
  (forall x st, exists new,
     effects (snd (body x st)) = (effects st ++ new)%list /\
     (changes new = 0%nat -> dashboards (snd (body x st)) = dashboards st)) ->
  exists new,
    effects (snd (for_each xs body st)) = (effects st ++ new)%list /\
    (changes new = 0%nat -> dashboards (snd (for_each xs body st)) = dashboards st).
Proof.
  intros Hbody. revert st. induction xs as [|x xs IH]; intros st; simpl.
  - exists []. split; [by rewrite app_nil_r|done].
  - apply bind_quiet; [apply Hbody|]. intros _. apply IH.
Qed.

(** X3. Whatever the operation (a relation-changed event, new data
    sources, a relation-broken event), unless it is a record with
    [removed] set: if it emits no [dashboards_changed], the stored
    dashboards are exactly what they were, whether it returned or raised.
    Only a removed record drops a dashboard without the event. *)
Theorem quiet_operation_keeps_dashboards op st :
  (forall is_leader rel d0,
     op = RelationChanged is_leader rel (Payload (Some (LDict d0))) ->
     truthy (dict_get_default (delete "uuid" d0) "removed" (JBool false)) = false) ->
  exists new,
    effects (snd (run op st)) = (effects st ++ new)%list /\
    (changes new = 0%nat -> dashboards (snd (run op st)) = dashboards st).
Proof.
  assert (Hnil : forall l : list effect, l = (l ++ [])%list)
    by (intros; by rewrite app_nil_r).
  assert (Hnone : exists new, effects st = (effects st ++ new)%list /\
                    (changes new = 0%nat -> dashboards st = dashboards st)).
  { exists []. split; [apply Hnil|done]. }
  intros Hop. destruct op as [is_leader rel event|sources|is_leader rel_id]; simpl.
  - unfold _on_grafana_dashboard_relation_changed.
    destruct is_leader; simpl; [|done].
    destruct event as [|[x|]]; try done.
    destruct (loaded_truthy x); simpl; [|done].
    destruct x as [d0| | |]; try done.
    rewrite (Hop true rel d0 eq_refl).
    destruct (truthy (dict_get_default (delete "uuid" d0) "invalidated" _)).
    { run_monad. simpl. destruct (dict_get rel (dashboards st)) eqn:Hget; simpl;
        eexists; rewrite <- ?app_assoc; (split; [reflexivity|]); simpl.
      - by rewrite changes_cons_changed.
      - intros _. by apply dict_del_absent. }
    cbv beta iota delta [bind get_state].
    destruct (active_sources st) eqn:Hsrc.
    + run_monad. simpl. destruct (dict_get rel (dashboards st)) eqn:Hget; simpl;
        eexists; rewrite <- ?app_assoc; (split; [reflexivity|]); simpl.
      * by rewrite changes_cons_changed.
      * intros _. by apply dict_del_absent.
    + rewrite validate_is_judge_then_execute. apply execute_quiet.
  - unfold renew_dashboards.
    apply bind_quiet.
    { intros st0. exists []. split; [apply Hnil|done]. }
    intros _ st0. apply bind_quiet.
    { intros st1. exists []. split; [apply Hnil|done]. }
    intros st1 st2. apply bind_quiet.
    + intros st3. apply for_each_quiet. intros [k d] st4.
      rewrite validate_is_judge_then_execute. apply execute_quiet.
    + intros _ st3. apply for_each_quiet. intros [k m] st4.
      rewrite validate_is_judge_then_execute. apply execute_quiet.
  - unfold _on_grafana_dashboard_relation_broken.
    destruct is_leader; simpl; [|done].
    run_monad. simpl. eexists. split; [reflexivity|].
    by rewrite changes_cons_changed.
Qed.


(** Whatever is judged valid is the rendering of the record judged. *)
Lemma judge_valid_is_rendering sources d msg :
  judge sources d = Valid msg -> data msg = d /\ is_rendering msg.
Proof.
  unfold judge.
  destruct (matching_source_names d sources) as [[|name names]|e] eqn:Hnames;
    [done| |by destruct e].
  destruct name as [|c name']; [done|].
  set (name := String c name') in *.
  unfold template_of, rendered_msg, dict_index, of_option.
  destruct (d !! "template") as [[| |t]|] eqn:Ht; try done.
  destruct (decode_template t) as [source_text|e] eqn:Hdec; [|by destruct e].
  destruct (Template source_text) as [tm|] eqn:Htm; [|done].
  destruct (d !! "monitoring_target") as [tgt|] eqn:Htgt; [|done].
  destruct (d !! "monitoring_query") as [qry|] eqn:Hqry; [|done].
  destruct (render tm name tgt qry) as [out|] eqn:Hout; [|done].
  destruct (d !! "monitoring_identifier") as [ident|] eqn:Hid; [|done].
  destruct (encode_template out) as [encoded|e] eqn:Henc; [|done].
  intros [= <-]. split; [done|].
  destruct ident as [| |ident].
  1,2: destruct sources; simpl in Hnames; [done|by rewrite Hid in Hnames].
  rewrite (matching_source_names_filter _ _ _ Hid) in Hnames.
  injection Hnames as Hnames.
  assert (In name (map source_name
            (List.filter (fun x => str_in ident (source_name x)) sources)))
    as Hin by (rewrite Hnames; by left).
  apply in_map_iff in Hin as (src & Hsrc & Hin).
  apply (filter_In (fun x => str_in ident (source_name x))) in Hin as [_ Hmatch].
  exists ident, t, source_text, tm, tgt, qry, name, out. simpl.
  split_and!; try done. by rewrite Hsrc in Hmatch.
Qed.

Ltac by_relation H rel :=
  let k := fresh "k" in
  let x := fresh "x" in
  intros k x; specialize (H k x); simpl in *;
  destruct (decide (rel = k)) as [->|?]; dict_simpl;
  rewrite ?lookup_insert_eq, ?lookup_insert_ne by done;
  try done; eauto.


Lemma execute_reported rel d v st :
  invalid_reported st -> invalid_reported (snd (execute rel d v st)).
Proof.
  intros H. destruct v; unfold execute; run_monad; simpl; try done.
  - destruct (dict_get rel (dashboards st)); simpl; by_relation H rel.
  - destruct (dict_get rel (dashboards st)); simpl; by_relation H rel.
  - destruct (dict_get rel (invalid_dashboards st)) as [old|]; simpl;
      [destruct (dict_truthy old); simpl|];
      case_bool_decide; simpl; by_relation H rel.
Qed.

Lemma run_reported op st :
  invalid_reported st -> invalid_reported (snd (run op st)).
Proof.
  intros H. destruct op as [is_leader rel event|sources|is_leader rel_id]; simpl.
  - unfold _on_grafana_dashboard_relation_changed.
    destruct is_leader; simpl; [|done].
    destruct event as [|[x|]]; try done.
    destruct (loaded_truthy x); simpl; [|done].
    destruct x as [d0| | |]; try done.
    destruct (truthy (dict_get_default (delete "uuid" d0) "removed" _)).
    { run_monad. simpl. destruct (dict_get rel (dashboards st)); simpl; [|done].
      by_relation H rel. }
    destruct (truthy (dict_get_default (delete "uuid" d0) "invalidated" _)).
    { run_monad. simpl. destruct (dict_get rel (dashboards st)); simpl;
        by_relation H rel. }
    cbv beta iota delta [bind get_state].
    destruct (active_sources st).
    + run_monad. simpl. destruct (dict_get rel (dashboards st)); simpl;
        by_relation H rel.
    + rewrite validate_is_judge_then_execute. by apply execute_reported.
  - unfold renew_dashboards.
    apply bind_invariant; [by intros st0 H0| |done].
    intros _ st0 H0. apply bind_invariant; [done| |done].
    intros st1 st2 H2. apply bind_invariant; [| |done].
    + apply for_each_invariant. intros [k d] ? ?.
      rewrite validate_is_judge_then_execute. by apply execute_reported.
    + intros _. apply for_each_invariant. intros [k m] ? ?.
      rewrite validate_is_judge_then_execute. by apply execute_reported.
  - unfold _on_grafana_dashboard_relation_broken.
    destruct is_leader; simpl; [|done].
    run_monad. simpl. by_relation H rel_id.
Qed.

(** X4. In every state the provider can reach, each relation with an
    invalid dashboard has been told so: the feedback last written to its
    relation data has [valid = false]. *)
Theorem invalid_dashboards_are_reported st :
  reachable st -> invalid_reported st.
Proof.
  induction 1 as [|st op _ IH]; [done|]. by apply run_reported.
Qed.

Lemma execute_renderings rel d v st :
  judge (active_sources st) d = v ->
  all_renderings st -> all_renderings (snd (execute rel d v st)).
Proof.
  intros Hv H. destruct v; unfold execute; run_monad; simpl; try done.
  - destruct (dict_get rel (dashboards st)); simpl; by_relation H rel.
  - destruct (dict_get rel (dashboards st)); simpl; by_relation H rel.
  - apply judge_valid_is_rendering in Hv as [_ Hmsg].
    destruct (dict_get rel (invalid_dashboards st)) as [old|]; simpl;
      [destruct (dict_truthy old); simpl|];
      case_bool_decide; simpl; by_relation H rel; congruence.
Qed.

Lemma validate_renderings d rel st :
  all_renderings st -> all_renderings (snd (_validate_dashboard_data d rel st)).
Proof.
  rewrite validate_is_judge_then_execute. by apply execute_renderings.
Qed.

Lemma run_renderings op st :
  all_renderings st -> all_renderings (snd (run op st)).
Proof.
  intros H. destruct op as [is_leader rel event|sources|is_leader rel_id]; simpl.
  - unfold _on_grafana_dashboard_relation_changed.
    destruct is_leader; simpl; [|done].
    destruct event as [|[x|]]; try done.
    destruct (loaded_truthy x); simpl; [|done].
    destruct x as [d0| | |]; try done.
    destruct (truthy (dict_get_default (delete "uuid" d0) "removed" _)).
    { run_monad. simpl. destruct (dict_get rel (dashboards st)); simpl; [|done].
      by_relation H rel. }
    destruct (truthy (dict_get_default (delete "uuid" d0) "invalidated" _)).
    { run_monad. simpl. destruct (dict_get rel (dashboards st)); simpl;
        by_relation H rel. }
    cbv beta iota delta [bind get_state].
    destruct (active_sources st).
    + run_monad. simpl. destruct (dict_get rel (dashboards st)); simpl;
        by_relation H rel.
    + by apply validate_renderings.
  - unfold renew_dashboards.
    apply bind_invariant; [by intros st0 H0| |done].
    intros _ st0 H0. apply bind_invariant; [done| |done].
    intros st1 st2 H2. apply bind_invariant; [| |done].
    + apply for_each_invariant. intros [k d] ? ?. by apply validate_renderings.
    + intros _. apply for_each_invariant. intros [k m] ? ?.
      by apply validate_renderings.
  - unfold _on_grafana_dashboard_relation_broken.
    destruct is_leader; simpl; [|done].
    run_monad. simpl. by_relation H rel_id.
Qed.

(** X5. In every state the provider can reach, each stored dashboard is
    the rendering of the record stored with it: its target is the
    identifier of the record, and its text is the encoding of what the
    record's template, decoded and parsed, renders to with the record's
    target and query and a data source whose non-empty name contains the
    identifier. *)
Theorem dashboards_are_renderings st :
  reachable st -> all_renderings st.
Proof.
  induction 1 as [|st op _ IH]; [done|]. by apply run_renderings.
Qed.

End ProviderMore.

Section MoreDictFacts.
Context {V : Type}.
Implicit Types d : list (Z * V).

Lemma dict_get_unique k v d :
  NoDup (dict_keys d) -> In (k, v) d -> dict_get k d = Some v.
Proof.
  induction d as [|[k0 v0] d IH]; simpl; [done|].
  rewrite NoDup_cons. intros [Hnot Hnd] [[= -> ->]|Hin].
  - by rewrite Z.eqb_refl.
  - destruct (Z.eqb_spec k k0) as [->|Hne]; [|by apply IH].
    exfalso. apply Hnot. apply list_elem_of_In.
    apply (in_map fst) in Hin. done.
Qed.

Lemma dict_set_same k v d : dict_get k d = Some v -> dict_set k v d = d.
Proof.
  induction d as [|[k0 v0] d IH]; simpl; [done|].
  destruct (Z.eqb_spec k k0) as [->|Hne].
  - by intros [= ->].
  - intros H. by rewrite IH.
Qed.

End MoreDictFacts.

Section Renew.
Import GrafanaDashboardProvider Verdict Reach ProviderHelpers Settled.
Context {E : Externals}.

Ltac run_monad :=
  cbv beta iota delta
    [bind ret raise lift modify get_state try_except
     emit_dashboards_changed write_event set_dashboard pop_dashboard
     pop_dashboard_strict set_invalid pop_invalid set_active_sources
     _purge_dead_dashboard of_option].

Ltac dict_simpl :=
  repeat first
    [ rewrite dict_get_set_eq | rewrite dict_get_del_eq
    | rewrite dict_get_set_ne by congruence
    | rewrite dict_get_del_ne by congruence ].

(** One validation that returns brings its record to rest and disturbs no
    record that was at rest. [A] and [B] list the records still to be
    validated, before the step; [A'] and [B'] after it. *)
Lemma execute_settles sources k d st (A A' : list (Z * gmap string jval))
    (B B' : list (Z * dashboard_msg)) :
  fst (execute k d (judge sources d) st) = Return tt ->
  (forall p, In p A -> p = (k, d) \/ In p A') ->
  (forall k' m', In (k', m') B -> (k' = k /\ data m' = d) \/ In (k', m') B') ->
  (forall k' d', dict_get k' (invalid_dashboards st) = Some d' ->
     stays_invalid sources d' \/ In (k', d') A) ->
  (forall k' m', dict_get k' (dashboards st) = Some m' ->
     stays_active sources (data m') \/ In (k', m') B) ->
  let st' := snd (execute k d (judge sources d) st) in
  (forall k' d', dict_get k' (invalid_dashboards st') = Some d' ->
     stays_invalid sources d' \/ In (k', d') A') /\
  (forall k' m', dict_get k' (dashboards st') = Some m' ->
     stays_active sources (data m') \/ In (k', m') B').
Proof.
  intros Hret HA HB Hinv Hdash st'. subst st'.
  assert (Hinv' : forall k' d', dict_get k' (invalid_dashboards st) = Some d' ->
            stays_invalid sources d' \/ (k' = k /\ d' = d) \/ In (k', d') A').
  { intros k' d' Hget. destruct (Hinv k' d' Hget) as [?|Hin]; [by left|].
    destruct (HA _ Hin) as [[= -> ->]|?]; [right; by left|right; by right]. }
  assert (Hdash' : forall k' m', dict_get k' (dashboards st) = Some m' ->
            stays_active sources (data m') \/ (k' = k /\ data m' = d) \/
            In (k', m') B').
  { intros k' m' Hget. destruct (Hdash k' m' Hget) as [?|Hin]; [by left|].
    destruct (HB _ _ Hin) as [?|?]; [right; by left|right; by right]. }
  clear HA HB Hinv Hdash.
  destruct (judge sources d) as [e| | | |msg] eqn:Hv.
  - done.
  - (* Ignored *)
    simpl. split.
    + intros k' d' Hget. destruct (Hinv' k' d' Hget) as [?|[[-> ->]|?]]; auto.
      left. right. by right.
    + intros k' m' Hget. destruct (Hdash' k' m' Hget) as [?|[[-> Hd]|?]]; auto.
      left. left. by rewrite Hd.
  - (* NoDatasource *)
    unfold execute. run_monad. simpl.
    destruct (dict_get k (dashboards st)); simpl; split; intros k' x;
      (destruct (decide (k = k')) as [<-|Hne]; dict_simpl; [|intros Hget]).
    all: try done.
    all: try (intros [= <-]; left; by left).
    all: try (destruct (Hinv' k' x Hget) as [?|[[-> ->]|?]]; auto; done).
    all: try (destruct (Hdash' k' x Hget) as [?|[[-> ?]|?]]; auto; done).
  - (* BadTemplate *)
    unfold execute. run_monad. simpl.
    destruct (dict_get k (dashboards st)); simpl; split; intros k' x;
      (destruct (decide (k = k')) as [<-|Hne]; dict_simpl; intros Hget).
    all: try done.
    all: try (destruct (Hinv' _ x Hget) as [?|[[? ->]|?]]; auto;
              left; right; by left).
    all: try (destruct (Hdash' k' x Hget) as [?|[[-> ?]|?]]; auto; done).
  - (* Valid *)
    apply judge_valid_is_rendering in Hv as Hdata. destruct Hdata as [Hdata _].
    unfold execute. run_monad. simpl.
    destruct (dict_get k (invalid_dashboards st)) as [old|]; simpl;
      [destruct (dict_truthy old); simpl|];
      rewrite !coerced_data_is_stored;
      case_bool_decide as Hsame; simpl; split; intros k' x;
      (destruct (decide (k = k')) as [<-|Hne]; dict_simpl; intros Hget).
    all: try done.
    all: try (injection Hget as <-; left; right; exists msg; by rewrite Hdata).
    all: try (destruct (Hinv' k' x Hget) as [?|[[-> ?]|?]]; auto; done).
    all: try (destruct (Hdash' k' x Hget) as [?|[[-> ?]|?]]; auto; done).
    all: rewrite Hget in Hsame; left; right; exists msg;
         by rewrite Hsame, Hdata.
Qed.


Lemma validate_keeps_sources d k st :
  active_sources (snd (_validate_dashboard_data d k st)) = active_sources st.
Proof.
  rewrite validate_is_judge_then_execute.
  by destruct (execute_effects k d (judge (active_sources st) d) st)
    as (_ & _ & _ & ?).
Qed.

(** The sweep over the invalid dashboards brings each of them to rest. *)
Lemma sweep_settles_invalid sources (xs : list (Z * gmap string jval))
    (B : list (Z * dashboard_msg)) st st' :
  active_sources st = sources ->
  for_each xs (fun '(k, d) => _validate_dashboard_data d k) st = (Return tt, st') ->
  (forall k' d', dict_get k' (invalid_dashboards st) = Some d' ->
     stays_invalid sources d' \/ In (k', d') xs) ->
  (forall k' m', dict_get k' (dashboards st) = Some m' ->
     stays_active sources (data m') \/ In (k', m') B) ->
  active_sources st' = sources /\
  (forall k' d', dict_get k' (invalid_dashboards st') = Some d' ->
     stays_invalid sources d') /\
  (forall k' m', dict_get k' (dashboards st') = Some m' ->
     stays_active sources (data m') \/ In (k', m') B).
Proof.
  revert st. induction xs as [|[k d] xs IH]; intros st Hsrc Hrun Hinv Hdash.
  - injection Hrun as <-. split_and!; try done.
    intros k' d' Hget. by destruct (Hinv k' d' Hget).
  - simpl in Hrun. unfold bind in Hrun.
    pose proof (validate_keeps_sources d k st) as Hkeep.
    rewrite validate_is_judge_then_execute, Hsrc in Hrun, Hkeep.
    destruct (execute_settles sources k d st ((k, d) :: xs) xs B B) as [Hinv1 Hdash1];
      try done.
    { by destruct (execute k d (judge sources d) st) as [[[]|e] st1]. }
    { intros p [<-|?]; [by left|by right]. }
    { intros. by right. }
    destruct (execute k d (judge sources d) st) as [[[]|e] st1]; [|done].
    simpl in *. by apply (IH st1).
Qed.

(** The sweep over the dashboards does the same for them. *)
Lemma sweep_settles_active sources (ys : list (Z * dashboard_msg)) st st' :
  active_sources st = sources ->
  for_each ys (fun '(k, m) => _validate_dashboard_data (data m) k) st = (Return tt, st') ->
  (forall k' d', dict_get k' (invalid_dashboards st) = Some d' ->
     stays_invalid sources d') ->
  (forall k' m', dict_get k' (dashboards st) = Some m' ->
     stays_active sources (data m') \/ In (k', m') ys) ->
  active_sources st' = sources /\ settled sources st'.
Proof.
  revert st. induction ys as [|[k m] ys IH]; intros st Hsrc Hrun Hinv Hdash.
  - injection Hrun as <-. split; [done|]. split; [done|].
    intros k' m' Hget. by destruct (Hdash k' m' Hget).
  - simpl in Hrun. unfold bind in Hrun.
    pose proof (validate_keeps_sources (data m) k st) as Hkeep.
    rewrite validate_is_judge_then_execute, Hsrc in Hrun, Hkeep.
    destruct (execute_settles sources k (data m) st [] [] ((k, m) :: ys) ys)
      as [Hinv1 Hdash1]; try done.
    { by destruct (execute k (data m) (judge sources (data m)) st) as [[[]|e] st1]. }
    { intros k' m' [[= -> ->]|?]; [by left|by right]. }
    { intros k' d' Hget. left. by apply (Hinv k'). }
    destruct (execute k (data m) (judge sources (data m)) st) as [[[]|e] st1]; [|done].
    simpl in *. apply (IH st1); try done.
    intros k' d' Hget. by destruct (Hinv1 k' d' Hget).
Qed.

(** After a call that returns, every record is at rest. *)
Lemma renew_settles sources st st1 :
  renew_dashboards sources st = (Return tt, st1) ->
  active_sources st1 = sources /\ settled sources st1.
Proof.
  unfold renew_dashboards. run_monad. simpl.
  set (st0 := {| dashboards := dashboards st; invalid_dashboards := _ |}).
  destruct (for_each (invalid_dashboards st) _ st0) as [[[]|e] sta] eqn:Hrun1;
    [|done].
  intros Hrun2.
  destruct (sweep_settles_invalid sources (invalid_dashboards st) (dashboards st)
              st0 sta) as (Hsrc & Hinv & Hdash); try done.
  { intros k' d' Hget. right. by apply dict_get_Some_In. }
  { intros k' m' Hget. right. by apply dict_get_Some_In. }
  by apply (sweep_settles_active sources (dashboards st) sta st1).
Qed.

(** Validating a record at rest changes neither store and emits no
    [dashboards_changed]. *)
Lemma execute_at_rest sources k d st :
  active_sources st = sources ->
  disjoint_stores st ->
  (dict_get k (invalid_dashboards st) = Some d /\ stays_invalid sources d) \/
  (exists m, dict_get k (dashboards st) = Some m /\ data m = d /\
             stays_active sources d) ->
  exists st' new,
    execute k d (judge sources d) st = (Return tt, st') /\
    dashboards st' = dashboards st /\
    invalid_dashboards st' = invalid_dashboards st /\
    active_sources st' = active_sources st /\
    effects st' = (effects st ++ new)%list /\
    changes new = 0%nat.
Proof.
  assert (Hnil : forall l : list effect, l = (l ++ [])%list)
    by (intros; by rewrite app_nil_r).
  intros Hsrc Hdis [[Hget Hstay]|(m & Hget & Hdata & Hstay)].
  - assert (Hnone : dict_get k (dashboards st) = None).
    { by destruct (Hdis k) as [?|?]; [|congruence]. }
    destruct Hstay as [Hv|[Hv|Hv]]; rewrite Hv; unfold execute; run_monad; simpl.
    + rewrite Hnone. simpl. eexists _, _. split; [reflexivity|]. simpl.
      rewrite dict_del_absent, dict_set_same by done. split_and!; done.
    + rewrite Hnone. simpl. eexists _, _. split; [reflexivity|]. simpl.
      rewrite dict_del_absent by done. split_and!; done.
    + exists st, []. split_and!; first [done | apply Hnil].
  - assert (Hnone : dict_get k (invalid_dashboards st) = None).
    { by destruct (Hdis k) as [?|?]; [congruence|]. }
    destruct Hstay as [Hv|[msg Hv]]; rewrite Hv; unfold execute; run_monad; simpl.
    + exists st, []. split_and!; first [done | apply Hnil].
    + apply judge_valid_is_rendering in Hv as [Hmsg _].
      rewrite Hnone. simpl. rewrite Hget, coerced_data_is_stored.
      rewrite bool_decide_true by congruence. simpl.
      eexists _, []. split; [reflexivity|]. simpl.
      rewrite dict_del_absent by done. split_and!; first [done | apply Hnil].
Qed.

(** A sweep over records at rest. *)
Lemma sweep_at_rest {A} (f : A -> gmap string jval) sources (xs : list (Z * A)) st :
  active_sources st = sources ->
  disjoint_stores st ->
  (forall k x, In (k, x) xs ->
     (dict_get k (invalid_dashboards st) = Some (f x) /\
      stays_invalid sources (f x)) \/
     (exists m, dict_get k (dashboards st) = Some m /\ data m = f x /\
                stays_active sources (f x))) ->
  exists st' new,
    for_each xs (fun '(k, x) => _validate_dashboard_data (f x) k) st = (Return tt, st') /\
    dashboards st' = dashboards st /\
    invalid_dashboards st' = invalid_dashboards st /\
    active_sources st' = active_sources st /\
    effects st' = (effects st ++ new)%list /\
    changes new = 0%nat.
Proof.
  revert st. induction xs as [|[k x] xs IH]; intros st Hsrc Hdis Hall; simpl.
  - exists st, []. split_and!; try done. by rewrite app_nil_r.
  - unfold bind. rewrite validate_is_judge_then_execute, Hsrc.
    destruct (execute_at_rest sources k (f x) st Hsrc Hdis)
      as (st1 & new1 & Hrun1 & Hd1 & Hi1 & Hs1 & He1 & Hc1).
    { apply Hall. by left. }
    rewrite Hrun1.
    destruct (IH st1) as (st' & new & Hrun & Hd & Hi & Hs & He & Hc).
    + congruence.
    + intros j. specialize (Hdis j). by rewrite Hd1, Hi1.
    + intros j y Hin. rewrite Hd1, Hi1. apply Hall. by right.
    + exists st', (new1 ++ new)%list. split_and!; try congruence.
      * by rewrite He, He1, app_assoc.
      * by rewrite changes_app, Hc1, Hc.
Qed.

(** X2. [renew_dashboards] settles: in a state where no key occurs twice
    and no relation is in both stores (every reachable state), after a call
    that returned, a second call with the same data sources returns too,
    leaves the dashboards and the invalid dashboards as they are and emits
    no [dashboards_changed]. *)
Theorem renew_dashboards_again sources st st1 :
  unique_keys st ->
  disjoint_stores st ->
  renew_dashboards sources st = (Return tt, st1) ->
  exists st2 new,
    renew_dashboards sources st1 = (Return tt, st2) /\
    dashboards st2 = dashboards st1 /\
    invalid_dashboards st2 = invalid_dashboards st1 /\
    effects st2 = (effects st1 ++ new)%list /\
    changes new = 0%nat.
Proof.
  intros Huniq Hdis Hrun.
  destruct (renew_settles sources st st1 Hrun) as (Hsrc & Hinv & Hdash).
  pose proof (run_unique (RenewDashboards sources) st Huniq) as [Hu1 Hu2].
  pose proof (renew_disjoint sources st Hdis) as Hdis1.
  simpl in Hu1, Hu2. rewrite Hrun in Hu1, Hu2, Hdis1. simpl in Hu1, Hu2, Hdis1.
  unfold renew_dashboards. run_monad. simpl.
  set (st0 := {| dashboards := dashboards st1; invalid_dashboards := _ |}).
  destruct (sweep_at_rest (fun x => x) sources (invalid_dashboards st1) st0)
    as (sta & newa & Hruna & Hda & Hia & Hsa & Hea & Hca).
  { done. }
  { done. }
  { intros k x Hin. left. simpl. split.
    - by apply dict_get_unique.
    - apply (Hinv k). by apply dict_get_unique. }
  cbv beta in Hruna. rewrite Hruna.
  destruct (sweep_at_rest data sources (dashboards st1) sta)
    as (stb & newb & Hrunb & Hdb & Hib & Hsb & Heb & Hcb).
  { by rewrite Hsa. }
  { intros j. specialize (Hdis1 j). by rewrite Hda, Hia. }
  { intros k m Hin. right. exists m. rewrite Hda. simpl. split_and!.
    - by apply dict_get_unique.
    - done.
    - apply (Hdash k). by apply dict_get_unique. }
  rewrite Hrunb. exists stb, (newa ++ newb)%list. split_and!; try congruence.
  - by rewrite Hdb, Hda.
  - by rewrite Hib, Hia.
  - by rewrite Heb, Hea, app_assoc.
  - by rewrite changes_app, Hca, Hcb.
Qed.

End Renew.

Section ProviderEdges.
Import GrafanaDashboardProvider Verdict Reach ProviderHelpers Settled.
Context {E : Externals}.

Ltac run_monad :=
  cbv beta iota delta
    [bind ret raise lift modify get_state try_except
     emit_dashboards_changed write_event set_dashboard pop_dashboard
     pop_dashboard_strict set_invalid pop_invalid set_active_sources
     _purge_dead_dashboard of_option].

(** X7. [_check_active_data_sources], which nothing calls, is the check
    the relation-changed handler makes inline: on a record that is neither
    removed nor invalidated the handler does what the helper followed by
    [_validate_dashboard_data] would do. With data sources the helper
    answers [True] and changes nothing; without any it answers [False],
    after putting the record among the invalid dashboards and leaving the
    relation without a dashboard. *)
Theorem check_active_data_sources_is_the_inline_check rel d0 st :
  let d := delete "uuid" d0 in
  dict_truthy d0 = true ->
  truthy (dict_get_default d "removed" (JBool false)) = false ->
  truthy (dict_get_default d "invalidated" (JBool false)) = false ->
  _on_grafana_dashboard_relation_changed true rel (Payload (Some (LDict d0))) st
    = (ok <- _check_active_data_sources d rel ;;
       if ok then _validate_dashboard_data d rel else ret tt) st /\
  (active_sources st <> [] ->
   _check_active_data_sources d rel st = (Return true, st)) /\
  (active_sources st = [] ->
   fst (_check_active_data_sources d rel st) = Return false /\
   dict_get rel (invalid_dashboards (snd (_check_active_data_sources d rel st)))
     = Some d /\
   dict_get rel (dashboards (snd (_check_active_data_sources d rel st))) = None).
Proof.
  intros d Htruthy Hrem Hinval.
  unfold _on_grafana_dashboard_relation_changed, _check_active_data_sources. simpl.
  rewrite Htruthy. simpl. fold d. rewrite Hrem, Hinval.
  cbv beta iota delta [bind get_state].
  destruct (active_sources st) as [|s0 l0] eqn:Hsrc.
  - split_and!; [|done|intros _].
    + run_monad. simpl. by destruct (dict_get rel (dashboards st)).
    + run_monad. simpl. destruct (dict_get rel (dashboards st)); simpl;
        by rewrite dict_get_set_eq, dict_get_del_eq.
  - split_and!; done.
Qed.

(** X6. For the leader the relation-broken handler always returns and
    always emits [dashboards_changed], once, also when the relation had no
    dashboard, in which case the list the [dashboards] property returns is
    what it was. It deletes the dashboard of the relation and nothing else:
    other dashboards, the relation data and the invalid dashboards, the one
    of the broken relation included, are kept. *)
Theorem relation_broken_always_signals rel_id st :
  let result := _on_grafana_dashboard_relation_broken true rel_id st in
  fst result = Return tt /\
  dict_get rel_id (dashboards (snd result)) = None /\
  (forall k, k <> rel_id ->
     dict_get k (dashboards (snd result)) = dict_get k (dashboards st)) /\
  invalid_dashboards (snd result) = invalid_dashboards st /\
  relation_event (snd result) = relation_event st /\
  effects (snd result) = (effects st ++ [DashboardsChanged])%list /\
  (dict_get rel_id (dashboards st) = None ->
   dashboards_property (snd result) = dashboards_property st).
Proof.
  unfold _on_grafana_dashboard_relation_broken. run_monad. simpl.
  split_and!; try done.
  - apply dict_get_del_eq.
  - intros k Hne. by apply dict_get_del_ne.
  - intros Hnone. unfold dashboards_property. simpl.
    by rewrite dict_del_absent.
Qed.

(** X12. A record whose template decodes but is not valid Jinja, with a
    matching data source and no invalid dashboard for the relation: the
    handler returns and reports "Cannot add Grafana dashboard. Template is
    not valid Jinja", and the record is kept in neither store. So a later
    [renew_dashboards], whatever its data sources, does not look at the
    relation again: it still has no dashboard and no invalid dashboard,
    its relation data still holds the report, and nothing is written to
    it. *)
Theorem unparsable_template_is_forgotten rel d0 st ident t source_text sources' :
  let d := delete "uuid" d0 in
  truthy (dict_get_default d "removed" (JBool false)) = false ->
  truthy (dict_get_default d "invalidated" (JBool false)) = false ->
  d !! "monitoring_identifier" = Some (JStr ident) ->
  ident <> "" ->
  (exists src, In src (active_sources st) /\
               str_in ident (source_name src) = true) ->
  d !! "template" = Some (JStr t) ->
  decode_template t = Return source_text ->
  Template source_text = None ->
  dict_get rel (invalid_dashboards st) = None ->
  let bad := {| errors := JStr "Cannot add Grafana dashboard. Template is not valid Jinja";
                valid := false |} in
  let result := _on_grafana_dashboard_relation_changed true rel
                  (Payload (Some (LDict d0))) st in
  let later := renew_dashboards sources' (snd result) in
  fst result = Return tt /\
  dict_get rel (dashboards (snd result)) = None /\
  dict_get rel (invalid_dashboards (snd result)) = None /\
  relation_event (snd result) !! rel = Some bad /\
  dict_get rel (dashboards (snd later)) = None /\
  dict_get rel (invalid_dashboards (snd later)) = None /\
  relation_event (snd later) !! rel = Some bad /\
  exists new,
    effects (snd later) = (effects (snd result) ++ new)%list /\
    forall fb, writes rel fb new = 0%nat.
Proof.
  intros d Hrem Hinval Hid Hne (src0 & Hin0 & Hmatch0) Ht Hdec Htm Hinv bad
    result later.
  assert (Htruthy : dict_truthy d0 = true).
  { unfold dict_truthy. rewrite bool_decide_false; [done|]. intros ->.
    subst d. by rewrite delete_empty, lookup_empty in Hid. }
  assert (Hsrc : active_sources st <> []).
  { intros Hnil. by rewrite Hnil in Hin0. }
  assert (Hjudge : judge (active_sources st) d = BadTemplate).
  { unfold judge. rewrite (matching_source_names_filter _ _ _ Hid).
    destruct (List.filter (fun x => str_in ident (source_name x)) (active_sources st))
      as [|src rest] eqn:Hf.
    { exfalso. assert (In src0 []) as []. rewrite <- Hf.
      apply (filter_In (fun x => str_in ident (source_name x))). done. }
    assert (In src (active_sources st) /\ str_in ident (source_name src) = true)
      as [Hin Hmatch].
    { apply (filter_In (fun x => str_in ident (source_name x))).
      rewrite Hf. by left. }
    simpl. destruct (source_name src) as [|c name] eqn:Hname.
    { apply str_in_empty_right in Hmatch. done. }
    unfold template_of, dict_index. rewrite Ht. simpl. by rewrite Hdec, Htm. }
  assert (Hresult : result =
    (Return tt,
     {| dashboards := dict_del rel (dashboards st);
        invalid_dashboards := invalid_dashboards st;
        active_sources := active_sources st;
        relation_event := <[rel := bad]> (relation_event st);
        effects :=
          (effects st ++
           match dict_get rel (dashboards st) with
           | Some _ => [DashboardsChanged; EventWritten rel bad]
           | None => [EventWritten rel bad]
           end)%list |})).
  { subst result. rewrite relation_changed_validates by done. fold d.
    rewrite Hjudge. unfold execute. run_monad. simpl.
    destruct (dict_get rel (dashboards st)); simpl; by rewrite <- ?app_assoc. }
  assert (H1 : dict_get rel (dashboards (snd result)) = None).
  { rewrite Hresult. simpl. apply dict_get_del_eq. }
  assert (H2 : dict_get rel (invalid_dashboards (snd result)) = None).
  { by rewrite Hresult. }
  assert (H3 : relation_event (snd result) !! rel = Some bad).
  { rewrite Hresult. simpl. apply lookup_insert_eq. }
  split_and!; try done; [by rewrite Hresult|..].
  all: subst later; unfold renew_dashboards; run_monad; simpl.
  all: set (st0 := {| dashboards := dashboards (snd result);
                      invalid_dashboards := _ |}).
  all: pose proof (sweep_untouched (fun x => x) rel
                     (invalid_dashboards (snd result)) st0
                     ltac:(by apply dict_get_None_keys))
         as (Ha & Hb & Hc & Hd & new1 & He & Hw); cbv beta in *.
  all: destruct (for_each (invalid_dashboards (snd result)) _ st0)
         as [[[]|e] sta]; simpl in *.
  all: try (pose proof (sweep_untouched data rel (dashboards (snd result)) sta
                          ltac:(by apply dict_get_None_keys))
              as (Ha' & Hb' & Hc' & Hd' & new2 & He' & Hw')).
  all: try (rewrite ?Ha', ?Hb', ?Hc', ?Ha, ?Hb, ?Hc; done).
  - exists (new1 ++ new2)%list. split.
    + by rewrite He', He, app_assoc.
    + intros fb. by rewrite writes_app, Hw, Hw'.
  - by exists new1.
Qed.

End ProviderEdges.

(** * More of the consumer *)

Section ConsumerMore.
Import GrafanaDashboardConsumer.
Context {E : Externals}.

Ltac run_consumer :=
  cbv beta iota delta
    [bind ret raise lift modify get_state try_except of_option
     emit_status store_dashboard write_relation get_relation
     get_relation_by_id attr units_pop dict_pop_no_key].

(** X13. [add_dashboard] and the monitoring relation, whether or not the
    unit is the leader, when the Grafana relation is known. Without a
    monitoring relation it returns after emitting the status "Waiting for
    a prometheus_scrape relation to send dashboard data", invalid, and
    stores and sends nothing. With a monitoring relation that has no unit
    it raises [KeyError], from [pop()] on the empty set of units, which
    [except (IndexError, AttributeError)] does not catch. With more than
    one monitoring relation it raises [TooManyRelatedAppsError]. A raising
    call changes nothing. *)
Theorem add_dashboard_needs_a_monitoring_unit self data rel_id uuid4 st :
  (rel_id <> None \/ exists r, relations self = [r]) ->
  (monitoring self = [] ->
   add_dashboard self data rel_id uuid4 st
     = (Return tt,
        {| dashboards := dashboards st;
           relation_dashboards := relation_dashboards st;
           status_events :=
             (status_events st ++
              [ {| error_message :=
                     "Waiting for a prometheus_scrape relation to send dashboard data";
                   status_valid := false |} ])%list |})) /\
  (monitoring self = [[]] ->
   add_dashboard self data rel_id uuid4 st = (Raise KeyError, st)) /\
  (forall r1 r2 rest, monitoring self = r1 :: r2 :: rest ->
   add_dashboard self data rel_id uuid4 st = (Raise TooManyRelatedAppsError, st)).
Proof.
  intros Hrel. unfold add_dashboard.
  assert (Hfirst : exists r,
    get_relation_by_id (S := state) (relations self) rel_id
      = ret (match rel_id with Some i => Some i | None => Some r end)).
  { destruct rel_id as [i|]; [by exists 0%Z|].
    destruct Hrel as [?|[r Hr]]; [done|]. exists r. simpl. by rewrite Hr. }
  destruct Hfirst as [r ->].
  split_and!.
  - intros ->. run_consumer. by destruct rel_id.
  - intros ->. run_consumer. by destruct rel_id.
  - intros r1 r2 rest ->. run_consumer. by destruct rel_id.
Qed.

(** X14. [invalidate_dashboard] without a record to invalidate. A unit
    that is not the leader does nothing. For the leader, a relation
    without a stored record raises [KeyError]; no relation id given, none
    kept and no relation by the name raises [AttributeError]. Either way
    nothing is stored or sent. *)
Theorem invalidate_dashboard_needs_a_record self reason rel_id st :
  (is_leader self = false ->
   invalidate_dashboard self reason rel_id st = (Return tt, st)) /\
  (is_leader self = true ->
   forall r,
   match rel_id with Some i => Some i | None => relation_id self end = Some r ->
   dict_get r (dashboards st) = None ->
   invalidate_dashboard self reason rel_id st = (Raise KeyError, st)) /\
  (is_leader self = true ->
   rel_id = None -> relation_id self = None -> relations self = [] ->
   invalidate_dashboard self reason rel_id st = (Raise AttributeError, st)).
Proof.
  unfold invalidate_dashboard. split_and!.
  - by intros ->.
  - intros -> r -> Hnone. run_consumer. simpl. by rewrite Hnone.
  - intros -> -> -> ->. by run_consumer.
Qed.

End ConsumerMore.

(** * The two sides together *)

Section FeedbackFacts.
Import GrafanaDashboardProvider Verdict Reach Transport Wording.
Context {E : Externals}.

Ltac run_monad :=
  cbv beta iota delta
    [bind ret raise lift modify get_state try_except
     emit_dashboards_changed write_event set_dashboard pop_dashboard
     pop_dashboard_strict set_invalid pop_invalid set_active_sources
     _purge_dead_dashboard of_option].

Ltac worded H :=
  rewrite ?Forall_app; repeat split; try exact H;
  repeat (constructor; try done).

Lemma execute_worded rel d v st :
  Forall well_worded (effects st) ->
  Forall well_worded (effects (snd (execute rel d v st))).
Proof.
  intros H. destruct v; unfold execute; run_monad; simpl; try done.
  - destruct (dict_get rel (dashboards st)); simpl; worded H.
  - destruct (dict_get rel (dashboards st)); simpl; worded H.
  - destruct (dict_get rel (invalid_dashboards st)) as [old|]; simpl;
      [destruct (dict_truthy old); simpl|];
      case_bool_decide; simpl; worded H.
Qed.

Lemma run_worded op st :
  Forall well_worded (effects st) ->
  Forall well_worded (effects (snd (run op st))).
Proof.
  intros H. destruct op as [is_leader rel event|sources|is_leader rel_id]; simpl.
  - unfold _on_grafana_dashboard_relation_changed.
    destruct is_leader; simpl; [|done].
    destruct event as [|[x|]]; try done.
    destruct (loaded_truthy x); simpl; [|done].
    destruct x as [d0| | |]; try done.
    destruct (truthy (dict_get_default (delete "uuid" d0) "removed" _)).
    { run_monad. simpl. by destruct (dict_get rel (dashboards st)). }
    destruct (truthy (dict_get_default (delete "uuid" d0) "invalidated" _)).
    { run_monad. simpl. destruct (dict_get rel (dashboards st)); simpl; worded H. }
    cbv beta iota delta [bind get_state].
    destruct (active_sources st).
    + run_monad. simpl. destruct (dict_get rel (dashboards st)); simpl; worded H.
    + rewrite validate_is_judge_then_execute. by apply execute_worded.
  - unfold renew_dashboards.
    apply (bind_invariant (fun st => Forall well_worded (effects st)));
      [by intros st0 H0| |done].
    intros _ st0 H0.
    apply (bind_invariant (fun st => Forall well_worded (effects st)));
      [done| |done].
    intros st1 st2 H2.
    apply (bind_invariant (fun st => Forall well_worded (effects st)));
      [| |done].
    + apply (for_each_invariant (fun st => Forall well_worded (effects st))).
      intros [k d] ? ?.
      rewrite validate_is_judge_then_execute. by apply execute_worded.
    + intros _.
      apply (for_each_invariant (fun st => Forall well_worded (effects st))).
      intros [k m] ? ?.
      rewrite validate_is_judge_then_execute. by apply execute_worded.
  - unfold _on_grafana_dashboard_relation_broken.
    destruct is_leader; simpl; [|done].
    run_monad. simpl. worded H.
Qed.

Lemma reachable_worded st : reachable st -> Forall well_worded (effects st).
Proof.
  induction 1 as [|st op _ IH]; [constructor|]. by apply run_worded.
Qed.

(** X8. Whatever feedback the provider has written in a state it can
    reach, the relation-changed handler of the consumer's leader returns on
    it and emits at most one status event: for feedback with [valid] set,
    the event with an empty message and [valid = True]; for feedback with
    a non-empty error, the event with that error and [valid = False]; for
    feedback with neither (an invalidation without a reason), nothing. *)
Theorem feedback_is_announced st rel fb emitted :
  reachable st ->
  In (EventWritten rel fb) (effects st) ->
  ConsumerFeedback._on_grafana_dashboard_relation_changed true
    (delivered (Some fb)) emitted
  = (Return tt,
     (emitted ++
      if valid fb
      then [ {| ConsumerFeedback.error_message := JStr "";
                ConsumerFeedback.valid := JBool true |} ]
      else if truthy (errors fb)
      then [ {| ConsumerFeedback.error_message := errors fb;
                ConsumerFeedback.valid := JBool false |} ]
      else [])%list).
Proof.
  intros Hreach Hin.
  pose proof (reachable_worded st Hreach) as Hall.
  rewrite Forall_forall in Hall.
  specialize (Hall _ (proj2 (list_elem_of_In _ _) Hin)). simpl in Hall.
  unfold ConsumerFeedback._on_grafana_dashboard_relation_changed. simpl.
  destruct fb as [e v]. simpl in *.
  assert (Htruthy : dict_truthy
            (<["errors" := e]> (<["valid" := JBool v]> ∅)) = true).
  { unfold dict_truthy. rewrite bool_decide_false; [done|].
    intros Hempty. apply (f_equal (fun m => m !! "errors")) in Hempty.
    by rewrite lookup_insert_eq, lookup_empty in Hempty. }
  cbv beta iota delta [bind ret ConsumerFeedback.as_dict ConsumerFeedback.emit
                       modify loaded_truthy].
  rewrite Htruthy. simpl.
  unfold dict_get_default. rewrite lookup_insert_eq. simpl.
  rewrite lookup_insert_ne by done. rewrite lookup_insert_eq. simpl.
  destruct v; simpl.
  - rewrite Hall by done. simpl. done.
  - destruct (truthy e); simpl; [done|]. by rewrite app_nil_r.
Qed.

End FeedbackFacts.

Section CodecMore.
Context {E : Externals} `{!CodecLaws E}.

(** Whatever [encode_template] returns decodes to the text encoded. *)
Lemma encode_template_inv s encoded :
  encode_template s = Return encoded -> decode_template encoded = Return s.
Proof.
  unfold encode_template, decode_template.
  destruct (b64_text (zlib_compress (str_encode s) 9)) as (t & Ht & Hback).
  rewrite Ht. simpl. intros [= <-].
  rewrite Hback, b64decode_encode, zlib_decompress_compress.
  by rewrite bytes_decode_encode.
Qed.

End CodecMore.

Section EndToEnd.
Import GrafanaDashboardConsumer ConsumerRecord GrafanaDashboardProvider Verdict Reach Transport.
Context {E : Externals}.

Ltac run_monad :=
  cbv beta iota delta
    [bind ret raise lift modify get_state try_except
     emit_dashboards_changed write_event set_dashboard pop_dashboard
     pop_dashboard_strict set_invalid pop_invalid set_active_sources
     _purge_dead_dashboard of_option].

Ltac run_consumer :=
  cbv beta iota delta
    [bind ret raise lift modify get_state try_except of_option
     emit_status
     store_dashboard
     write_relation
     get_relation
     get_relation_by_id
     attr
     units_pop
     dict_pop_no_key].

(** What [add_dashboard] does for the leader when the monitoring relation
    has a unit. *)
Lemma add_dashboard_leader self data rel uuid4 u us cst :
  is_leader self = true ->
  monitoring self = [u :: us] ->
  add_dashboard self data (Some rel) uuid4 cst =
    match encode_template data with
    | Return t =>
        (Return tt,
         {| GrafanaDashboardConsumer.dashboards :=
              dict_set rel (stored_data self u t uuid4)
                (GrafanaDashboardConsumer.dashboards cst);
            relation_dashboards :=
              <[rel := stored_data self u t uuid4]> (relation_dashboards cst);
            status_events := status_events cst |})
    | Raise e => (Raise e, cst)
    end.
Proof.
  intros Hleader Hmon. unfold add_dashboard, _update_dashboards.
  rewrite Hleader, Hmon. run_consumer. simpl.
  by destruct (encode_template data).
Qed.

Lemma stored_data_uuid self u t uuid4 :
  stored_data self u t uuid4 !! "uuid" = Some (JStr uuid4).
Proof. unfold stored_data. by rewrite !lookup_insert_ne, lookup_insert_eq by done. Qed.

Lemma stored_data_without_uuid self u t uuid1 uuid2 :
  delete "uuid" (stored_data self u t uuid1)
    = delete "uuid" (stored_data self u t uuid2).
Proof.
  unfold stored_data. by rewrite !delete_insert_ne, !delete_insert_eq by done.
Qed.

Lemma stored_data_truthy self u t uuid4 :
  dict_truthy (stored_data self u t uuid4) = true.
Proof.
  unfold dict_truthy. rewrite bool_decide_false; [done|]. intros Hempty.
  pose proof (stored_data_uuid self u t uuid4) as H.
  by rewrite Hempty, lookup_empty in H.
Qed.

(** X10. From [add_dashboard] to the stored dashboard. The leader adds
    the template [data], the monitoring relation having a unit; [data] is
    valid Jinja and renders; the provider, which has no dashboard for the
    relation, knows a data source whose name contains the identifier
    [model_uuid_application] of the monitoring unit. Then the consumer has
    stored and sent the same record, which its [dashboards] property
    lists, and the provider's handler, on what was sent, returns, has no invalid dashboard for the relation and stores
    as its dashboard the record without its uuid, targeted at that
    identifier, with the text that [data] itself renders to with a
    matching data source, encoded so that it decodes to that text; one
    [dashboards_changed] is emitted. *)
Theorem added_dashboard_is_rendered `{!CodecLaws E}
    self data rel uuid4 u us cst cst' pst tm :
  let ident := backend_model_name u +:+ "_" +:+ backend_model_uuid u
                 +:+ "_" +:+ unit_app_name u in
  let tgt := JStr (capitalize (app_name self) +:+ " [ "
                   +:+ model_name self +:+ " / "
                   +:+ model_uuid self +:+ " ]") in
  let qry := JStr ("juju_model='" +:+ model_name self
                   +:+ "',juju_model_uuid='"
                   +:+ model_uuid self
                   +:+ "',juju_application='"
                   +:+ app_name self +:+ "'") in
  is_leader self = true ->
  monitoring self = [u :: us] ->
  add_dashboard self data (Some rel) uuid4 cst
    = (Return tt, cst') ->
  Template data = Some tm ->
  (forall src, In src (active_sources pst) ->
     exists out, render tm (source_name src) tgt qry = Some out) ->
  (exists src, In src (active_sources pst) /\
               str_in ident (source_name src) = true) ->
  dict_get rel (dashboards pst) = None ->
  exists record src out encoded,
    relation_dashboards cst' !! rel = Some record /\
    dict_get rel (GrafanaDashboardConsumer.dashboards cst') = Some record /\
    In record (ConsumerFeedback.dashboards cst') /\
    In src (active_sources pst) /\ str_in ident (source_name src) = true /\
    render tm (source_name src) tgt qry = Some out /\
    encode_template out = Return encoded /\
    decode_template encoded = Return out /\
    let result := _on_grafana_dashboard_relation_changed true rel
                    (sent (relation_dashboards cst' !! rel))
                    pst in
    fst result = Return tt /\
    dict_get rel (dashboards (snd result))
      = Some {| target := JStr ident; dashboard := encoded;
                data := delete "uuid" record |} /\
    dict_get rel (invalid_dashboards (snd result)) = None /\
    changes (drop (length (effects pst)) (effects (snd result))) = 1%nat.
Proof.
  intros ident tgt qry Hleader Hmon Hadd Htm Hrender Hsrc Hdash.
  rewrite (add_dashboard_leader self data rel uuid4 u us cst Hleader Hmon) in Hadd.
  destruct (encode_template data) as [t|e] eqn:Henc; [|done].
  injection Hadd as <-. simpl. rewrite lookup_insert_eq, dict_get_set_eq.
  set (record := stored_data self u t uuid4).
  set (d := delete "uuid" record).
  assert (Hne : ident <> "").
  { subst ident. destruct (backend_model_name u); [discriminate|done]. }
  destruct (judge_valid (active_sources pst) d ident t data tm tgt qry)
    as (src & out & encoded & Hin & Hmatch & Hout & Henc' & Hjudge);
    try done.
  { by apply encode_template_inv. }
  exists record, src, out, encoded.
  do 2 (split; [done|]).
  split.
  { unfold ConsumerFeedback.dashboards. simpl.
    apply (in_map snd _ (rel, record)), dict_get_Some_In, dict_get_set_eq. }
  do 5 (split; [first [done | by apply encode_template_inv]|]).
  simpl. rewrite relation_changed_validates; try done.
  2: { intros Hnil. destruct Hsrc as (? & Hin' & _). by rewrite Hnil in Hin'. }
  fold d. rewrite Hjudge. unfold execute. run_monad. simpl.
  assert (Hnonempty : (∅ : gmap string jval) <> d).
  { intros Hempty. assert (d !! "monitoring_identifier" = Some (JStr ident)) as Hid
      by done. by rewrite <- Hempty, lookup_empty in Hid. }
  assert (Hchanged : forall l : list effect,
    changes l = 0%nat ->
    changes (drop (length (effects pst)) ((effects pst ++ l) ++ [DashboardsChanged]))
      = 1%nat).
  { intros l Hl. rewrite <- app_assoc, drop_app_length, changes_app, Hl.
    by rewrite changes_cons_changed. }
  destruct (dict_get rel (invalid_dashboards pst)) as [old|] eqn:Hinv; simpl;
    [destruct (dict_truthy old); simpl|]; rewrite Hdash; simpl;
    rewrite bool_decide_false by done; simpl;
    rewrite dict_get_set_eq, dict_get_del_eq; split_and!; try done.
  all: first [ by apply (Hchanged [_])
             | rewrite <- (app_nil_r (effects pst)) at 2; by apply (Hchanged []) ].
Qed.

Ltac dict_simpl :=
  repeat first
    [ rewrite dict_get_set_eq | rewrite dict_get_del_eq
    | rewrite dict_get_set_ne by congruence
    | rewrite dict_get_del_ne by congruence ].

(** Executing the same verdict again leaves both stores as they are. *)
Lemma execute_again_stores rel d v st :
  let st1 := snd (execute rel d v st) in
  dashboards (snd (execute rel d v st1)) = dashboards st1 /\
  invalid_dashboards (snd (execute rel d v st1)) = invalid_dashboards st1.
Proof.
  destruct v; unfold execute; run_monad; simpl; try done.
  - destruct (dict_get rel (dashboards st)); simpl; dict_simpl; simpl;
      by rewrite dict_del_idem, dict_set_same by apply dict_get_set_eq.
  - destruct (dict_get rel (dashboards st)); simpl; dict_simpl; simpl;
      by rewrite dict_del_idem.
  - destruct (dict_get rel (invalid_dashboards st)) as [old|]; simpl;
      [destruct (dict_truthy old); simpl|];
      rewrite !coerced_data_is_stored;
      case_bool_decide as Hsame; simpl;
      repeat (progress (simpl; dict_simpl; rewrite ?coerced_data_is_stored));
      rewrite bool_decide_true by done; simpl;
      by rewrite dict_del_idem.
Qed.

(** A second run of the handler on the same object leaves both stores as
    the first run left them. *)
Lemma relation_changed_again_stores rel d0 d0' st :
  delete "uuid" d0 = delete "uuid" d0' ->
  dict_truthy d0 = dict_truthy d0' ->
  let st1 := snd (_on_grafana_dashboard_relation_changed true rel
                    (Payload (Some (LDict d0))) st) in
  let st2 := snd (_on_grafana_dashboard_relation_changed true rel
                    (Payload (Some (LDict d0'))) st1) in
  dashboards st2 = dashboards st1 /\
  invalid_dashboards st2 = invalid_dashboards st1.
Proof.
  intros Hd Ht st1 st2. subst st1 st2.
  unfold _on_grafana_dashboard_relation_changed. simpl.
  rewrite <- Ht, <- Hd. set (d := delete "uuid" d0).
  destruct (dict_truthy d0); simpl; [|done].
  destruct (truthy (dict_get_default d "removed" _)).
  { run_monad. simpl. destruct (dict_get rel (dashboards st)) eqn:Hget; simpl;
      dict_simpl; rewrite ?Hget; simpl; done. }
  destruct (truthy (dict_get_default d "invalidated" _)).
  { run_monad. simpl. destruct (dict_get rel (dashboards st)); simpl;
      repeat (progress (simpl; dict_simpl));
      by rewrite dict_del_idem, dict_set_same by apply dict_get_set_eq. }
  destruct (active_sources st) as [|s l] eqn:Hsrc.
  - run_monad. simpl. rewrite !Hsrc. simpl.
    destruct (dict_get rel (dashboards st)); simpl;
      rewrite ?Hsrc; repeat (progress (simpl; dict_simpl));
      by rewrite dict_del_idem, dict_set_same by apply dict_get_set_eq.
  - destruct (execute_effects rel d (judge (s :: l) d) st)
      as (_ & _ & _ & Hsame).
    cbv beta iota delta [bind get_state]. simpl. rewrite !Hsrc.
    rewrite !validate_is_judge_then_execute, !Hsrc, !Hsame, !Hsrc.
    rewrite validate_is_judge_then_execute, Hsame, Hsrc.
    apply execute_again_stores.
Qed.

(** X11. Adding the same template again. The record sent the second time
    differs from the first when the uuids differ, so that the relation
    data changes; the provider, having handled the first, handles the
    second without changing its dashboards or its invalid dashboards and
    without emitting [dashboards_changed]. *)
Theorem resubmission_is_quiet self data rel uuid1 uuid2 u us cst cst1 cst2 pst :
  is_leader self = true ->
  monitoring self = [u :: us] ->
  add_dashboard self data (Some rel) uuid1 cst = (Return tt, cst1) ->
  add_dashboard self data (Some rel) uuid2 cst1 = (Return tt, cst2) ->
  let first := sent (relation_dashboards cst1 !! rel) in
  let second := sent (relation_dashboards cst2 !! rel) in
  let pst1 := snd (_on_grafana_dashboard_relation_changed true rel first pst) in
  let pst2 := snd (_on_grafana_dashboard_relation_changed true rel second pst1) in
  (uuid1 <> uuid2 -> first <> second) /\
  dashboards pst2 = dashboards pst1 /\
  invalid_dashboards pst2 = invalid_dashboards pst1 /\
  exists new,
    effects pst2 = (effects pst1 ++ new)%list /\ changes new = 0%nat.
Proof.
  intros Hleader Hmon Hadd1 Hadd2.
  rewrite (add_dashboard_leader self data rel uuid1 u us cst Hleader Hmon) in Hadd1.
  rewrite (add_dashboard_leader self data rel uuid2 u us cst1 Hleader Hmon) in Hadd2.
  destruct (encode_template data) as [t|e] eqn:Henc; [|done].
  injection Hadd1 as <-. injection Hadd2 as <-. simpl.
  rewrite !lookup_insert_eq. simpl.
  pose proof (stored_data_without_uuid self u t uuid1 uuid2) as Hsame.
  assert (Htruthy : dict_truthy (stored_data self u t uuid1)
                    = dict_truthy (stored_data self u t uuid2))
    by (by rewrite !stored_data_truthy).
  split_and!.
  - intros Hne Heq. apply Hne.
    assert (stored_data self u t uuid1 = stored_data self u t uuid2) as Heq'
      by congruence.
    pose proof (stored_data_uuid self u t uuid1) as H1.
    rewrite Heq', stored_data_uuid in H1. congruence.
  - by apply relation_changed_again_stores.
  - by apply relation_changed_again_stores.
  - by apply relation_changed_again.
Qed.

(** X9. From [invalidate_dashboard] to the status event. The leader
    invalidates the stored record of a relation (not marked removed) with
    a reason: it returns, and the record it keeps and the record it sends
    are the stored one with [invalidated] set and the reason. The
    provider's handler, on what was sent, returns, drops the dashboard of
    the relation, keeps the record (without uuid) as invalid and writes
    the feedback [{errors: reason, valid: False}]; on that feedback the
    consumer's handler emits the status event with the reason, invalid,
    unless the reason is empty, in which case it emits nothing. *)
Theorem invalidated_dashboard_is_reported self reason rel dash cst pst emitted :
  is_leader self = true ->
  dict_get rel (GrafanaDashboardConsumer.dashboards cst) = Some dash ->
  truthy (dict_get_default dash "removed" (JBool false)) = false ->
  let record := <["invalidated_reason" := JStr reason]>
                (<["invalidated" := JBool true]> dash) in
  let cst' := snd (invalidate_dashboard self reason (Some rel) cst) in
  let result := _on_grafana_dashboard_relation_changed true rel
                  (sent (relation_dashboards cst' !! rel)) pst in
  fst (invalidate_dashboard self reason (Some rel) cst) = Return tt /\
  dict_get rel (GrafanaDashboardConsumer.dashboards cst') = Some record /\
  relation_dashboards cst' !! rel = Some record /\
  fst result = Return tt /\
  dict_get rel (dashboards (snd result)) = None /\
  dict_get rel (invalid_dashboards (snd result)) = Some (delete "uuid" record) /\
  relation_event (snd result) !! rel
    = Some {| errors := JStr reason; valid := false |} /\
  ConsumerFeedback._on_grafana_dashboard_relation_changed true
    (delivered (relation_event (snd result) !! rel)) emitted
  = (Return tt,
     (emitted ++
      if bool_decide (reason = "") then []
      else [ {| ConsumerFeedback.error_message := JStr reason;
                ConsumerFeedback.valid := JBool false |} ])%list).
Proof.
  intros Hleader Hstored Hrem record cst' result.
  assert (Hinv : invalidate_dashboard self reason (Some rel) cst
    = (Return tt,
       {| GrafanaDashboardConsumer.dashboards :=
            dict_set rel record (GrafanaDashboardConsumer.dashboards cst);
          relation_dashboards := <[rel := record]> (relation_dashboards cst);
          status_events := status_events cst |})).
  { unfold invalidate_dashboard. rewrite Hleader. run_consumer. simpl.
    by rewrite Hstored. }
  subst result cst'. rewrite Hinv. simpl. rewrite lookup_insert_eq. simpl.
  set (result := _on_grafana_dashboard_relation_changed true rel _ pst).
  assert (Hresult : result =
    (Return tt,
     {| dashboards := dict_del rel (dashboards pst);
        invalid_dashboards := dict_set rel (delete "uuid" record) (invalid_dashboards pst);
        active_sources := active_sources pst;
        relation_event :=
          <[rel := {| errors := JStr reason; valid := false |}]> (relation_event pst);
        effects :=
          (effects pst ++
           match dict_get rel (dashboards pst) with
           | Some _ => [DashboardsChanged;
                        EventWritten rel {| errors := JStr reason; valid := false |}]
           | None => [EventWritten rel {| errors := JStr reason; valid := false |}]
           end)%list |})).
  { subst result.
    unfold _on_grafana_dashboard_relation_changed. simpl.
    assert (dict_truthy record = true) as ->.
    { unfold dict_truthy. rewrite bool_decide_false; [done|]. intros Hempty.
      assert (record !! "invalidated_reason" = Some (JStr reason)) as H
        by apply lookup_insert_eq.
      by rewrite Hempty, lookup_empty in H. }
    simpl.
    assert (dict_get_default (delete "uuid" record) "removed" (JBool false)
            = dict_get_default dash "removed" (JBool false)) as ->.
    { unfold dict_get_default, record.
      by rewrite lookup_delete_ne, !lookup_insert_ne by done. }
    rewrite Hrem.
    assert (dict_get_default (delete "uuid" record) "invalidated" (JBool false)
            = JBool true) as ->.
    { unfold dict_get_default, record.
      by rewrite lookup_delete_ne, lookup_insert_ne, lookup_insert_eq by done. }
    assert (dict_get_default (delete "uuid" record) "invalidated_reason" JNull
            = JStr reason) as Hreason.
    { unfold dict_get_default, record.
      by rewrite lookup_delete_ne, lookup_insert_eq by done. }
    simpl. run_monad. simpl. rewrite Hreason.
    destruct (dict_get rel (dashboards pst)); simpl; by rewrite <- ?app_assoc. }
  rewrite Hresult. simpl. rewrite !lookup_insert_eq, !dict_get_set_eq, dict_get_del_eq.
  split_and!; try done.
  unfold ConsumerFeedback._on_grafana_dashboard_relation_changed. simpl.
  cbv beta iota delta [bind ret ConsumerFeedback.as_dict ConsumerFeedback.emit
                       modify loaded_truthy].
  assert (dict_truthy (<["errors" := JStr reason]> (<["valid" := JBool false]> ∅))
          = true) as ->.
  { unfold dict_truthy. rewrite bool_decide_false; [done|].
    intros Hempty. apply (f_equal (fun m => m !! "errors")) in Hempty.
    by rewrite lookup_insert_eq, lookup_empty in Hempty. }
  simpl. unfold dict_get_default. rewrite lookup_insert_eq. simpl.
  rewrite lookup_insert_ne by done. rewrite lookup_insert_eq. simpl.
  case_bool_decide; simpl; [by rewrite app_nil_r|done].
Qed.

End EndToEnd.

(** * The scenario, run further *)

Section ProviderRuns.
Import GrafanaDashboardProvider Verdict Reach ProviderHelpers Settled Sample Scenario.

Lemma find_returns_first_match_witness :
  let st := snd (renew_dashboards
                   [ {| source_name := "other [grafana]" |};
                     {| source_name := datasource_name |};
                     {| source_name := "model-abc_uuid1_appX [second]" |} ]
                   initial) in
  _find_grafana_datasource the_record 1 st = (Return (Some datasource_name), st).
Proof.
  apply (find_returns_first_match the_record 1 _
           "model-abc_uuid1_appX"
           [ {| source_name := "other [grafana]" |} ]
           {| source_name := datasource_name |}
           [ {| source_name := "model-abc_uuid1_appX [second]" |} ]).
  - reflexivity.
  - reflexivity.
  - intros y [<-|[]]. reflexivity.
  - reflexivity.
Defined.

Lemma renew_dashboards_again_witness :
  let st1 := snd (renew_dashboards scenario_sources with_invalid) in
  exists st2 new,
    renew_dashboards scenario_sources st1 = (Return tt, st2) /\
    dashboards st2 = dashboards st1 /\
    invalid_dashboards st2 = invalid_dashboards st1 /\
    effects st2 = (effects st1 ++ new)%list /\
    changes new = 0%nat.
Proof.
  apply (renew_dashboards_again (E := libraries) scenario_sources with_invalid).
  - split; [apply NoDup_nil_2|apply NoDup_singleton].
  - intros rel_id. left. reflexivity.
  - reflexivity.
Defined.

Lemma quiet_operation_keeps_dashboards_witness :
  let op := RelationChanged true 1 (Payload (Some (LDict (scenario_record "u2")))) in
  exists new,
    effects (snd (run op with_active)) = (effects with_active ++ new)%list /\
    (changes new = 0%nat ->
     dashboards (snd (run op with_active)) = dashboards with_active).
Proof.
  apply (quiet_operation_keeps_dashboards (E := libraries)
           (RelationChanged true 1 (Payload (Some (LDict (scenario_record "u2")))))
           with_active).
  intros is_leader rel d0 [= <- <- <-]. reflexivity.
Defined.

Lemma invalid_dashboards_are_reported_witness :
  invalid_reported with_invalid.
Proof.
  apply (invalid_dashboards_are_reported (E := libraries)).
  exact (reachable_step initial
           (RelationChanged true 1 (Payload (Some (LDict (scenario_record "u1")))))
           reachable_initial).
Defined.

Lemma dashboards_are_renderings_witness :
  all_renderings (E := libraries) with_active.
Proof.
  apply (dashboards_are_renderings (E := libraries)).
  exact (reachable_step _
           (RelationChanged true 1 (Payload (Some (LDict (scenario_record "u1")))))
           (reachable_step initial (RenewDashboards scenario_sources)
              reachable_initial)).
Defined.

Lemma relation_broken_always_signals_witness :
  let result := _on_grafana_dashboard_relation_broken true 1 with_invalid in
  fst result = Return tt /\
  dict_get 1 (dashboards (snd result)) = None /\
  (forall k, k <> 1%Z ->
     dict_get k (dashboards (snd result)) = dict_get k (dashboards with_invalid)) /\
  invalid_dashboards (snd result) = invalid_dashboards with_invalid /\
  relation_event (snd result) = relation_event with_invalid /\
  effects (snd result) = (effects with_invalid ++ [DashboardsChanged])%list /\
  (dict_get 1 (dashboards with_invalid) = None ->
   dashboards_property (snd result) = dashboards_property with_invalid).
Proof. apply (relation_broken_always_signals 1 with_invalid). Defined.

Lemma check_active_data_sources_is_the_inline_check_witness :
  let d := delete "uuid" (scenario_record "u1") in
  _on_grafana_dashboard_relation_changed true 1
    (Payload (Some (LDict (scenario_record "u1")))) initial
    = (ok <- _check_active_data_sources d 1 ;;
       if ok then _validate_dashboard_data d 1 else ret tt) initial /\
  (active_sources initial <> [] ->
   _check_active_data_sources d 1 initial = (Return true, initial)) /\
  (active_sources initial = [] ->
   fst (_check_active_data_sources d 1 initial) = Return false /\
   dict_get 1 (invalid_dashboards (snd (_check_active_data_sources d 1 initial)))
     = Some d /\
   dict_get 1 (dashboards (snd (_check_active_data_sources d 1 initial))) = None).
Proof.
  apply (check_active_data_sources_is_the_inline_check (E := libraries) 1
           (scenario_record "u1") initial); reflexivity.
Defined.

Lemma unparsable_template_is_forgotten_witness :
  let d0 := <["template" := JStr unclosed_template_b64]> (scenario_record "u2") in
  let bad := {| errors := JStr "Cannot add Grafana dashboard. Template is not valid Jinja";
                valid := false |} in
  let result := _on_grafana_dashboard_relation_changed true 1
                  (Payload (Some (LDict d0))) with_sources in
  let later := renew_dashboards scenario_sources (snd result) in
  fst result = Return tt /\
  dict_get 1 (dashboards (snd result)) = None /\
  dict_get 1 (invalid_dashboards (snd result)) = None /\
  relation_event (snd result) !! 1%Z = Some bad /\
  dict_get 1 (dashboards (snd later)) = None /\
  dict_get 1 (invalid_dashboards (snd later)) = None /\
  relation_event (snd later) !! 1%Z = Some bad /\
  exists new,
    effects (snd later) = (effects (snd result) ++ new)%list /\
    forall fb, writes 1 fb new = 0%nat.
Proof.
  apply (unparsable_template_is_forgotten (E := libraries) 1
           (<["template" := JStr unclosed_template_b64]> (scenario_record "u2"))
           with_sources "model-abc_uuid1_appX" unclosed_template_b64
           unclosed_template scenario_sources).
  - reflexivity.
  - reflexivity.
  - reflexivity.
  - discriminate.
  - eexists. split; [left; reflexivity|reflexivity].
  - reflexivity.
  - reflexivity.
  - reflexivity.
  - reflexivity.
Defined.

End ProviderRuns.

Section ConsumerMoreRuns.
Import GrafanaDashboardConsumer ConsumerScenario.

Lemma add_dashboard_needs_a_monitoring_unit_witness :
  let self := {| is_leader := true; app_name := "cassandra";
                 model_name := "model-abc"; model_uuid := "uuid1";
                 relations := [1%Z]; monitoring := [[]];
                 relation_id := None |} in
  (monitoring self = [] ->
   add_dashboard (E := Sample.libraries) self Sample.datasource_template None "u1" initial
     = (Return tt,
        {| dashboards := dashboards initial;
           relation_dashboards := relation_dashboards initial;
           status_events :=
             (status_events initial ++
              [ {| error_message :=
                     "Waiting for a prometheus_scrape relation to send dashboard data";
                   status_valid := false |} ])%list |})) /\
  (monitoring self = [[]] ->
   add_dashboard (E := Sample.libraries) self Sample.datasource_template None "u1" initial
     = (Raise KeyError, initial)) /\
  (forall r1 r2 rest, monitoring self = r1 :: r2 :: rest ->
   add_dashboard (E := Sample.libraries) self Sample.datasource_template None "u1" initial
     = (Raise TooManyRelatedAppsError, initial)).
Proof.
  apply (add_dashboard_needs_a_monitoring_unit (E := Sample.libraries)
           {| is_leader := true; app_name := "cassandra";
              model_name := "model-abc"; model_uuid := "uuid1";
              relations := [1%Z]; monitoring := [[]];
              relation_id := None |}
           Sample.datasource_template None "u1" initial).
  right. exists 1%Z. reflexivity.
Defined.

Lemma invalidate_dashboard_needs_a_record_witness :
  (is_leader leader = false ->
   invalidate_dashboard leader "retired" (Some 1%Z) initial = (Return tt, initial)) /\
  (is_leader leader = true ->
   forall r,
   Some 1%Z = Some r ->
   dict_get r (dashboards initial) = None ->
   invalidate_dashboard leader "retired" (Some 1%Z) initial = (Raise KeyError, initial)) /\
  (is_leader leader = true ->
   Some 1%Z = None -> relation_id leader = None -> relations leader = [] ->
   invalidate_dashboard leader "retired" (Some 1%Z) initial
     = (Raise AttributeError, initial)).
Proof.
  apply (invalidate_dashboard_needs_a_record leader "retired" (Some 1%Z) initial).
Defined.

End ConsumerMoreRuns.

Section EndToEndRuns.
Import GrafanaDashboardConsumer ConsumerRecord GrafanaDashboardProvider Verdict Reach
  Transport Sample Scenario ConsumerScenario.

Lemma feedback_is_announced_witness :
  ConsumerFeedback._on_grafana_dashboard_relation_changed true
    (delivered (Some {| errors := JStr "Cannot add Grafana dashboard. No configured datasources";
                        valid := false |})) []
  = (Return tt,
     [ {| ConsumerFeedback.error_message :=
            JStr "Cannot add Grafana dashboard. No configured datasources";
          ConsumerFeedback.valid := JBool false |} ]).
Proof.
  apply (feedback_is_announced (E := libraries) with_invalid 1
           {| errors := JStr "Cannot add Grafana dashboard. No configured datasources";
              valid := false |} []).
  - exact (reachable_step initial
             (RelationChanged true 1 (Payload (Some (LDict (scenario_record "u1")))))
             reachable_initial).
  - left. reflexivity.
Defined.

Lemma added_dashboard_is_rendered_witness :
  exists record src out encoded,
    relation_dashboards submitted !! 1%Z = Some record /\
    dict_get 1 (GrafanaDashboardConsumer.dashboards submitted) = Some record /\
    In record (ConsumerFeedback.dashboards submitted) /\
    In src (active_sources with_sources) /\
    str_in "model-abc_uuid1_appX" (source_name src) = true /\
    @render libraries datasource_template (source_name src)
      (JStr "Cassandra [ model-abc / uuid1 ]")
      (JStr "juju_model='model-abc',juju_model_uuid='uuid1',juju_application='cassandra'")
      = Some out /\
    encode_template out = Return encoded /\
    decode_template encoded = Return out /\
    let result := _on_grafana_dashboard_relation_changed true 1
                    (sent (relation_dashboards submitted !! 1%Z)) with_sources in
    fst result = Return tt /\
    dict_get 1 (dashboards (snd result))
      = Some {| target := JStr "model-abc_uuid1_appX"; dashboard := encoded;
                data := delete "uuid" record |} /\
    dict_get 1 (invalid_dashboards (snd result)) = None /\
    changes (drop (length (effects with_sources)) (effects (snd result))) = 1%nat.
Proof.
  apply (added_dashboard_is_rendered (E := libraries) leader datasource_template 1
           "u1" {| backend_model_name := "model-abc"; backend_model_uuid := "uuid1";
                   unit_app_name := "appX" |} []
           GrafanaDashboardConsumer.initial submitted with_sources
           datasource_template).
  - reflexivity.
  - reflexivity.
  - reflexivity.
  - reflexivity.
  - intros src [<-|[]]. eexists. reflexivity.
  - eexists. split; [left; reflexivity|reflexivity].
  - reflexivity.
Defined.

Lemma resubmission_is_quiet_witness :
  let cst1 := snd (add_dashboard (E := libraries) leader datasource_template
                     (Some 1%Z) "u1" GrafanaDashboardConsumer.initial) in
  let cst2 := snd (add_dashboard (E := libraries) leader datasource_template
                     (Some 1%Z) "u2" cst1) in
  let first := sent (relation_dashboards cst1 !! 1%Z) in
  let second := sent (relation_dashboards cst2 !! 1%Z) in
  let pst1 := snd (_on_grafana_dashboard_relation_changed true 1 first with_sources) in
  let pst2 := snd (_on_grafana_dashboard_relation_changed true 1 second pst1) in
  ("u1" <> "u2" -> first <> second) /\
  dashboards pst2 = dashboards pst1 /\
  invalid_dashboards pst2 = invalid_dashboards pst1 /\
  exists new,
    effects pst2 = (effects pst1 ++ new)%list /\ changes new = 0%nat.
Proof.
  apply (resubmission_is_quiet (E := libraries) leader datasource_template 1
           "u1" "u2" {| backend_model_name := "model-abc"; backend_model_uuid := "uuid1";
                        unit_app_name := "appX" |} []
           GrafanaDashboardConsumer.initial _ _ with_sources).
  - reflexivity.
  - reflexivity.
  - reflexivity.
  - reflexivity.
Defined.

Lemma invalidated_dashboard_is_reported_witness :
  let record := <["invalidated_reason" := JStr "retired"]>
                (<["invalidated" := JBool true]> (scenario_record "u1")) in
  let cst' := snd (invalidate_dashboard leader "retired" (Some 1%Z) submitted) in
  let result := _on_grafana_dashboard_relation_changed true 1
                  (sent (relation_dashboards cst' !! 1%Z)) with_active in
  fst (invalidate_dashboard leader "retired" (Some 1%Z) submitted) = Return tt /\
  dict_get 1 (GrafanaDashboardConsumer.dashboards cst') = Some record /\
  relation_dashboards cst' !! 1%Z = Some record /\
  fst result = Return tt /\
  dict_get 1 (dashboards (snd result)) = None /\
  dict_get 1 (invalid_dashboards (snd result)) = Some (delete "uuid" record) /\
  relation_event (snd result) !! 1%Z
    = Some {| errors := JStr "retired"; valid := false |} /\
  ConsumerFeedback._on_grafana_dashboard_relation_changed true
    (delivered (relation_event (snd result) !! 1%Z)) []
  = (Return tt,
     [ {| ConsumerFeedback.error_message := JStr "retired";
          ConsumerFeedback.valid := JBool false |} ]).
Proof.
  apply (invalidated_dashboard_is_reported (E := libraries) leader "retired" 1
           (scenario_record "u1") submitted with_active []).
  - reflexivity.
  - reflexivity.
  - reflexivity.
Defined.

End EndToEndRuns.
